(** * nosh: recommendation matching, history ranking, enrichment fallbacks,
      the analytics cache and the rating update

    A shallow embedding of the JavaScript sources

    - the AI service (class [AIService]: [getRecommendations],
      [rankByAI], [analyzeCustomerHistory], [getMenuContext],
      [enhanceDescription], [answerQuestion]),
    - the analytics router ([analyticsCache], [checkCache] and the three
      cached handlers),
    - [models/Menu.js] (the schema and [updateRating]),

    together with the properties the specification states about them.

    Conventions of the embedding.
    - A JS number is an exact rational ([Q]); counters that the code only
      ever increments from 0 ([rating.count], [popularity], occurrence
      counts) are [nat].  Rounding, NaN and the infinities of IEEE doubles
      are outside the model.
    - A JS string is a [string] of ASCII characters; [toLowerCase] folds
      the letters A-Z.
    - A function whose body is wrapped in [try]/[catch] is embedded with
      its exceptions explicit ([JS A] below), the handler included.
    - What is not code of the repository (the MongoDB query semantics, the
      JS regular-expression engine, the HTTP completion service) is either
      written out from its documentation, with a comment that says so, or
      taken as a [Variable] of a [Section]. *)

From Stdlib Require Import Ascii String.
From Stdlib Require Import List Bool Arith Lia ZArith QArith Qminmax Qround Lqa.
From Stdlib Require Import Permutation Sorted.
Import ListNotations.

Local Open Scope string_scope.
Local Open Scope list_scope.

(* ------------------------------------------------------------------ *)
(** ** JavaScript strings *)

Module JSString.

(** [String.prototype.toLowerCase] on ASCII. *)
Definition lower_char (c : ascii) : ascii :=
  let n := nat_of_ascii c in
  if (65 <=? n)%nat && (n <=? 90)%nat then ascii_of_nat (n + 32) else c.

Fixpoint toLowerCase (s : string) : string :=
  match s with
  | EmptyString => EmptyString
  | String c s' => String (lower_char c) (toLowerCase s')
  end.

(** [s.startsWith(p)]. *)
Fixpoint startsWith (p s : string) : bool :=
  match p, s with
  | EmptyString, _ => true
  | String _ _, EmptyString => false
  | String a p', String b s' => Ascii.eqb a b && startsWith p' s'
  end.

(** [s.includes(p)]: [p] occurs in [s] as a substring. *)
Fixpoint includes (p s : string) : bool :=
  startsWith p s ||
  match s with
  | EmptyString => false
  | String _ s' => includes p s'
  end.

(** Case-insensitive substring: the reading of "name contains the
    preferred string" used by the specification. *)
Definition includes_ci (p s : string) : bool :=
  includes (toLowerCase p) (toLowerCase s).

(** White space removed by [String.prototype.trim] (ASCII part). *)
Definition is_space (c : ascii) : bool :=
  let n := nat_of_ascii c in
  (n =? 32)%nat || ((9 <=? n)%nat && (n <=? 13)%nat).

Fixpoint trimStart (s : string) : string :=
  match s with
  | EmptyString => EmptyString
  | String c s' => if is_space c then trimStart s' else s
  end.

Fixpoint trimEnd (s : string) : string :=
  match s with
  | EmptyString => EmptyString
  | String c s' =>
      match trimEnd s' with
      | EmptyString => if is_space c then EmptyString else String c EmptyString
      | t => String c t
      end
  end.

Definition trim (s : string) : string := trimEnd (trimStart s).

(** Truthiness of a string: only the empty string is falsy. *)
Definition truthy (s : string) : bool :=
  match s with EmptyString => false | _ => true end.

(** [Array.prototype.includes] on an array of strings. *)
Definition array_includes (l : list string) (s : string) : bool :=
  existsb (String.eqb s) l.

End JSString.

(* ------------------------------------------------------------------ *)
(** ** Stable sorting

  [Array.prototype.sort] is required to be stable, and so is the order
  used for the store below.  For a comparator that is a strict weak
  order the result of a stable sort is determined by the input, so one
  stable algorithm stands for all of them.  [before a b] is "the
  comparator puts [a] strictly in front of [b]"
  ([comparefn(a, b) < 0]). *)

Section StableSort.

Context {A : Type}.
Variable before : A -> A -> bool.

Fixpoint insert_stable (x : A) (l : list A) : list A :=
  match l with
  | [] => [x]
  | y :: l' =>
      if before y x then y :: insert_stable x l' else x :: y :: l'
  end.

Definition stable_sort (l : list A) : list A :=
  fold_right insert_stable [] l.

(** [x] may stand in front of [y]. *)
Definition in_order (x y : A) : Prop := before y x = false.

End StableSort.

(* ------------------------------------------------------------------ *)
(** ** Exceptions

    [JS A] is the outcome of evaluating a piece of JavaScript that yields
    an [A]: it returns, or it throws.  [try_catch] is the [try { } catch
    (error) { }] statement. *)

Inductive JSError : Type :=
| TypeError       (* property access on undefined / null *)
| SyntaxError     (* new RegExp on an ill-formed pattern *)
| RequestError.   (* a rejected HTTP request: time-out, network, status *)

Inductive JS (A : Type) : Type :=
| Return (a : A)
| Throw (e : JSError).

Arguments Return {A} a.
Arguments Throw {A} e.

Definition bind {A B : Type} (m : JS A) (k : A -> JS B) : JS B :=
  match m with
  | Return a => k a
  | Throw e => Throw e
  end.

Definition try_catch {A : Type} (body : JS A) (handler : JSError -> JS A) : JS A :=
  match body with
  | Return a => Return a
  | Throw e => handler e
  end.

Notation "x <- m ;; k" := (bind m (fun x => k))
  (at level 61, m at next level, right associativity).

(** [l.forEach(f)] / [l.map(f)] with a callback that may throw. *)
Fixpoint mapM {A B : Type} (f : A -> JS B) (l : list A) : JS (list B) :=
  match l with
  | [] => Return []
  | x :: l' => y <- f x ;; ys <- mapM f l' ;; Return (y :: ys)
  end.

(* ------------------------------------------------------------------ *)
(** ** Data model ([models/Menu.js]) *)

(** [category: enum ['appetizer', 'main', 'dessert', 'beverage', 'side',
    'salad', 'soup']]. *)
Inductive Category : Type :=
| appetizer | main | dessert | beverage | side | salad | soup.

Definition category_name (c : Category) : string :=
  match c with
  | appetizer => "appetizer" | main => "main" | dessert => "dessert"
  | beverage => "beverage" | side => "side" | salad => "salad"
  | soup => "soup"
  end.

(** [availability: enum ['available', 'limited', 'unavailable']]. *)
Inductive Availability : Type := available | limited | unavailable.

(** [allergens: enum ['gluten', 'dairy', 'nuts', 'shellfish', 'eggs',
    'soy', 'fish', 'wheat']]. *)
Inductive Allergen : Type :=
| gluten | dairy | nuts | shellfish | eggs | soy | fish | wheat.

(** [spiceLevel], as the request schema admits it. *)
Inductive SpiceLevel : Type := mild | medium | hot | extra_hot.

Scheme Equality for Category.
Scheme Equality for Availability.
Scheme Equality for Allergen.

Record Ingredient : Type := {
  ing_name : string;
  ing_allergens : list Allergen
}.

Record Dietary : Type := {
  vegetarian : bool;
  vegan : bool;
  glutenFree : bool;
  dairyFree : bool;
  spicy : bool
}.

Record Rating : Type := {
  average : Q;
  count : nat
}.

Record MenuItem : Type := {
  name : string;
  category : Category;
  price : Q;
  ingredients : list Ingredient;
  dietary : Dietary;
  availability : Availability;
  rating : Rating;
  popularity : nat
}.

(** The preferences of a customer, as [recommendationSchema] admits them
    and with the defaults of [getRecommendations] filled in. *)
Module Pref.

Record Dietary : Type := {
  vegetarian : bool;
  vegan : bool;
  glutenFree : bool;
  dairyFree : bool
}.

Record PriceRange : Type := { min : Q; max : Q }.

Record t : Type := {
  dietary : Dietary;
  allergies : list Allergen;
  spiceLevel : SpiceLevel;
  priceRange : PriceRange;
  category : option Category;      (* [null] when absent *)
  ingredients : list string
}.

End Pref.

(* ------------------------------------------------------------------ *)
(** ** The catalog store

    [MenuItem.find(query).sort({ rating: -1, popularity: -1 }).limit(10)]
    is answered by MongoDB.  The store is a list of documents in natural
    order; the meaning of a query and of the sort is written out from the
    MongoDB manual for the operators the code uses. *)

(** A compiled regular expression, [new RegExp(source, 'i')]: its
    source and the set of strings it matches somewhere ([test]). *)
Record RegExpObj : Type := {
  source : string;
  test : string -> bool
}.

(** The query object.  A key the code does not set is [None]. *)
Record Query : Type := {
  q_availability : Availability;                 (* availability *)
  q_vegetarian : option bool;                    (* 'dietary.vegetarian' *)
  q_vegan : option bool;                         (* 'dietary.vegan' *)
  q_glutenFree : option bool;                    (* 'dietary.glutenFree' *)
  q_dairyFree : option bool;                     (* 'dietary.dairyFree' *)
  q_price : option (Q * Q);                      (* price: { $gte, $lte } *)
  q_category : option string;                    (* category *)
  q_spicy : option bool;                         (* 'dietary.spicy' *)
  q_allergens_nin : option (list Allergen);      (* 'ingredients.allergens': { $nin } *)
  q_name_in : option (list RegExpObj)            (* 'ingredients.name': { $in } *)
}.

(** A key that is absent constrains nothing. *)
Definition clause {A : Type} (c : option A) (holds : A -> bool) : bool :=
  match c with
  | None => true
  | Some a => holds a
  end.

(** ['ingredients.allergens': { $nin: l }]: no allergen tag of any
    ingredient is in [l]. *)
Definition allergens_nin (l : list Allergen) (m : MenuItem) : bool :=
  negb (existsb (fun a => existsb (Allergen_beq a) l)
                (flat_map ing_allergens (ingredients m))).

(** ['ingredients.name': { $in: rs }] with regular expressions: some
    ingredient name is matched by some of them. *)
Definition name_in (rs : list RegExpObj) (m : MenuItem) : bool :=
  existsb (fun ing => existsb (fun r => test r (ing_name ing)) rs)
          (ingredients m).

(** Equality and range clauses are conjoined. *)
Definition matches (q : Query) (m : MenuItem) : bool :=
  Availability_beq (availability m) (q_availability q)
  && clause (q_vegetarian q) (Bool.eqb (vegetarian (dietary m)))
  && clause (q_vegan q) (Bool.eqb (vegan (dietary m)))
  && clause (q_glutenFree q) (Bool.eqb (glutenFree (dietary m)))
  && clause (q_dairyFree q) (Bool.eqb (dairyFree (dietary m)))
  && clause (q_price q)
       (fun r => Qle_bool (fst r) (price m) && Qle_bool (price m) (snd r))
  && clause (q_category q) (String.eqb (category_name (category m)))
  && clause (q_spicy q) (Bool.eqb (spicy (dietary m)))
  && clause (q_allergens_nin q) (fun l => allergens_nin l m)
  && clause (q_name_in q) (fun rs => name_in rs m).

(** [sort({ rating: -1, popularity: -1 })].  The first key is the embedded
    document [rating], not [rating.average]: embedded documents compare
    field by field in stored order, so [average] decides first and
    [count] second; [popularity] is consulted only when the two [rating]
    documents are equal. *)
Definition rating_compare (r1 r2 : Rating) : comparison :=
  match Qcompare (average r1) (average r2) with
  | Eq => Nat.compare (count r1) (count r2)
  | c => c
  end.

Definition sort_compare (a b : MenuItem) : comparison :=
  match rating_compare (rating a) (rating b) with
  | Eq => Nat.compare (popularity a) (popularity b)
  | c => c
  end.

(** Descending: [a] goes in front of [b] when its key is greater. *)
Definition store_before (a b : MenuItem) : bool :=
  match sort_compare a b with
  | Gt => true
  | _ => false
  end.

(** [find(q).sort(...)]: the documents that match, sorted.  MongoDB
    leaves the order of documents with equal keys open; here they stay
    in natural order. *)
Definition find_sorted (catalog : list MenuItem) (q : Query) : list MenuItem :=
  stable_sort store_before (filter (matches q) catalog).

(** [find(q).sort({ rating: -1, popularity: -1 }).limit(10)]. *)
Definition find (catalog : list MenuItem) (q : Query) : list MenuItem :=
  firstn 10 (find_sorted catalog q).

(** [find(q).limit(n)], no sort. *)
Definition find_limit (catalog : list MenuItem) (q : Query) (n : nat) : list MenuItem :=
  firstn n (filter (matches q) catalog).

(* ------------------------------------------------------------------ *)
(** ** Plain objects used as counters

    [const categoryCount = {}] with
    [categoryCount[k] = (categoryCount[k] || 0) + 1].  The own properties
    are kept in creation order.  [Object.entries] lists the keys that are
    array indices first, in ascending numeric order, and every other key
    after them in creation order (OrdinaryOwnPropertyKeys).

    Keys that name a member of [Object.prototype] ([constructor],
    [toString], [__proto__], ...) are not modelled: for them the read
    [categoryCount[k]] finds the inherited member, not [undefined].
    [ordinary_key] below excludes them. *)

Module JSObject.

Definition t : Type := list (string * nat).

(** [o[k] = (o[k] || 0) + 1]. *)
Fixpoint bump (k : string) (o : t) : t :=
  match o with
  | [] => [(k, 1%nat)]
  | (k', n) :: o' =>
      if String.eqb k k' then (k', S n) :: o' else (k', n) :: bump k o'
  end.

Definition is_digit (c : ascii) : bool :=
  let n := nat_of_ascii c in (48 <=? n)%nat && (n <=? 57)%nat.

Fixpoint digits_value (s : string) (acc : N) : option N :=
  match s with
  | EmptyString => Some acc
  | String c s' =>
      if is_digit c
      then digits_value s' (10 * acc + N.of_nat (nat_of_ascii c - 48))%N
      else None
  end.

(** The array index a key denotes, if any: a canonical decimal numeral
    (no leading zero) below 2^32 - 1. *)
Definition array_index (k : string) : option N :=
  match k with
  | EmptyString => None
  | String c rest =>
      if Ascii.eqb c "0"%char && JSString.truthy rest then None
      else match digits_value k 0%N with
           | Some v => if (v <? 4294967295)%N then Some v else None
           | None => None
           end
  end.

Definition is_index (e : string * nat) : bool :=
  match array_index (fst e) with Some _ => true | None => false end.

Definition index_before (a b : string * nat) : bool :=
  match array_index (fst a), array_index (fst b) with
  | Some i, Some j => (i <? j)%N
  | _, _ => false
  end.

(** [Object.entries(o)]. *)
Definition entries (o : t) : list (string * nat) :=
  stable_sort index_before (filter is_index o)
  ++ filter (fun e => negb (is_index e)) o.



End JSObject.

(* ------------------------------------------------------------------ *)
(** ** History analysis ([AIService.analyzeCustomerHistory])

    [customerHistory] is taken from the request body as it comes.  The
    fields the code reads are modelled with their possible absence:
    [order.items] and [ingredient.name] are dereferenced without a guard,
    [item.menuItem], [menuItem.category] and [menuItem.ingredients] are
    guarded by a truthiness test.  [item.price] is a number. *)

Module History.

Record Ingredient : Type := { name : option string }.

Record MenuRef : Type := {
  category : option string;
  ingredients : option (list Ingredient)
}.

Record Item : Type := {
  menuItem : option MenuRef;
  price : Q
}.

Record Order : Type := { items : option (list Item) }.

End History.

Record Analysis : Type := {
  preferredCategories : list string;
  preferredIngredients : list string;
  priceRange : Pref.PriceRange;
  spicePreference : string
}.

(** [l.forEach(x => ...)] over a callback that updates a captured object
    and may throw. *)
Fixpoint forEach {A S : Type} (f : S -> A -> JS S) (s : S) (l : list A) : JS S :=
  match l with
  | [] => Return s
  | x :: l' => s' <- f s x ;; forEach f s' l'
  end.

(** Dereferencing a property that may be [undefined]. *)
Definition deref {A : Type} (o : option A) : JS A :=
  match o with
  | Some a => Return a
  | None => Throw TypeError
  end.

Definition Qlt_bool (x y : Q) : bool := negb (Qle_bool y x).

(** [([, a], [, b]) => b - a] is negative. *)
Definition count_before (x y : string * nat) : bool :=
  (Z.of_nat (snd y) - Z.of_nat (snd x) <? 0)%Z.

(** [Object.entries(o).sort(([,a], [,b]) => b - a).slice(0, n).map(([k]) => k)]. *)
Definition top (n : nat) (o : JSObject.t) : list string :=
  map fst (firstn n (stable_sort count_before (JSObject.entries o))).

Definition count_category (o : JSObject.t) (item : History.Item) : JS JSObject.t :=
  match History.menuItem item with
  | Some m =>
      match History.category m with
      | Some c => if JSString.truthy c then Return (JSObject.bump c o) else Return o
      | None => Return o
      end
  | None => Return o
  end.

Definition count_ingredient (o : JSObject.t) (ingredient : History.Ingredient)
  : JS JSObject.t :=
  n <- deref (History.name ingredient) ;;
  Return (JSObject.bump (JSString.toLowerCase n) o).

Definition count_ingredients (o : JSObject.t) (item : History.Item) : JS JSObject.t :=
  match History.menuItem item with
  | Some m =>
      match History.ingredients m with
      | Some ings => forEach count_ingredient o ings
      | None => Return o
      end
  | None => Return o
  end.

(** [history.forEach(order => order.items.forEach(f))]. *)
Definition forEach_item (f : JSObject.t -> History.Item -> JS JSObject.t)
  (o : JSObject.t) (history : list History.Order) : JS JSObject.t :=
  forEach (fun o order => its <- deref (History.items order) ;; forEach f o its)
          o history.

(** [history.flatMap(order => order.items.map(item => item.price))]. *)
Fixpoint flatMap_prices (history : list History.Order) : JS (list Q) :=
  match history with
  | [] => Return []
  | order :: rest =>
      its <- deref (History.items order) ;;
      ps <- flatMap_prices rest ;;
      Return (map History.price its ++ ps)
  end.

(** [Math.min(...prices)] and [Math.max(...prices)] on a non-empty array. *)
Definition Math_min (p : Q) (ps : list Q) : Q := fold_left Qmin ps p.
Definition Math_max (p : Q) (ps : list Q) : Q := fold_left Qmax ps p.

Definition default_analysis : Analysis :=
  {| preferredCategories := [];
     preferredIngredients := [];
     priceRange := {| Pref.min := 0; Pref.max := 100 |};
     spicePreference := "medium" |}.

Definition analyzeCustomerHistory (history : list History.Order) : JS Analysis :=
  match history with
  | [] => Return default_analysis
  | _ =>
      categoryCount <- forEach_item count_category [] history ;;
      let cats := top 3 categoryCount in
      ingredientCount <- forEach_item count_ingredients [] history ;;
      let ings := top 10 ingredientCount in
      prices <- flatMap_prices history ;;
      let band :=
        match prices with
        | [] => {| Pref.min := 0; Pref.max := 100 |}
        | p :: ps => {| Pref.min := Math_min p ps * 0.8;
                        Pref.max := Math_max p ps * 1.2 |}
        end in
      Return {| preferredCategories := cats;
                preferredIngredients := ings;
                priceRange := band;
                spicePreference := "medium" |}
  end.

(* ------------------------------------------------------------------ *)
(** ** Ranking ([AIService.rankByAI]) *)

Definition nat_to_Q (n : nat) : Q := inject_Z (Z.of_nat n).

(** The callback of [items.map]: [let score = 0; score += ...]. *)
Definition score_item (historyAnalysis : Analysis) (item : MenuItem) : Q :=
  let score := 0 in
  let score := score + (average (rating item) * 0.4 + nat_to_Q (popularity item) * 0.1) in
  let score :=
    if JSString.array_includes (preferredCategories historyAnalysis)
                               (category_name (category item))
    then score + 0.3 else score in
  let ingredientMatch :=
    length (filter (fun ing =>
                      JSString.array_includes (preferredIngredients historyAnalysis)
                                              (JSString.toLowerCase (ing_name ing)))
                   (ingredients item)) in
  let score := score + nat_to_Q ingredientMatch * 0.2 in
  let score :=
    if Qle_bool (Pref.min (priceRange historyAnalysis)) (price item)
       && Qle_bool (price item) (Pref.max (priceRange historyAnalysis))
    then score + 0.2 else score in
  score.

(** [(a, b) => b.score - a.score] is negative. *)
Definition score_before (a b : MenuItem * Q) : bool :=
  Qlt_bool (snd b - snd a) 0.

(** The [try] block once the analysis is at hand. *)
Definition rank_with (historyAnalysis : Analysis) (items : list MenuItem)
  : list MenuItem :=
  let scoredItems := map (fun item => (item, score_item historyAnalysis item)) items in
  map fst (stable_sort score_before scoredItems).

Definition rankByAI (items : list MenuItem) (customerHistory : list History.Order)
  : JS (list MenuItem) :=
  try_catch
    (historyAnalysis <- analyzeCustomerHistory customerHistory ;;
     Return (rank_with historyAnalysis items))
    (fun error => Return items).


(* ------------------------------------------------------------------ *)
(** ** Preference matching ([AIService.getRecommendations]) *)

Inductive Recommendations : Type :=
| RecSuccess (recommendations : list MenuItem) (count : nat) (preferences : Pref.t)
| RecFailure (error : string) (recommendations : list MenuItem).

Section Matcher.

(** [new RegExp(source, 'i')]: the compiled expression, or [None] when
    the constructor throws a [SyntaxError].  The engine is not code of
    the repository: the development holds for every engine. *)
Variable RegExp : string -> option RegExpObj.

Definition new_RegExp (i : string) : JS RegExpObj :=
  match RegExp i with
  | Some r => Return r
  | None => Throw SyntaxError
  end.

(** [if (flag) query[key] = true]. *)
Definition when_set (flag : bool) : option bool :=
  if flag then Some true else None.

(** The query built before the first [find]. *)
Definition primary_query (preferences : Pref.t) : JS Query :=
  let dietary := Pref.dietary preferences in
  let allergies := Pref.allergies preferences in
  let spiceLevel := Pref.spiceLevel preferences in
  let priceRange := Pref.priceRange preferences in
  let ingredients := Pref.ingredients preferences in
  names <-
    match ingredients with
    | [] => Return None
    | _ => rs <- mapM new_RegExp ingredients ;; Return (Some rs)
    end ;;
  Return
    {| q_availability := available;
       q_vegetarian := when_set (Pref.vegetarian dietary);
       q_vegan := when_set (Pref.vegan dietary);
       q_glutenFree := when_set (Pref.glutenFree dietary);
       q_dairyFree := when_set (Pref.dairyFree dietary);
       q_price := Some (Pref.min priceRange, Pref.max priceRange);
       q_category := option_map category_name (Pref.category preferences);
       q_spicy :=
         match spiceLevel with
         | mild => Some false
         | hot | extra_hot => Some true
         | medium => None
         end;
       q_allergens_nin :=
         match allergies with
         | [] => None
         | _ => Some allergies
         end;
       q_name_in := names |}.

(** The query of the second [find]. *)
Definition relaxed_query (preferences : Pref.t) : Query :=
  let dietary := Pref.dietary preferences in
  {| q_availability := available;
     q_vegetarian := when_set (Pref.vegetarian dietary || Pref.vegan dietary);
     q_vegan := None;
     q_glutenFree := None;
     q_dairyFree := None;
     q_price := None;
     q_category := None;
     q_spicy := None;
     q_allergens_nin := None;
     q_name_in := None |}.

(** The body of the [try] block.  The second component is the list of
    queries sent to the store, in order. *)
Definition recommend (catalog : list MenuItem) (preferences : Pref.t)
  (customerHistory : list History.Order) : JS (Recommendations * list Query) :=
  query <- primary_query preferences ;;
  let recommendations := find catalog query in
  let '(recommendations, sent) :=
    if (length recommendations =? 0)%nat
    then (find catalog (relaxed_query preferences),
          [query; relaxed_query preferences])
    else (recommendations, [query]) in
  recommendations <-
    (if (0 <? length customerHistory)%nat
     then rankByAI recommendations customerHistory
     else Return recommendations) ;;
  Return (RecSuccess recommendations (length recommendations) preferences, sent).

Definition getRecommendations (catalog : list MenuItem) (preferences : Pref.t)
  (customerHistory : list History.Order) : JS (Recommendations * list Query) :=
  try_catch
    (recommend catalog preferences customerHistory)
    (fun error => Return (RecFailure "Failed to get recommendations" [], [])).

End Matcher.

(* ------------------------------------------------------------------ *)
(** ** Text enrichment ([enhanceDescription], [answerQuestion])

    The completion service is reached with [axios.post]; the call
    resolves to a response or rejects (time-out after 30000 ms, network
    failure, error status).  The body of a response is JSON of any
    shape: every level the code looks at may be missing. *)

Module AI.

Record Message : Type := { content : option string }.
Record Choice : Type := { message : option Message }.
Record Data : Type := { choices : option (list (option Choice)) }.
Record Response : Type := { data : option Data }.

Record Request : Type := {
  url : string;
  model : string;
  system_content : string;
  user_content : string;
  max_tokens : nat;
  temperature : Q;
  authorization : string;
  timeout : N                      (* milliseconds *)
}.

(** The fields set by the constructor of [AIService]. *)
Record Service : Type := {
  apiKey : option string;          (* process.env.OPENAI_API_KEY *)
  modelName : string;
  baseUrl : string
}.

(** [context] of [answerQuestion]. *)
Record Context : Type := {
  category : option string;
  ingredients : option (list string);
  priceRange : option Pref.PriceRange
}.

Record Answer : Type := {
  success : bool;
  answer : string;
  source_tag : string              (* the field [source] *)
}.

End AI.

Definition dquote : string := String (ascii_of_nat 34) EmptyString.
Definition newline : string := String (ascii_of_nat 10) EmptyString.

(** [l.join(sep)]. *)
Fixpoint join (sep : string) (l : list string) : string :=
  match l with
  | [] => EmptyString
  | [x] => x
  | x :: l' => x ++ sep ++ join sep l'
  end.

(** [!this.apiKey]: the key is undefined or the empty string. *)
Definition no_key (this : AI.Service) : bool :=
  match AI.apiKey this with
  | None => true
  | Some k => negb (JSString.truthy k)
  end.

(** [response.data && response.data.choices && response.data.choices[0]
    && response.data.choices[0].message]. *)
Definition first_message (response : AI.Response) : option AI.Message :=
  match AI.data response with
  | Some d =>
      match AI.choices d with
      | Some (Some c :: _) => AI.message c
      | _ => None
      end
  | None => None
  end.

(** [a || b] on strings. *)
Definition or_else (a b : string) : string :=
  if JSString.truthy a then a else b.

(** The call did not produce a usable completion: it was rejected, or the
    response has no first message, or that message has no text. *)
Definition call_failed (outcome : JS AI.Response) : bool :=
  match outcome with
  | Throw _ => true
  | Return response =>
      match first_message response with
      | None => true
      | Some m =>
          match AI.content m with
          | None => true
          | Some _ => false
          end
      end
  end.

Section Enrichment.

Local Open Scope string_scope.

Variable RegExp : string -> option RegExpObj.

(** [axios.post(url, body, config)]. *)
Variable post : AI.Request -> JS AI.Response.

(** Conversion of a number to a string in a template literal. *)
Variable Number_toString : Q -> string.

Definition enhance_system : string :=
  "You are a helpful assistant that enhances restaurant menu descriptions to make them more appealing and appetizing while keeping them accurate and concise.".

Definition enhanceDescription (this : AI.Service) (originalDescription : string)
  (ingredients : list string) : JS string :=
  try_catch
    (if no_key this then Return originalDescription
     else
       let prompt :=
         "Enhance this restaurant dish description to make it more appealing: "
         ++ dquote ++ originalDescription ++ dquote ++ ". " ++ newline
         ++ "      Use these ingredients: " ++ join ", " ingredients ++ ". " ++ newline
         ++ "      Make it sound delicious and highlight the key features. Keep it under 100 words." in
       response <-
         post {| AI.url := AI.baseUrl this;
                 AI.model := AI.modelName this;
                 AI.system_content := enhance_system;
                 AI.user_content := prompt;
                 AI.max_tokens := 200;
                 AI.temperature := 0.7;
                 AI.authorization :=
                   "Bearer " ++ match AI.apiKey this with Some k => k | None => "undefined" end;
                 AI.timeout := 30000%N |} ;;
       match first_message response with
       | Some m =>
           c <- deref (AI.content m) ;;
           let enhanced := JSString.trim c in
           Return (or_else enhanced originalDescription)
       | None => Return originalDescription
       end)
    (fun error => Return originalDescription).

(** [AIService.getMenuContext]. *)
Definition getMenuContext (catalog : list MenuItem) (context : AI.Context) : JS string :=
  let names (l : list MenuItem) := join ", " (map name l) in
  try_catch
    (let contextInfo : list string := [] in
     let contextInfo :=
       match AI.category context with
       | Some c =>
           if JSString.truthy c then
             let categoryItems :=
               find_limit catalog
                 {| q_availability := available;
                    q_vegetarian := None; q_vegan := None; q_glutenFree := None;
                    q_dairyFree := None; q_price := None; q_category := Some c;
                    q_spicy := None; q_allergens_nin := None; q_name_in := None |} 5 in
             (contextInfo ++ [("Category: " ++ c ++ " - " ++ names categoryItems)%string])%list
           else contextInfo
       | None => contextInfo
       end in
     contextInfo <-
       match AI.ingredients context with
       | Some (i :: r) =>
           rs <- mapM (new_RegExp RegExp) (i :: r) ;;
           let ingredientItems :=
             find_limit catalog
               {| q_availability := available;
                  q_vegetarian := None; q_vegan := None; q_glutenFree := None;
                  q_dairyFree := None; q_price := None; q_category := None;
                  q_spicy := None; q_allergens_nin := None; q_name_in := Some rs |} 5 in
           Return (contextInfo ++
                   [("Ingredients: " ++ join ", " (i :: r) ++ " - "
                     ++ names ingredientItems)%string])%list
       | _ => Return contextInfo
       end ;;
     let contextInfo :=
       match AI.priceRange context with
       | Some pr =>
           let priceItems :=
             find_limit catalog
               {| q_availability := available;
                  q_vegetarian := None; q_vegan := None; q_glutenFree := None;
                  q_dairyFree := None;
                  q_price := Some (Pref.min pr, Pref.max pr); q_category := None;
                  q_spicy := None; q_allergens_nin := None; q_name_in := None |} 5 in
           (contextInfo ++
              [("Price range: $" ++ Number_toString (Pref.min pr) ++ "-$"
                ++ Number_toString (Pref.max pr) ++ " - " ++ names priceItems)%string])%list
       | None => contextInfo
       end in
     Return (join newline contextInfo))
    (fun error => Return "Menu information is currently unavailable.").

Definition answer_system : string :=
  "You are a helpful restaurant AI assistant. Your role is to answer customer questions about the menu items, ingredients, dietary restrictions, and recommendations. Be friendly, professional, and accurate. Use the menu context provided to give specific and helpful answers.".

Definition no_key_answer : AI.Answer :=
  {| AI.success := false;
     AI.answer := "AI service is not available. Please contact staff for assistance.";
     AI.source_tag := "fallback" |}.

Definition answerQuestion (this : AI.Service) (catalog : list MenuItem)
  (question : string) (context : AI.Context) : JS AI.Answer :=
  try_catch
    (if no_key this then Return no_key_answer
     else
       menuContext <- getMenuContext catalog context ;;
       let userPrompt :=
         "Customer question: " ++ dquote ++ question ++ dquote ++ newline
         ++ "      " ++ newline
         ++ "      Menu context: " ++ or_else menuContext "General menu information" ++ newline
         ++ "      " ++ newline
         ++ "      Please provide a helpful, accurate answer based on the menu information. Be friendly and professional." in
       response <-
         post {| AI.url := AI.baseUrl this;
                 AI.model := AI.modelName this;
                 AI.system_content := answer_system;
                 AI.user_content := userPrompt;
                 AI.max_tokens := 500;
                 AI.temperature := 0.7;
                 AI.authorization :=
                   "Bearer " ++ match AI.apiKey this with Some k => k | None => "undefined" end;
                 AI.timeout := 30000%N |} ;;
       match first_message response with
       | Some m =>
           c <- deref (AI.content m) ;;
           let answer := JSString.trim c in
           Return {| AI.success := true;
                     AI.answer := or_else answer "I apologize, but I couldn't generate a response. Please ask our staff for assistance.";
                     AI.source_tag := "ai" |}
       | None =>
           Return {| AI.success := false;
                     AI.answer := "I apologize, but I couldn't process your question. Please ask our staff for assistance.";
                     AI.source_tag := "fallback" |}
       end)
    (fun error =>
       Return {| AI.success := false;
                 AI.answer := "I apologize, but I'm experiencing technical difficulties. Please ask our staff for assistance.";
                 AI.source_tag := "fallback" |}).

End Enrichment.

(* ------------------------------------------------------------------ *)
(** ** The analytics cache (analytics router)

    [analyticsCache] is one module-level object shared by the three
    cached handlers; time is [Date.now()] in milliseconds.  The aggregate
    a handler computes comes from the order store and is an input here
    ([Throw] when the aggregation rejects). *)

Module Analytics.

Section Cache.

(** The result object a handler builds ([{ summary, salesData, ... }]). *)
Variable Payload : Type.

(** The values that can come out of [analyticsCache[key] || {}]. *)
Inductive Value : Type :=
| Undefined
| Null
| Num (n : Z)
| Obj (p : Payload)
| EmptyObject.

Record Cache : Type := {
  salesData : option Payload;            (* null until computed *)
  popularItems : option Payload;
  customerInsights : option Payload;
  lastUpdated : option Z
}.

(** The initial value, also assigned by [DELETE /cache] and by the
    cron job. *)
Definition cleared : Cache :=
  {| salesData := None; popularItems := None; customerInsights := None;
     lastUpdated := None |}.

Definition of_field (f : option Payload) : Value :=
  match f with
  | Some p => Obj p
  | None => Null
  end.

(** [analyticsCache[key]]. *)
Definition get (c : Cache) (key : string) : Value :=
  if String.eqb key "salesData" then of_field (salesData c)
  else if String.eqb key "popularItems" then of_field (popularItems c)
  else if String.eqb key "customerInsights" then of_field (customerInsights c)
  else if String.eqb key "lastUpdated" then
         match lastUpdated c with Some t => Num t | None => Null end
  else Undefined.

Definition truthy (v : Value) : bool :=
  match v with
  | Undefined | Null => false
  | Num n => negb (n =? 0)%Z
  | Obj _ | EmptyObject => true
  end.

(** [v || {}]. *)
Definition or_empty (v : Value) : Value :=
  if truthy v then v else EmptyObject.

(** [const CACHE_EXPIRY = 5 * 60 * 1000]. *)
Definition CACHE_EXPIRY : Z := 5 * 60 * 1000.

Inductive Endpoint : Type := Sales | PopularItems | CustomerInsights.

(** [req.route.path] of the three routes. *)
Definition route_path (e : Endpoint) : string :=
  match e with
  | Sales => "/sales"
  | PopularItems => "/popular-items"
  | CustomerInsights => "/customer-insights"
  end.

Inductive Response : Type :=
| Cached (data : Value) (lastUpdated : Z)   (* { success: true, data, cached: true, lastUpdated } *)
| Computed (data : Payload)                 (* { success: true, data: result } *)
| Failed (error : string).                  (* status 500 *)

(** The payload carried by a response, as a value. *)
Definition response_data (r : Response) : Value :=
  match r with
  | Cached d _ => d
  | Computed p => Obj p
  | Failed _ => Undefined
  end.

(** The middleware: [Some] response when it answers, [None] for
    [next()]. *)
Definition checkCache (c : Cache) (path : string) (now : Z) : option Response :=
  match lastUpdated c with
  | Some t =>
      if negb (t =? 0)%Z && (now - t <? CACHE_EXPIRY)%Z
      then Some (Cached (or_empty (get c path)) t)
      else None
  | None => None
  end.

(** [analyticsCache.<field> = result; analyticsCache.lastUpdated = Date.now()]. *)
Definition update (e : Endpoint) (result : Payload) (now : Z) (c : Cache) : Cache :=
  match e with
  | Sales =>
      {| salesData := Some result; popularItems := popularItems c;
         customerInsights := customerInsights c; lastUpdated := Some now |}
  | PopularItems =>
      {| salesData := salesData c; popularItems := Some result;
         customerInsights := customerInsights c; lastUpdated := Some now |}
  | CustomerInsights =>
      {| salesData := salesData c; popularItems := popularItems c;
         customerInsights := Some result; lastUpdated := Some now |}
  end.

Definition failure_message (e : Endpoint) : string :=
  match e with
  | Sales => "Failed to fetch sales analytics"
  | PopularItems => "Failed to fetch popular items analytics"
  | CustomerInsights => "Failed to fetch customer insights"
  end.

(** [router.get(path, checkCache, handler)]: a request that arrives at
    [arrived] and whose aggregation, when it runs, ends at [finished]. *)
Definition request (e : Endpoint) (arrived finished : Z) (aggregate : JS Payload)
  (c : Cache) : Response * Cache :=
  match checkCache c (route_path e) arrived with
  | Some r => (r, c)
  | None =>
      match aggregate with
      | Return result => (Computed result, update e result finished c)
      | Throw _ => (Failed (failure_message e), c)
      end
  end.

End Cache.

End Analytics.

(* ------------------------------------------------------------------ *)
(** ** Rating update ([menuItemSchema.methods.updateRating]) *)



(** The arithmetic mean of a non-empty list. *)
Definition Qsum (l : list Q) : Q := fold_right Qplus 0 l.

(* ------------------------------------------------------------------ *)
(** ** A fragment of the regular-expression engine

    Used where a concrete engine is needed.  The fragment is the patterns
    built from ordinary characters and [.], compiled with the flag [i]:
    an ordinary character matches itself up to letter case, [.] matches
    any character but a line terminator, and a match may start anywhere
    in the subject.  A pattern with any other syntax character is outside
    the fragment and gets no answer here. *)

Module RegExpFragment.

(** SyntaxCharacter of the pattern grammar. *)
Definition syntax_characters : list ascii :=
  list_ascii_of_string "^$\.*+?()[]{}|".

Definition is_syntax (c : ascii) : bool :=
  existsb (Ascii.eqb c) syntax_characters.

Definition is_dot (c : ascii) : bool := Ascii.eqb c "."%char.

Definition is_line_terminator (c : ascii) : bool :=
  let n := nat_of_ascii c in (n =? 10)%nat || (n =? 13)%nat.

(** No syntax character at all: the pattern is a literal. *)
Fixpoint literal (p : string) : bool :=
  match p with
  | EmptyString => true
  | String c p' => negb (is_syntax c) && literal p'
  end.

Fixpoint in_fragment (p : string) : bool :=
  match p with
  | EmptyString => true
  | String c p' => (is_dot c || negb (is_syntax c)) && in_fragment p'
  end.

Definition atom_matches (a c : ascii) : bool :=
  if is_dot a then negb (is_line_terminator c)
  else Ascii.eqb (JSString.lower_char a) (JSString.lower_char c).

Fixpoint match_here (p s : string) : bool :=
  match p, s with
  | EmptyString, _ => true
  | String _ _, EmptyString => false
  | String a p', String c s' => atom_matches a c && match_here p' s'
  end.

Fixpoint search (p s : string) : bool :=
  match_here p s ||
  match s with
  | EmptyString => false
  | String _ s' => search p s'
  end.

Definition RegExp (p : string) : option RegExpObj :=
  if in_fragment p then Some {| source := p; test := search p |} else None.

End RegExpFragment.

(* ------------------------------------------------------------------ *)
(** *** The constraints in the words of the specification *)

(** What a spice level asks of the [spicy] flag of an item. *)
Definition spice_constraint (level : SpiceLevel) (item_spicy : bool) : Prop :=
  match level with
  | mild => item_spicy = false
  | hot | extra_hot => item_spicy = true
  | medium => True
  end.

(** Some ingredient of the item carries an allergen tag of the list. *)
Definition has_allergen (allergies : list Allergen) (m : MenuItem) : Prop :=
  exists ing a,
    In ing (ingredients m) /\ In a (ing_allergens ing) /\ In a allergies.

(** Some ingredient name of the item contains one of the strings, letter
    case ignored. *)
Definition has_preferred_ingredient (wanted : list string) (m : MenuItem) : Prop :=
  exists ing s,
    In ing (ingredients m) /\ In s wanted /\
    JSString.includes_ci s (ing_name ing) = true.

(** Some ingredient name of the item is matched by one of the strings
    compiled as a regular expression. *)
Definition matched_by_pattern (RegExp : string -> option RegExpObj)
  (wanted : list string) (m : MenuItem) : Prop :=
  exists ing s r,
    In ing (ingredients m) /\ In s wanted /\ RegExp s = Some r /\
    test r (ing_name ing) = true.

(** On a pattern without syntax characters the engine is a
    case-insensitive substring test. *)
Definition literal_engine (RegExp : string -> option RegExpObj) : Prop :=
  forall s, RegExpFragment.literal s = true ->
    exists r, RegExp s = Some r /\
              forall x, test r x = JSString.includes_ci s x.

(** The order of the specification: [x] may stand in front of [y] when
    its rating average is greater, or equal with a popularity at least
    as great. *)
Definition by_average_then_popularity (x y : MenuItem) : Prop :=
  average (rating y) < average (rating x)
  \/ (average (rating x) == average (rating y)
      /\ (popularity y <= popularity x)%nat).

(** The order [find] does produce: rating average, then rating count,
    then popularity, each descending. *)
Definition store_order (x y : MenuItem) : Prop :=
  average (rating y) < average (rating x)
  \/ (average (rating x) == average (rating y)
      /\ ((count (rating y) < count (rating x))%nat
          \/ (count (rating x) = count (rating y)
              /\ (popularity y <= popularity x)%nat))).

(** The query with the key ['ingredients.name'] removed. *)
Definition without_names (q : Query) : Query :=
  {| q_availability := q_availability q;
     q_vegetarian := q_vegetarian q;
     q_vegan := q_vegan q;
     q_glutenFree := q_glutenFree q;
     q_dairyFree := q_dairyFree q;
     q_price := q_price q;
     q_category := q_category q;
     q_spicy := q_spicy q;
     q_allergens_nin := q_allergens_nin q;
     q_name_in := None |}.

(* ------------------------------------------------------------------ *)
(** ** The derived signals in the words of the specification *)

Module Signals.

(** The items of all orders, in history order. *)
Definition items_of (history : list History.Order) : list History.Item :=
  flat_map (fun o => match History.items o with Some l => l | None => [] end)
           history.

Definition item_category (item : History.Item) : list string :=
  match History.menuItem item with
  | Some m =>
      match History.category m with
      | Some c => if JSString.truthy c then [c] else []
      | None => []
      end
  | None => []
  end.

Definition ingredient_name (i : History.Ingredient) : list string :=
  match History.name i with
  | Some n => [JSString.toLowerCase n]
  | None => []
  end.

Definition item_ingredients (item : History.Item) : list string :=
  match History.menuItem item with
  | Some m =>
      match History.ingredients m with
      | Some ings => flat_map ingredient_name ings
      | None => []
      end
  | None => []
  end.

(** Every category occurrence, every lower-cased ingredient occurrence
    and every price of the history, in history order. *)
Definition category_occurrences (history : list History.Order) : list string :=
  flat_map item_category (items_of history).

Definition ingredient_occurrences (history : list History.Order) : list string :=
  flat_map item_ingredients (items_of history).

Definition observed_prices (history : list History.Order) : list Q :=
  map History.price (items_of history).






(** The history has the shape the analysis dereferences: every order has
    its [items], every ingredient its [name]. *)
Definition well_formed_item (item : History.Item) : bool :=
  match History.menuItem item with
  | Some m =>
      match History.ingredients m with
      | Some ings =>
          forallb (fun i => match History.name i with
                            | Some _ => true
                            | None => false
                            end) ings
      | None => true
      end
  | None => true
  end.

Definition well_formed (history : list History.Order) : bool :=
  forallb (fun o => match History.items o with
                    | Some its => forallb well_formed_item its
                    | None => false
                    end) history.

End Signals.

(* ------------------------------------------------------------------ *)
(** ** Sample data

    Two catalog entries, a history and preferences, used to run the
    definitions on concrete inputs. *)

Module Sample.

Definition plain : Dietary :=
  {| vegetarian := false; vegan := false; glutenFree := false;
     dairyFree := false; spicy := false |}.

Definition veggie_bowl : MenuItem :=
  {| name := "Veggie Bowl";
     category := main;
     price := 1899 # 100;
     ingredients := [ {| ing_name := "Rice"; ing_allergens := [] |};
                      {| ing_name := "Tofu"; ing_allergens := [soy] |} ];
     dietary := {| vegetarian := true; vegan := true; glutenFree := true;
                   dairyFree := true; spicy := false |};
     availability := available;
     rating := {| average := 4; count := 1 |};
     popularity := 10 |}.

Definition steak : MenuItem :=
  {| name := "Steak";
     category := main;
     price := 15;
     ingredients := [ {| ing_name := "Beef"; ing_allergens := [] |};
                      {| ing_name := "Butter"; ing_allergens := [dairy] |} ];
     dietary := plain;
     availability := available;
     rating := {| average := 4; count := 2 |};
     popularity := 1 |}.

Definition catalog : list MenuItem := [veggie_bowl; steak].

Definition no_flags : Pref.Dietary :=
  {| Pref.vegetarian := false; Pref.vegan := false;
     Pref.glutenFree := false; Pref.dairyFree := false |}.

(** The defaults of [getRecommendations]. *)
Definition any : Pref.t :=
  {| Pref.dietary := no_flags;
     Pref.allergies := [];
     Pref.spiceLevel := medium;
     Pref.priceRange := {| Pref.min := 0; Pref.max := 100 |};
     Pref.category := None;
     Pref.ingredients := [] |}.

Definition any_query : Query :=
  {| q_availability := available;
     q_vegetarian := None; q_vegan := None; q_glutenFree := None;
     q_dairyFree := None; q_price := Some (0, 100); q_category := None;
     q_spicy := None; q_allergens_nin := None; q_name_in := None |}.

(** Vegetarian, at most 5. *)
Definition cheap_vegetarian : Pref.t :=
  {| Pref.dietary := {| Pref.vegetarian := true; Pref.vegan := false;
                        Pref.glutenFree := false; Pref.dairyFree := false |};
     Pref.allergies := [];
     Pref.spiceLevel := medium;
     Pref.priceRange := {| Pref.min := 0; Pref.max := 5 |};
     Pref.category := None;
     Pref.ingredients := [] |}.

Definition cheap_vegetarian_query : Query :=
  {| q_availability := available;
     q_vegetarian := Some true; q_vegan := None; q_glutenFree := None;
     q_dairyFree := None; q_price := Some (0, 5); q_category := None;
     q_spicy := None; q_allergens_nin := None; q_name_in := None |}.

(** No dairy, an ingredient like "tof". *)
Definition tofu_no_dairy : Pref.t :=
  {| Pref.dietary := no_flags;
     Pref.allergies := [dairy];
     Pref.spiceLevel := mild;
     Pref.priceRange := {| Pref.min := 0; Pref.max := 100 |};
     Pref.category := Some main;
     Pref.ingredients := ["tof"] |}.

Definition tofu_no_dairy_query : Query :=
  {| q_availability := available;
     q_vegetarian := None; q_vegan := None; q_glutenFree := None;
     q_dairyFree := None; q_price := Some (0, 100);
     q_category := Some "main";
     q_spicy := Some false; q_allergens_nin := Some [dairy];
     q_name_in := Some [ {| source := "tof";
                            test := RegExpFragment.search "tof" |} ] |}.

(** A preferred ingredient that is a pattern: any character. *)
Definition any_character : Pref.t :=
  {| Pref.dietary := no_flags;
     Pref.allergies := [];
     Pref.spiceLevel := medium;
     Pref.priceRange := {| Pref.min := 0; Pref.max := 100 |};
     Pref.category := None;
     Pref.ingredients := ["."] |}.

Definition any_character_query : Query :=
  {| q_availability := available;
     q_vegetarian := None; q_vegan := None; q_glutenFree := None;
     q_dairyFree := None; q_price := Some (0, 100); q_category := None;
     q_spicy := None; q_allergens_nin := None;
     q_name_in := Some [ {| source := ".";
                            test := RegExpFragment.search "." |} ] |}.

Definition ordered (category : string) (names : list string) (price : Q)
  : History.Item :=
  {| History.menuItem :=
       Some {| History.category := Some category;
               History.ingredients :=
                 Some (map (fun n => {| History.name := Some n |}) names) |};
     History.price := price |}.

(** Two orders: twice a main, once a dessert. *)
Definition history : list History.Order :=
  [ {| History.items := Some [ ordered "main" ["Rice"; "Tofu"] 20;
                               ordered "dessert" ["Sugar"] 10 ] |};
    {| History.items := Some [ ordered "main" ["Beef"] 15 ] |} ].

Definition signals : Analysis :=
  Eval vm_compute in
    match analyzeCustomerHistory history with
    | Return a => a
    | Throw _ => default_analysis
    end.

(** One order with nothing in it. *)
Definition empty_order_history : list History.Order :=
  [ {| History.items := Some [] |} ].

(** Four categories ordered once each; the last one is named "0". *)
Definition index_history : list History.Order :=
  [ {| History.items := Some [ ordered "a" [] 10; ordered "b" [] 10;
                               ordered "c" [] 10; ordered "0" [] 10 ] |} ].

(** An order without its [items]. *)
Definition malformed_history : list History.Order :=
  [ {| History.items := None |} ].

End Sample.

(* ================================================================== *)
(** * Properties *)

(* ------------------------------------------------------------------ *)
(** ** Facts about the stable sort *)

Section StableSortFacts.

Context {A : Type}.
Variable before : A -> A -> bool.

Local Abbreviation insert_stable := (insert_stable before).
Local Abbreviation stable_sort := (stable_sort before).
Local Abbreviation in_order := (in_order before).

Lemma insert_stable_perm x l : Permutation (insert_stable x l) (x :: l).
Proof.
induction l as [|y l IH]; simpl; [reflexivity|].
destruct (before y x); [|reflexivity].
rewrite IH. apply perm_swap.
Qed.

Lemma stable_sort_perm l : Permutation (stable_sort l) l.
Proof.
induction l as [|x l IH]; simpl; [constructor|].
rewrite insert_stable_perm. now constructor.
Qed.

Lemma stable_sort_length l : length (stable_sort l) = length l.
Proof. apply Permutation_length, stable_sort_perm. Qed.

Lemma stable_sort_In x l : In x (stable_sort l) <-> In x l.
Proof.
split; apply Permutation_in;
  [apply stable_sort_perm | symmetry; apply stable_sort_perm].
Qed.

(** Stability: a class of elements none of which goes strictly in
  front of another keeps its order. *)
Section Stability.
Variable p : A -> bool.
Hypothesis p_ties : forall x y, p x = true -> p y = true -> before y x = false.


End Stability.

(** Sortedness, for a comparator that is asymmetric and whose
  complement is transitive (a strict weak order). *)
Section Sortedness.
Hypothesis before_asym : forall x y, before x y = true -> before y x = false.
Hypothesis not_before_trans :
  forall x y z, before y x = false -> before z y = false -> before z x = false.

Lemma insert_stable_sorted x l :
  StronglySorted in_order l -> StronglySorted in_order (insert_stable x l).
Proof.
  induction 1 as [|y l Hs IH Hy]; simpl.
  - constructor; constructor.
  - destruct (before y x) eqn:Hb.
    + constructor; [assumption|].
      rewrite Forall_forall in *. intros z Hz.
      apply (Permutation_in _ (insert_stable_perm x l)) in Hz.
      destruct Hz as [<-|Hz]; [now apply before_asym | now apply Hy].
    + constructor; [now constructor|].
      constructor; [exact Hb|].
      rewrite Forall_forall in *. intros z Hz.
      apply (not_before_trans x y z); [exact Hb | now apply Hy].
Qed.

Lemma stable_sort_sorted l : StronglySorted in_order (stable_sort l).
Proof.
  induction l as [|x l IH]; simpl; [constructor|].
  now apply insert_stable_sorted.
Qed.
End Sortedness.

End StableSortFacts.

(* ------------------------------------------------------------------ *)
(** ** Rating update *)


Lemma nat_to_Q_nonneg n : 0 <= nat_to_Q n.
Proof.
  unfold nat_to_Q. change 0 with (inject_Z 0). rewrite <- Zle_Qle. lia.
Qed.





(* ------------------------------------------------------------------ *)
(** ** The analytics cache *)

Section CacheFacts.

Variable Payload : Type.

Local Abbreviation Cache := (Analytics.Cache Payload).

(** No route path is a key of [analyticsCache]. *)
Lemma get_route_path (c : Cache) e :
  Analytics.get Payload c (Analytics.route_path e) = Analytics.Undefined Payload.
Proof. destruct e; reflexivity. Qed.

(** A request served by the middleware carries [{}] as its data. *)
Lemma checkCache_hit_data (c : Cache) e now r :
  Analytics.checkCache Payload c (Analytics.route_path e) now = Some r ->
  Analytics.response_data Payload r = Analytics.EmptyObject Payload.
Proof.
  unfold Analytics.checkCache. rewrite get_route_path.
  destruct (Analytics.lastUpdated Payload c) as [t|]; [|discriminate].
  destruct (negb (t =? 0)%Z && (now - t <? Analytics.CACHE_EXPIRY)%Z);
    [|discriminate].
  intros [= <-]. reflexivity.
Qed.

(** After a request that computed its aggregate at time [t1], a request
    to the same route that arrives less than [CACHE_EXPIRY] later is
    answered by the middleware, with [{}] in place of the payload. *)
Lemma second_request_within_window (c : Cache) e t0 t1 t2 t3 p agg :
  Analytics.checkCache Payload c (Analytics.route_path e) t0 = None ->
  t1 <> 0%Z ->
  (t2 - t1 < Analytics.CACHE_EXPIRY)%Z ->
  let first := Analytics.request Payload e t0 t1 (Return p) c in
  let second := Analytics.request Payload e t2 t3 agg (snd first) in
  fst first = Analytics.Computed Payload p /\
  fst second = Analytics.Cached Payload (Analytics.EmptyObject Payload) t1 /\
  snd second = snd first.
Proof.
  intros Hmiss Ht1 Hwin. unfold Analytics.request. rewrite Hmiss. simpl.
  split; [reflexivity|].
  unfold Analytics.checkCache.
  assert (Analytics.lastUpdated Payload (Analytics.update Payload e p t1 c) = Some t1)
    as -> by (destruct e; reflexivity).
  rewrite get_route_path.
  apply Z.eqb_neq in Ht1. rewrite Ht1.
  apply Z.ltb_lt in Hwin. rewrite Hwin. simpl. split; reflexivity.
Qed.

(** Once [CACHE_EXPIRY] milliseconds have passed since the last update
    the middleware calls [next()] and the aggregate is computed again. *)
Lemma request_after_expiry (c : Cache) e t arrived finished p :
  Analytics.lastUpdated Payload c = Some t ->
  (Analytics.CACHE_EXPIRY <= arrived - t)%Z ->
  Analytics.request Payload e arrived finished (Return p) c
  = (Analytics.Computed Payload p, Analytics.update Payload e p finished c).
Proof.
  intros Ht Hexp. unfold Analytics.request, Analytics.checkCache. rewrite Ht.
  apply Z.ltb_ge in Hexp. rewrite Hexp, andb_false_r. reflexivity.
Qed.

End CacheFacts.

(** C5.  [GET /sales] on a cleared cache computes the payload
    ["sales report"] and stores it at time 1200; the same request one
    minute later, well inside the five-minute window, is answered from
    the cache with the empty object as data, not with the stored
    payload. *)
Theorem cached_sales_request_loses_payload :
  let first :=
    Analytics.request string Analytics.Sales 1000 1200 (Return "sales report")
                      (Analytics.cleared string) in
  let second :=
    Analytics.request string Analytics.Sales 61200 61400 (Return "sales report")
                      (snd first) in
  fst first = Analytics.Computed string "sales report" /\
  Analytics.salesData string (snd first) = Some "sales report" /\
  (61200 - 1200 < Analytics.CACHE_EXPIRY)%Z /\
  fst second = Analytics.Cached string (Analytics.EmptyObject string) 1200 /\
  Analytics.response_data string (fst second)
  <> Analytics.response_data string (fst first).
Proof.
  cbv zeta.
  destruct (second_request_within_window string (Analytics.cleared string)
              Analytics.Sales 1000 1200 61200 61400 "sales report"
              (Return "sales report")) as (H1 & H2 & _);
    [reflexivity | discriminate | reflexivity |].
  cbv zeta in H1, H2.
  repeat split; try assumption; try reflexivity.
  rewrite H2, H1. discriminate.
Qed.

(* ------------------------------------------------------------------ *)
(** ** Text enrichment *)

Section EnrichmentFacts.

Variable RegExp : string -> option RegExpObj.
Variable post : AI.Request -> JS AI.Response.
Variable Number_toString : Q -> string.

Lemma try_catch_returns {A : Type} (body : JS A) (handler : JSError -> A) :
  exists a, try_catch body (fun e => Return (handler e)) = Return a.
Proof. destruct body as [a|e]; simpl; eauto. Qed.

Lemma enhanceDescription_no_key this description ingredients :
  no_key this = true ->
  enhanceDescription post this description ingredients = Return description.
Proof. intros H. unfold enhanceDescription. rewrite H. reflexivity. Qed.

Lemma answerQuestion_no_key this catalog question context :
  no_key this = true ->
  answerQuestion RegExp post Number_toString this catalog question context
  = Return no_key_answer.
Proof. intros H. unfold answerQuestion. rewrite H. reflexivity. Qed.

(** What [enhanceDescription] can return: the description it was given,
    or the non-empty trimmed text of the first choice. *)
Lemma enhanceDescription_result this description ingredients :
  enhanceDescription post this description ingredients = Return description
  \/ exists req resp m c,
       post req = Return resp /\ first_message resp = Some m /\
       AI.content m = Some c /\ JSString.truthy (JSString.trim c) = true /\
       enhanceDescription post this description ingredients
       = Return (JSString.trim c).
Proof.
  unfold enhanceDescription.
  destruct (no_key this); [left; reflexivity|].
  match goal with |- context [post ?r] => set (req := r) end.
  destruct (post req) as [resp|e] eqn:Hp; simpl; [|left; reflexivity].
  destruct (first_message resp) as [m|] eqn:Hm; simpl; [|left; reflexivity].
  destruct (AI.content m) as [c|] eqn:Hc; simpl; [|left; reflexivity].
  unfold or_else. destruct (JSString.truthy (JSString.trim c)) eqn:Ht;
    [|left; reflexivity].
  right. exists req, resp, m, c. repeat split; assumption.
Qed.

(** [getMenuContext] absorbs its own failures. *)
Lemma getMenuContext_returns catalog context :
  exists s, getMenuContext RegExp Number_toString catalog context = Return s.
Proof. unfold getMenuContext. apply (try_catch_returns _ (fun _ => _)). Qed.

(** An answer that is not the model's is tagged as a fallback. *)
Lemma answerQuestion_result this catalog question context :
  exists a,
    answerQuestion RegExp post Number_toString this catalog question context
    = Return a /\
    (AI.success a = true /\ AI.source_tag a = "ai"
     \/ AI.success a = false /\ AI.source_tag a = "fallback").
Proof.
  unfold answerQuestion.
  destruct (no_key this); [eexists; split; [reflexivity|right; split; reflexivity]|].
  destruct (getMenuContext_returns catalog context) as [s ->]. simpl.
  match goal with |- context [post ?r] => destruct (post r) as [resp|e] end; simpl;
    [|eexists; split; [reflexivity|right; split; reflexivity]].
  destruct (first_message resp) as [m|]; simpl;
    [|eexists; split; [reflexivity|right; split; reflexivity]].
  destruct (AI.content m) as [c|]; simpl;
    eexists; (split; [reflexivity|]); [left|right]; split; reflexivity.
Qed.

End EnrichmentFacts.

(** C9.  Without a credential [enhanceDescription] returns the
    description it was given and [answerQuestion] returns the fixed
    message tagged [fallback]; neither operation ever throws, whatever
    the completion service does; and when the call is rejected or its
    response is malformed the result is the original description,
    respectively an answer with [success = false] tagged [fallback]. *)
Theorem enrichment_absorbs_failures :
  forall (RegExp : string -> option RegExpObj)
         (post : AI.Request -> JS AI.Response)
         (Number_toString : Q -> string)
         (this : AI.Service) (catalog : list MenuItem)
         (description : string) (ingredients : list string)
         (question : string) (context : AI.Context),
    let enhanced := enhanceDescription post this description ingredients in
    let answered :=
      answerQuestion RegExp post Number_toString this catalog question context in
    (no_key this = true ->
     enhanced = Return description /\
     answered =
       Return {| AI.success := false;
                 AI.answer := "AI service is not available. Please contact staff for assistance.";
                 AI.source_tag := "fallback" |})
    /\ (exists s, enhanced = Return s)
    /\ (exists a, answered = Return a)
    /\ ((forall req, call_failed (post req) = true) ->
        enhanced = Return description /\
        exists a, answered = Return a /\
                  AI.success a = false /\ AI.source_tag a = "fallback").
Proof.
  intros RegExp post Number_toString this catalog description ingredients
         question context enhanced answered.
  subst enhanced answered. repeat split.
  - now apply enhanceDescription_no_key.
  - now apply answerQuestion_no_key.
  - destruct (enhanceDescription_result post this description ingredients)
      as [H | (req & resp & m & c & _ & _ & _ & _ & H)]; rewrite H; eauto.
  - destruct (answerQuestion_result RegExp post Number_toString this catalog
                question context) as (a & H & _). eauto.
  - destruct (enhanceDescription_result post this description ingredients)
      as [Hd | (req & resp & m & c & Hp & Hm & Hc & _ & _)]; [exact Hd|].
    specialize (H req). unfold call_failed in H.
    rewrite Hp, Hm, Hc in H. discriminate.
  - unfold answerQuestion.
    destruct (no_key this);
      [eexists; split; [reflexivity|split; reflexivity]|].
    destruct (getMenuContext_returns RegExp Number_toString catalog context)
      as [s ->]. simpl.
    match goal with |- context [post ?r] => pose proof (H r) as Hr;
      destruct (post r) as [resp|e] end; simpl;
      [|eexists; split; [reflexivity|split; reflexivity]].
    unfold call_failed in Hr.
    destruct (first_message resp) as [m|]; simpl;
      [|eexists; split; [reflexivity|split; reflexivity]].
    destruct (AI.content m) as [c|]; [discriminate|]. simpl.
    eexists; split; [reflexivity|split; reflexivity].
Qed.

(* ------------------------------------------------------------------ *)
(** ** Ranking *)


Lemma StronglySorted_map {A B : Type} (R : A -> A -> Prop) (R' : B -> B -> Prop)
  (f : A -> B) (l : list A) :
  (forall x y, In x l -> In y l -> R x y -> R' (f x) (f y)) ->
  StronglySorted R l -> StronglySorted R' (map f l).
Proof.
  intros HR Hs. induction Hs as [|x l Hs IH Hx]; simpl; constructor.
  - apply IH. intros a b Ha Hb. apply HR; now right.
  - rewrite Forall_forall in *. intros y Hy.
    apply in_map_iff in Hy. destruct Hy as (z & <- & Hz).
    apply HR; [now left | now right | now apply Hx].
Qed.


Lemma score_before_false a b :
  score_before a b = false <-> snd a <= snd b.
Proof.
  unfold score_before, Qlt_bool. rewrite negb_false_iff, Qle_bool_iff.
  split; intros H; lra.
Qed.


Lemma rank_with_perm signals items : Permutation (rank_with signals items) items.
Proof.
  unfold rank_with.
  rewrite (stable_sort_perm score_before). rewrite map_map. simpl.
  rewrite map_id. reflexivity.
Qed.

(** Every pair the sort handles carries the score of its item. *)
Lemma scored_pairs signals items x :
  In x (stable_sort score_before
          (map (fun item => (item, score_item signals item)) items)) ->
  snd x = score_item signals (fst x).
Proof.
  rewrite stable_sort_In, in_map_iff. intros (i & <- & _). reflexivity.
Qed.



(** [rankByAI] never throws: it returns the ranking, or its argument
    when the analysis of the history throws. *)
Lemma rankByAI_cases items customerHistory :
  (exists signals,
      analyzeCustomerHistory customerHistory = Return signals /\
      rankByAI items customerHistory = Return (rank_with signals items))
  \/ (exists e,
         analyzeCustomerHistory customerHistory = Throw e /\
         rankByAI items customerHistory = Return items).
Proof.
  unfold rankByAI.
  destruct (analyzeCustomerHistory customerHistory) as [signals|e]; simpl.
  - left. eauto.
  - right. eauto.
Qed.


Lemma rankByAI_returns_perm items customerHistory :
  exists ranked,
    rankByAI items customerHistory = Return ranked /\ Permutation ranked items.
Proof.
  destruct (rankByAI_cases items customerHistory)
    as [(signals & _ & Hr) | (e & _ & Hr)]; rewrite Hr; eexists; split;
    try reflexivity.
  apply rank_with_perm.
Qed.

(** C4.  The output of [rankByAI] is a permutation of the candidates it
    was given, and when the scoring fails (the analysis of the history
    throws) it is the candidate list itself, in its original order. *)
Theorem rankByAI_permutation :
  forall (items : list MenuItem) (customerHistory : list History.Order),
    exists ranked,
      rankByAI items customerHistory = Return ranked /\
      Permutation ranked items /\
      (forall e, analyzeCustomerHistory customerHistory = Throw e -> ranked = items).
Proof.
  intros items customerHistory.
  destruct (rankByAI_cases items customerHistory)
    as [(signals & Ha & Hr) | (e & Ha & Hr)]; rewrite Hr.
  - exists (rank_with signals items).
    split; [reflexivity|]. split; [apply rank_with_perm|].
    intros e He. congruence.
  - exists items.
    split; [reflexivity|]. split; [reflexivity|].
    intros; reflexivity.
Qed.

(* ------------------------------------------------------------------ *)
(** ** Preference matching *)

Lemma category_name_inj c c' : category_name c = category_name c' -> c = c'.
Proof. destruct c, c'; simpl; intros H; congruence || discriminate H. Qed.

Lemma Availability_beq_eq a b : Availability_beq a b = true <-> a = b.
Proof.
  split; [apply internal_Availability_dec_bl | apply internal_Availability_dec_lb].
Qed.

Lemma Allergen_beq_eq a b : Allergen_beq a b = true <-> a = b.
Proof.
  split; [apply internal_Allergen_dec_bl | apply internal_Allergen_dec_lb].
Qed.

(** A flag that was set asks for the flag of the item. *)
Lemma clause_when_set flag x :
  clause (when_set flag) (Bool.eqb x) = true <-> (flag = true -> x = true).
Proof.
  destruct flag, x; simpl; split; intros H; try reflexivity; try discriminate;
    try (intros; discriminate); try (now apply H).
Qed.

Lemma clause_category (c : option Category) (m : MenuItem) :
  clause (option_map category_name c) (String.eqb (category_name (category m))) = true
  <-> (forall c', c = Some c' -> category m = c').
Proof.
  destruct c as [c|]; simpl.
  - rewrite String.eqb_eq. split.
    + intros H c' [= <-]. now apply category_name_inj.
    + intros H. now rewrite (H c eq_refl).
  - split; [intros _ c'; discriminate | reflexivity].
Qed.

Lemma clause_spice level (m : MenuItem) :
  clause match level with
         | mild => Some false
         | hot | extra_hot => Some true
         | medium => None
         end (Bool.eqb (spicy (dietary m))) = true
  <-> spice_constraint level (spicy (dietary m)).
Proof.
  destruct level; simpl; try rewrite Bool.eqb_true_iff; tauto.
Qed.

Lemma allergens_nin_false l m : allergens_nin l m = false <-> has_allergen l m.
Proof.
  unfold allergens_nin, has_allergen. rewrite negb_false_iff, existsb_exists.
  split.
  - intros (a & Ha & Hl). apply in_flat_map in Ha. destruct Ha as (ing & Hi & Ha).
    apply existsb_exists in Hl. destruct Hl as (b & Hb & Hab).
    apply Allergen_beq_eq in Hab. subst b. eauto.
  - intros (ing & a & Hi & Ha & Hl). exists a. split.
    + apply in_flat_map. eauto.
    + apply existsb_exists. exists a. split; [assumption|].
      now apply Allergen_beq_eq.
Qed.

Lemma name_in_true rs m :
  name_in rs m = true <->
  exists ing r, In ing (ingredients m) /\ In r rs /\ test r (ing_name ing) = true.
Proof.
  unfold name_in. rewrite existsb_exists. split.
  - intros (ing & Hi & H). apply existsb_exists in H.
    destruct H as (r & Hr & Ht). eauto.
  - intros (ing & r & Hi & Hr & Ht). exists ing. split; [assumption|].
    apply existsb_exists. eauto.
Qed.

Lemma matches_without_names q m :
  matches q m = matches (without_names q) m
                && clause (q_name_in q) (fun rs => name_in rs m).
Proof. unfold matches. simpl. now rewrite andb_true_r. Qed.

Section MatcherFacts.

Variable RegExp : string -> option RegExpObj.

(** [ingredients.map(i => new RegExp(i, 'i'))] compiles every string. *)
Lemma mapM_new_RegExp l rs :
  mapM (new_RegExp RegExp) l = Return rs ->
  Forall2 (fun s r => RegExp s = Some r) l rs.
Proof.
  revert rs. induction l as [|s l IH]; simpl; intros rs H.
  - injection H as <-. constructor.
  - unfold new_RegExp in H at 1.
    destruct (RegExp s) as [r|] eqn:Hs; simpl in H; [|discriminate].
    destruct (mapM (new_RegExp RegExp) l) as [rs'|] eqn:Hl; simpl in H;
      [|discriminate].
    injection H as <-. constructor; [assumption | now apply IH].
Qed.

(** The fields of the query built from the preferences. *)
Lemma primary_query_fields preferences q :
  primary_query RegExp preferences = Return q ->
  q_availability q = available /\
  q_vegetarian q = when_set (Pref.vegetarian (Pref.dietary preferences)) /\
  q_vegan q = when_set (Pref.vegan (Pref.dietary preferences)) /\
  q_glutenFree q = when_set (Pref.glutenFree (Pref.dietary preferences)) /\
  q_dairyFree q = when_set (Pref.dairyFree (Pref.dietary preferences)) /\
  q_price q = Some (Pref.min (Pref.priceRange preferences),
                    Pref.max (Pref.priceRange preferences)) /\
  q_category q = option_map category_name (Pref.category preferences) /\
  q_spicy q = match Pref.spiceLevel preferences with
              | mild => Some false
              | hot | extra_hot => Some true
              | medium => None
              end /\
  q_allergens_nin q = match Pref.allergies preferences with
                      | [] => None
                      | l => Some l
                      end /\
  match Pref.ingredients preferences with
  | [] => q_name_in q = None
  | l => exists rs, q_name_in q = Some rs /\
                    Forall2 (fun s r => RegExp s = Some r) l rs
  end.
Proof.
  unfold primary_query.
  destruct (Pref.ingredients preferences) as [|i l] eqn:Hi.
  - simpl. intros [= <-]. simpl.
    destruct (Pref.allergies preferences); repeat split; reflexivity.
  - destruct (mapM (new_RegExp RegExp) (i :: l)) as [rs|e] eqn:Hm;
      [|simpl; discriminate].
    simpl bind. intros [= <-]. simpl.
    destruct (Pref.allergies preferences); repeat split; try reflexivity;
      (exists rs; split; [reflexivity | now apply mapM_new_RegExp]).
Qed.

Lemma Forall2_In_l {A B : Type} (R : A -> B -> Prop) l l' x :
  Forall2 R l l' -> In x l -> exists y, In y l' /\ R x y.
Proof.
  induction 1 as [|a b l l' Hab H IH]; simpl; [tauto|].
  intros [<-|Hx]; [eauto|].
  destruct (IH Hx) as (y & Hy & Hr). eauto.
Qed.

Lemma Forall2_In_r {A B : Type} (R : A -> B -> Prop) l l' y :
  Forall2 R l l' -> In y l' -> exists x, In x l /\ R x y.
Proof.
  induction 1 as [|a b l l' Hab H IH]; simpl; [tauto|].
  intros [<-|Hy]; [eauto|].
  destruct (IH Hy) as (x & Hx & Hr). eauto.
Qed.

End MatcherFacts.

(** C6.  An item passes the primary filter exactly when it is available,
    carries every dietary flag the customer set, satisfies the spice
    constraint (mild: not spicy; hot and extra-hot: spicy; medium:
    none), has its price in [priceRange.min, priceRange.max], bounds
    included, is of the requested category when one is given, and passes
    the allergen and ingredient clauses. *)
Theorem primary_filter_constraints :
  forall (RegExp : string -> option RegExpObj) (preferences : Pref.t)
         (q : Query) (m : MenuItem),
    primary_query RegExp preferences = Return q ->
    (matches q m = true <->
     availability m = available
     /\ (Pref.vegetarian (Pref.dietary preferences) = true ->
         vegetarian (dietary m) = true)
     /\ (Pref.vegan (Pref.dietary preferences) = true ->
         vegan (dietary m) = true)
     /\ (Pref.glutenFree (Pref.dietary preferences) = true ->
         glutenFree (dietary m) = true)
     /\ (Pref.dairyFree (Pref.dietary preferences) = true ->
         dairyFree (dietary m) = true)
     /\ spice_constraint (Pref.spiceLevel preferences) (spicy (dietary m))
     /\ (Pref.min (Pref.priceRange preferences) <= price m
         /\ price m <= Pref.max (Pref.priceRange preferences))
     /\ (forall c, Pref.category preferences = Some c -> category m = c)
     /\ clause (q_allergens_nin q) (fun l => allergens_nin l m) = true
     /\ clause (q_name_in q) (fun rs => name_in rs m) = true).
Proof.
  intros RegExp preferences q m Hq.
  destruct (primary_query_fields RegExp preferences q Hq)
    as (Hav & Hveg & Hvegan & Hgf & Hdf & Hprice & Hcat & Hsp & _ & _).
  unfold matches.
  rewrite Hav, Hveg, Hvegan, Hgf, Hdf, Hprice, Hcat, Hsp.
  rewrite !andb_true_iff, Availability_beq_eq, !clause_when_set,
    clause_category, clause_spice.
  simpl clause. rewrite andb_true_iff, !Qle_bool_iff.
  tauto.
Qed.

(** The ingredient clause, in terms of the compiled expressions. *)
Lemma name_clause_matched RegExp preferences q m :
  primary_query RegExp preferences = Return q ->
  Pref.ingredients preferences <> [] ->
  (clause (q_name_in q) (fun rs => name_in rs m) = true
   <-> matched_by_pattern RegExp (Pref.ingredients preferences) m).
Proof.
  intros Hq Hne.
  destruct (primary_query_fields RegExp preferences q Hq)
    as (_ & _ & _ & _ & _ & _ & _ & _ & _ & Hn).
  destruct (Pref.ingredients preferences) as [|i l]; [congruence|].
  destruct Hn as (rs & -> & Hrs). simpl clause. rewrite name_in_true.
  unfold matched_by_pattern. split.
  - intros (ing & r & Hi & Hr & Ht).
    destruct (Forall2_In_r _ _ _ _ Hrs Hr) as (s & Hs & Hsr).
    exists ing, s, r. auto.
  - intros (ing & s & r & Hi & Hs & Hsr & Ht).
    destruct (Forall2_In_l _ _ _ _ Hrs Hs) as (r' & Hr' & Hsr').
    assert (r' = r) by congruence. subst r'.
    exists ing, r. auto.
Qed.

(** With a literal engine and literal strings, a pattern match is a
    case-insensitive substring. *)
Lemma matched_by_literal RegExp wanted m :
  literal_engine RegExp ->
  Forall (fun s => RegExpFragment.literal s = true) wanted ->
  (matched_by_pattern RegExp wanted m <-> has_preferred_ingredient wanted m).
Proof.
  intros Heng Hlit. rewrite Forall_forall in Hlit.
  unfold matched_by_pattern, has_preferred_ingredient. split.
  - intros (ing & s & r & Hi & Hs & Hr & Ht).
    destruct (Heng s (Hlit s Hs)) as (r' & Hr' & Hx).
    assert (r' = r) by congruence. subst r'.
    exists ing, s. rewrite <- Hx. auto.
  - intros (ing & s & Hi & Hs & Ht).
    destruct (Heng s (Hlit s Hs)) as (r & Hr & Hx).
    exists ing, s, r. rewrite Hx. auto.
Qed.

(** C7, as the code has it.  With a non-empty allergy list the primary
    filter rejects every item one of whose ingredients carries a listed
    allergen tag.  With a non-empty list of preferred ingredients it
    admits, among the items that pass its other clauses, exactly those
    with an ingredient name matched by one of the strings compiled as a
    case-insensitive regular expression; when the strings contain no
    syntax character of regular expressions, these are the items with an
    ingredient name that contains one of the strings, letter case
    ignored. *)
Theorem primary_filter_allergens_and_ingredients :
  forall (RegExp : string -> option RegExpObj) (preferences : Pref.t)
         (q : Query) (m : MenuItem),
    primary_query RegExp preferences = Return q ->
    (Pref.allergies preferences <> [] ->
     has_allergen (Pref.allergies preferences) m -> matches q m = false)
    /\ (Pref.ingredients preferences <> [] ->
        (matches q m = true <->
         matches (without_names q) m = true
         /\ matched_by_pattern RegExp (Pref.ingredients preferences) m))
    /\ (Pref.ingredients preferences <> [] ->
        literal_engine RegExp ->
        Forall (fun s => RegExpFragment.literal s = true)
               (Pref.ingredients preferences) ->
        (matches q m = true <->
         matches (without_names q) m = true
         /\ has_preferred_ingredient (Pref.ingredients preferences) m)).
Proof.
  intros RegExp preferences q m Hq. split; [|split].
  - intros Hne Hall.
    destruct (primary_query_fields RegExp preferences q Hq)
      as (_ & _ & _ & _ & _ & _ & _ & _ & Hal & _).
    destruct (Pref.allergies preferences) as [|a l] eqn:Ha; [congruence|].
    apply allergens_nin_false in Hall.
    unfold matches. rewrite Hal. simpl clause. rewrite Hall.
    now rewrite andb_false_r.
  - intros Hne.
    rewrite matches_without_names, andb_true_iff.
    now rewrite (name_clause_matched RegExp preferences q m Hq Hne).
  - intros Hne Heng Hlit.
    rewrite matches_without_names, andb_true_iff.
    rewrite (name_clause_matched RegExp preferences q m Hq Hne).
    now rewrite (matched_by_literal RegExp _ m Heng Hlit).
Qed.

Lemma relaxed_query_matches preferences m :
  matches (relaxed_query preferences) m = true <->
  availability m = available
  /\ (Pref.vegetarian (Pref.dietary preferences)
      || Pref.vegan (Pref.dietary preferences) = true ->
      vegetarian (dietary m) = true).
Proof.
  unfold matches, relaxed_query. simpl.
  rewrite !andb_true_r, andb_true_iff, Availability_beq_eq, clause_when_set.
  tauto.
Qed.

(** C1.  When the primary filter yields no candidate, [getRecommendations]
    sends exactly one more query, the relaxed one: availability and, when
    vegetarian or vegan was requested, the vegetarian flag, nothing else.
    The caller receives a success carrying what the relaxed query
    yielded (reordered by the ranker when a history was supplied), and
    the empty list when the relaxed query yields nothing either. *)
Theorem fallback_single_relaxed_retry :
  forall (RegExp : string -> option RegExpObj) (catalog : list MenuItem)
         (preferences : Pref.t) (customerHistory : list History.Order)
         (q : Query),
    primary_query RegExp preferences = Return q ->
    find catalog q = [] ->
    exists recommendations,
      getRecommendations RegExp catalog preferences customerHistory
      = Return (RecSuccess recommendations (length recommendations) preferences,
                [q; relaxed_query preferences])
      /\ Permutation recommendations (find catalog (relaxed_query preferences))
      /\ (customerHistory = [] ->
          recommendations = find catalog (relaxed_query preferences))
      /\ (forall m,
             matches (relaxed_query preferences) m = true <->
             availability m = available
             /\ (Pref.vegetarian (Pref.dietary preferences)
                 || Pref.vegan (Pref.dietary preferences) = true ->
                 vegetarian (dietary m) = true))
      /\ (find catalog (relaxed_query preferences) = [] -> recommendations = []).
Proof.
  intros RegExp catalog preferences customerHistory q Hq Hnone.
  unfold getRecommendations, recommend. rewrite Hq. simpl bind.
  rewrite Hnone. simpl.
  set (relaxed := find catalog (relaxed_query preferences)).
  destruct customerHistory as [|o h].
  - simpl. exists relaxed.
    split; [reflexivity|]. split; [reflexivity|]. split; [reflexivity|].
    split; [apply relaxed_query_matches | tauto].
  - simpl Nat.ltb.
    destruct (rankByAI_returns_perm relaxed (o :: h)) as (ranked & Hr & Hp).
    cbv iota. rewrite Hr. simpl. exists ranked.
    split; [reflexivity|]. split; [exact Hp|]. split; [discriminate|].
    split; [apply relaxed_query_matches|].
    intros He. rewrite He in Hp. now apply Permutation_nil.
Qed.

(* ------------------------------------------------------------------ *)
(** ** The engine fragment on literal patterns *)

Lemma literal_not_dot a : RegExpFragment.is_syntax a = false ->
  RegExpFragment.is_dot a = false.
Proof.
  intros H. unfold RegExpFragment.is_dot.
  destruct (Ascii.eqb a ".") eqn:E; [|reflexivity].
  apply Ascii.eqb_eq in E. subst a. discriminate H.
Qed.

Lemma literal_in_fragment p :
  RegExpFragment.literal p = true -> RegExpFragment.in_fragment p = true.
Proof.
  induction p as [|a p IH]; simpl; [reflexivity|].
  rewrite andb_true_iff. intros [Ha Hp].
  rewrite Ha, orb_true_r. now apply IH.
Qed.

Lemma match_here_literal p : forall s,
  RegExpFragment.literal p = true ->
  RegExpFragment.match_here p s
  = JSString.startsWith (JSString.toLowerCase p) (JSString.toLowerCase s).
Proof.
  induction p as [|a p IH]; intros s; simpl.
  - destruct s; reflexivity.
  - rewrite andb_true_iff, negb_true_iff. intros [Ha Hp].
    destruct s as [|c s]; simpl; [reflexivity|].
    unfold RegExpFragment.atom_matches. rewrite (literal_not_dot a Ha).
    now rewrite IH.
Qed.

Lemma search_literal p s :
  RegExpFragment.literal p = true ->
  RegExpFragment.search p s = JSString.includes_ci p s.
Proof.
  intros Hp. unfold JSString.includes_ci.
  induction s as [|c s IH]; simpl.
  - now rewrite match_here_literal.
  - rewrite (match_here_literal p (String c s) Hp). simpl. now rewrite IH.
Qed.

Lemma fragment_literal_engine : literal_engine RegExpFragment.RegExp.
Proof.
  intros s Hs. unfold RegExpFragment.RegExp.
  rewrite (literal_in_fragment s Hs). eexists. split; [reflexivity|].
  intros x. simpl. now apply search_literal.
Qed.

(* ------------------------------------------------------------------ *)
(** ** The definitions on the sample data *)

Example find_any_sample :
  find Sample.catalog Sample.any_query = [Sample.steak; Sample.veggie_bowl].
Proof. reflexivity. Qed.

Example analyze_sample :
  analyzeCustomerHistory Sample.history = Return Sample.signals.
Proof. vm_compute. reflexivity. Qed.

Example signals_sample :
  preferredCategories Sample.signals = ["main"; "dessert"] /\
  preferredIngredients Sample.signals = ["rice"; "tofu"; "sugar"; "beef"] /\
  Pref.min (priceRange Sample.signals) == 8 /\
  Pref.max (priceRange Sample.signals) == 24.
Proof. repeat split. Qed.

Example rank_sample :
  rankByAI [Sample.steak; Sample.veggie_bowl] Sample.history
  = Return [Sample.veggie_bowl; Sample.steak].
Proof. vm_compute. reflexivity. Qed.

Example analyze_malformed :
  analyzeCustomerHistory Sample.malformed_history = Throw TypeError.
Proof. reflexivity. Qed.

(** Witness of C1: a vegetarian customer with a budget of 5; nothing in
    the catalog is that cheap, the relaxed query finds the bowl. *)
Lemma fallback_single_relaxed_retry_witness :
  exists recommendations,
    getRecommendations RegExpFragment.RegExp Sample.catalog
                       Sample.cheap_vegetarian []
    = Return (RecSuccess recommendations (length recommendations)
                         Sample.cheap_vegetarian,
              [Sample.cheap_vegetarian_query;
               relaxed_query Sample.cheap_vegetarian])
    /\ Permutation recommendations
                   (find Sample.catalog (relaxed_query Sample.cheap_vegetarian))
    /\ (@nil History.Order = [] ->
        recommendations
        = find Sample.catalog (relaxed_query Sample.cheap_vegetarian))
    /\ (forall m,
           matches (relaxed_query Sample.cheap_vegetarian) m = true <->
           availability m = available
           /\ (Pref.vegetarian (Pref.dietary Sample.cheap_vegetarian)
               || Pref.vegan (Pref.dietary Sample.cheap_vegetarian) = true ->
               vegetarian (dietary m) = true))
    /\ (find Sample.catalog (relaxed_query Sample.cheap_vegetarian) = [] ->
        recommendations = []).
Proof.
  apply (fallback_single_relaxed_retry RegExpFragment.RegExp Sample.catalog
           Sample.cheap_vegetarian [] Sample.cheap_vegetarian_query).
  - reflexivity.
  - reflexivity.
Defined.


(** Witness of C6. *)
Lemma primary_filter_constraints_witness :
  matches Sample.tofu_no_dairy_query Sample.veggie_bowl = true <->
  availability Sample.veggie_bowl = available
  /\ (Pref.vegetarian (Pref.dietary Sample.tofu_no_dairy) = true ->
      vegetarian (dietary Sample.veggie_bowl) = true)
  /\ (Pref.vegan (Pref.dietary Sample.tofu_no_dairy) = true ->
      vegan (dietary Sample.veggie_bowl) = true)
  /\ (Pref.glutenFree (Pref.dietary Sample.tofu_no_dairy) = true ->
      glutenFree (dietary Sample.veggie_bowl) = true)
  /\ (Pref.dairyFree (Pref.dietary Sample.tofu_no_dairy) = true ->
      dairyFree (dietary Sample.veggie_bowl) = true)
  /\ spice_constraint (Pref.spiceLevel Sample.tofu_no_dairy)
                      (spicy (dietary Sample.veggie_bowl))
  /\ (Pref.min (Pref.priceRange Sample.tofu_no_dairy) <= price Sample.veggie_bowl
      /\ price Sample.veggie_bowl <= Pref.max (Pref.priceRange Sample.tofu_no_dairy))
  /\ (forall c, Pref.category Sample.tofu_no_dairy = Some c ->
                category Sample.veggie_bowl = c)
  /\ clause (q_allergens_nin Sample.tofu_no_dairy_query)
            (fun l => allergens_nin l Sample.veggie_bowl) = true
  /\ clause (q_name_in Sample.tofu_no_dairy_query)
            (fun rs => name_in rs Sample.veggie_bowl) = true.
Proof.
  apply (primary_filter_constraints RegExpFragment.RegExp Sample.tofu_no_dairy
           Sample.tofu_no_dairy_query Sample.veggie_bowl).
  reflexivity.
Defined.

(** Witness of C7. *)
Lemma primary_filter_allergens_and_ingredients_witness :
  (Pref.allergies Sample.tofu_no_dairy <> [] ->
   has_allergen (Pref.allergies Sample.tofu_no_dairy) Sample.steak ->
   matches Sample.tofu_no_dairy_query Sample.steak = false)
  /\ (Pref.ingredients Sample.tofu_no_dairy <> [] ->
      (matches Sample.tofu_no_dairy_query Sample.steak = true <->
       matches (without_names Sample.tofu_no_dairy_query) Sample.steak = true
       /\ matched_by_pattern RegExpFragment.RegExp
            (Pref.ingredients Sample.tofu_no_dairy) Sample.steak))
  /\ (Pref.ingredients Sample.tofu_no_dairy <> [] ->
      literal_engine RegExpFragment.RegExp ->
      Forall (fun s => RegExpFragment.literal s = true)
             (Pref.ingredients Sample.tofu_no_dairy) ->
      (matches Sample.tofu_no_dairy_query Sample.steak = true <->
       matches (without_names Sample.tofu_no_dairy_query) Sample.steak = true
       /\ has_preferred_ingredient (Pref.ingredients Sample.tofu_no_dairy)
            Sample.steak)).
Proof.
  apply (primary_filter_allergens_and_ingredients RegExpFragment.RegExp
           Sample.tofu_no_dairy Sample.tofu_no_dairy_query Sample.steak).
  reflexivity.
Defined.

(** The inner hypotheses of C7 hold on the sample: the list of preferred
    ingredients is not empty and literal, the fragment is a literal
    engine, and the bowl, which has "Tofu", is admitted. *)
Example tofu_no_dairy_sample :
  Pref.ingredients Sample.tofu_no_dairy <> [] /\
  Forall (fun s => RegExpFragment.literal s = true)
         (Pref.ingredients Sample.tofu_no_dairy) /\
  has_preferred_ingredient (Pref.ingredients Sample.tofu_no_dairy)
                           Sample.veggie_bowl /\
  matches Sample.tofu_no_dairy_query Sample.veggie_bowl = true /\
  has_allergen (Pref.allergies Sample.tofu_no_dairy) Sample.steak /\
  matches Sample.tofu_no_dairy_query Sample.steak = false.
Proof.
  split; [discriminate|]. split; [repeat constructor|].
  split.
  { exists {| ing_name := "Tofu"; ing_allergens := [soy] |}, "tof".
    simpl. auto. }
  split; [reflexivity|]. split; [|reflexivity].
  exists {| ing_name := "Butter"; ing_allergens := [dairy] |}, dairy.
  simpl. auto.
Qed.

(** C7 as stated fails: the preferred ingredient ["."] is compiled as a
    pattern that matches any character, so the steak is admitted although
    none of its ingredient names ("Beef", "Butter") contains a full
    stop. *)
Lemma preferred_ingredient_pattern_counterexample :
  primary_query RegExpFragment.RegExp Sample.any_character
  = Return Sample.any_character_query /\
  Pref.ingredients Sample.any_character <> [] /\
  matches Sample.any_character_query Sample.steak = true /\
  ~ has_preferred_ingredient (Pref.ingredients Sample.any_character) Sample.steak.
Proof.
  split; [reflexivity|]. split; [discriminate|]. split; [reflexivity|].
  intros (ing & s & Hi & Hs & Hc).
  simpl in Hi, Hs.
  destruct Hs as [<-|[]].
  destruct Hi as [<-|[<-|[]]]; vm_compute in Hc; discriminate Hc.
Qed.

(** Both passes return at most ten items. *)
Lemma find_at_most_10 catalog q : (length (find catalog q) <= 10)%nat.
Proof. unfold find. apply firstn_le_length. Qed.

(** C8.  The steak and the bowl have the same rating average, the bowl
    is the more popular, the steak has the greater rating count.
    [find] puts the steak first, for the primary and for the relaxed
    query: the result is not in the order "rating average descending,
    then popularity descending". *)
Theorem find_orders_by_rating_document :
  primary_query RegExpFragment.RegExp Sample.any = Return Sample.any_query /\
  find Sample.catalog Sample.any_query = [Sample.steak; Sample.veggie_bowl] /\
  find Sample.catalog (relaxed_query Sample.any)
  = [Sample.steak; Sample.veggie_bowl] /\
  average (rating Sample.steak) == average (rating Sample.veggie_bowl) /\
  (popularity Sample.steak < popularity Sample.veggie_bowl)%nat /\
  (count (rating Sample.veggie_bowl) < count (rating Sample.steak))%nat /\
  ~ StronglySorted by_average_then_popularity
      (find Sample.catalog Sample.any_query).
Proof.
  split; [reflexivity|]. split; [reflexivity|]. split; [reflexivity|].
  split; [reflexivity|]. split; [simpl; lia|]. split; [simpl; lia|].
  change (find Sample.catalog Sample.any_query)
    with [Sample.steak; Sample.veggie_bowl].
  intros H. apply StronglySorted_inv in H. destruct H as [_ H].
  apply Forall_inv in H. destruct H as [H | [_ H]].
  - vm_compute in H. discriminate H.
  - simpl in H. lia.
Qed.

Lemma store_before_false x y : store_before y x = false <-> store_order x y.
Proof.
  unfold store_before, sort_compare, rating_compare, store_order.
  destruct (Qcompare_spec (average (rating y)) (average (rating x))) as [H|H|H].
  - destruct (Nat.compare_spec (count (rating y)) (count (rating x))) as [Hc|Hc|Hc].
    + destruct (Nat.compare_spec (popularity y) (popularity x)) as [Hp|Hp|Hp];
        split; try discriminate; try reflexivity; intros;
        try (right; split; [now symmetry|]; right; split; [now symmetry|lia]).
      destruct H0 as [H0|[_ [H0|[_ H0]]]]; [rewrite H in H0; lra | lia | lia].
    + split; [|reflexivity]. intros _. right. split; [now symmetry|]. left. lia.
    + split; [discriminate|].
      intros [H0|[_ [H0|[H0 _]]]]; [rewrite H in H0; lra | lia | lia].
  - split; [|reflexivity]. intros _. now left.
  - split; [discriminate|].
    intros [H0|[H0 _]]; [lra | rewrite H0 in H; lra].
Qed.

Lemma store_order_trans x y z : store_order x y -> store_order y z -> store_order x z.
Proof.
  unfold store_order.
  intros [H1|[H1 H1']] [H2|[H2 H2']].
  - left. lra.
  - left. rewrite <- H2. exact H1.
  - left. rewrite H1. exact H2.
  - right. split; [now rewrite H1|].
    destruct H1' as [H1'|[E1 H1']], H2' as [H2'|[E2 H2']];
      [left; lia | left; lia | left; lia | right; split; lia].
Qed.

Lemma In_firstn {A : Type} (x : A) n : forall l, In x (firstn n l) -> In x l.
Proof.
  induction n as [|n IH]; intros [|a l]; simpl; try tauto.
  intros [H|H]; [now left | right; now apply IH].
Qed.

(** The result of [find] is in that order. *)
Lemma find_in_store_order catalog q :
  StronglySorted store_order (find catalog q).
Proof.
  unfold find, find_sorted.
  assert (StronglySorted store_order
            (stable_sort store_before (filter (matches q) catalog))) as Hs.
  { assert (forall l, StronglySorted (in_order store_before) l ->
                      StronglySorted store_order l) as Hconv.
    { induction 1 as [|a l Hl IH Ha]; constructor; [assumption|].
      rewrite Forall_forall in *. intros b Hb.
      apply store_before_false. now apply Ha. }
    apply Hconv, stable_sort_sorted.
    - intros x y Hxy. apply store_before_false.
      destruct (store_before y x) eqn:E; [|now apply store_before_false].
      exfalso. unfold store_before, sort_compare, rating_compare in *.
      destruct (Qcompare_spec (average (rating x)) (average (rating y)));
        destruct (Qcompare_spec (average (rating y)) (average (rating x)));
        try discriminate; try lra;
        destruct (Nat.compare_spec (count (rating x)) (count (rating y)));
        destruct (Nat.compare_spec (count (rating y)) (count (rating x)));
        try discriminate; try lia;
        destruct (Nat.compare_spec (popularity x) (popularity y));
        destruct (Nat.compare_spec (popularity y) (popularity x));
        try discriminate; try lia.
    - intros x y z. rewrite !store_before_false.
      intros Hxy Hyz. exact (store_order_trans _ _ _ Hxy Hyz). }
  clear -Hs. revert Hs.
  generalize (stable_sort store_before (filter (matches q) catalog)).
  intros l. generalize 10%nat. intros n Hs. revert n.
  induction Hs as [|a l Hl IH Ha]; intros [|n]; simpl; try constructor.
  - apply IH.
  - rewrite Forall_forall in *. intros b Hb. apply Ha.
    exact (In_firstn _ _ _ Hb).
Qed.

(* ------------------------------------------------------------------ *)
(** ** History analysis *)

Example analyze_empty_order :
  analyzeCustomerHistory Sample.empty_order_history
  = Return default_analysis.
Proof. reflexivity. Qed.

Example analyze_index_history :
  exists signals,
    analyzeCustomerHistory Sample.index_history = Return signals /\
    preferredCategories signals = ["0"; "a"; "b"].
Proof. eexists. split; [vm_compute; reflexivity | reflexivity]. Qed.

(** *** Lists *)



Lemma StronglySorted_weaken {A : Type} (R R' : A -> A -> Prop) l :
  (forall x y, In x l -> In y l -> R x y -> R' x y) ->
  StronglySorted R l -> StronglySorted R' l.
Proof.
  intros H Hs. rewrite <- (map_id l).
  apply StronglySorted_map with (R := R); assumption.
Qed.



(** *** Stable sort of a list that is already in a second order

    The result is ordered by the comparator and, among elements the
    comparator does not separate, by the order the input was in. *)

Section StableSortLex.

Context {A : Type}.
Variable before : A -> A -> bool.
Variable P : A -> A -> Prop.

Hypothesis before_asym : forall x y, before x y = true -> before y x = false.
Hypothesis not_before_trans :
  forall x y z, before y x = false -> before z y = false -> before z x = false.




End StableSortLex.

(** *** Counting with a plain object *)

(** The object after the names [occ] were counted into [o], one after
    the other. *)
Definition tally (occ : list string) (o : JSObject.t) : JSObject.t :=
  fold_left (fun o k => JSObject.bump k o) occ o.














(** *** The loops of [analyzeCustomerHistory] *)

Lemma count_category_tally o item :
  count_category o item = Return (tally (Signals.item_category item) o).
Proof.
  unfold count_category, Signals.item_category.
  destruct (History.menuItem item) as [m|]; [|reflexivity].
  destruct (History.category m) as [c|]; [|reflexivity].
  destruct (JSString.truthy c); reflexivity.
Qed.

Lemma count_ingredients_tally o item :
  Signals.well_formed_item item = true ->
  count_ingredients o item = Return (tally (Signals.item_ingredients item) o).
Proof.
  unfold count_ingredients, Signals.item_ingredients, Signals.well_formed_item.
  destruct (History.menuItem item) as [m|]; [|reflexivity].
  destruct (History.ingredients m) as [ings|]; [|reflexivity].
  revert o. induction ings as [|i ings IH]; intros o; simpl; [reflexivity|].
  rewrite andb_true_iff. intros [Hi Hr].
  unfold count_ingredient at 1, Signals.ingredient_name at 1.
  destruct (History.name i) as [n|]; [|discriminate]. simpl.
  rewrite (IH _ Hr). reflexivity.
Qed.

(** A loop over the items of all orders counts, into the object, the
    names each item contributes. *)
Lemma forEach_item_tally f per_item :
  (forall o item, Signals.well_formed_item item = true ->
                  f o item = Return (tally (per_item item) o)) ->
  forall history o,
    Signals.well_formed history = true ->
    forEach_item f o history
    = Return (tally (flat_map per_item (Signals.items_of history)) o).
Proof.
  intros Hf. unfold forEach_item.
  assert (forall its o, forallb Signals.well_formed_item its = true ->
                        forEach f o its = Return (tally (flat_map per_item its) o))
    as Hitems.
  { induction its as [|it its IH]; intros o; simpl; [reflexivity|].
    rewrite andb_true_iff. intros [Hi Hr].
    rewrite (Hf o it Hi). simpl. rewrite (IH _ Hr).
    unfold tally. now rewrite fold_left_app. }
  induction history as [|order history IH]; intros o; simpl; [reflexivity|].
  rewrite andb_true_iff. intros [Ho Hr].
  destruct (History.items order) as [its|] eqn:E; [|discriminate]. simpl.
  rewrite (Hitems its o Ho). simpl. rewrite (IH _ Hr).
  unfold Signals.items_of. simpl. rewrite ?E, flat_map_app.
  unfold tally. now rewrite fold_left_app.
Qed.

Lemma flatMap_prices_observed history :
  Signals.well_formed history = true ->
  flatMap_prices history = Return (Signals.observed_prices history).
Proof.
  induction history as [|order history IH]; simpl; [reflexivity|].
  rewrite andb_true_iff. intros [Ho Hr].
  destruct (History.items order) as [its|] eqn:E; [|discriminate]. simpl.
  rewrite (IH Hr). simpl. unfold Signals.observed_prices, Signals.items_of.
  simpl. now rewrite E, map_app.
Qed.

(** *** [Math.min] and [Math.max] *)

Lemma Qmin_cases x y : Qmin x y = x \/ Qmin x y = y.
Proof.
  unfold Qmin, GenericMinMax.gmin. destruct (Qcompare x y); auto.
Qed.

Lemma Qmax_cases x y : Qmax x y = x \/ Qmax x y = y.
Proof.
  unfold Qmax, GenericMinMax.gmax. destruct (Qcompare x y); auto.
Qed.

Lemma Math_min_least ps : forall p,
  In (Math_min p ps) (p :: ps) /\ forall x, In x (p :: ps) -> Math_min p ps <= x.
Proof.
  unfold Math_min. induction ps as [|a ps IH]; intros p; simpl.
  - split; [now left|]. intros x [<-|[]]. apply Qle_refl.
  - destruct (IH (Qmin p a)) as [Hin Hle]. split.
    + destruct Hin as [Hin|Hin]; [|tauto].
      rewrite <- Hin. destruct (Qmin_cases p a) as [E|E]; rewrite E; auto.
    + intros x [<-|[<-|Hx]].
      * apply Qle_trans with (Qmin p a); [apply Hle; now left | apply Q.le_min_l].
      * apply Qle_trans with (Qmin p a); [apply Hle; now left | apply Q.le_min_r].
      * apply Hle. now right.
Qed.

Lemma Math_max_greatest ps : forall p,
  In (Math_max p ps) (p :: ps) /\ forall x, In x (p :: ps) -> x <= Math_max p ps.
Proof.
  unfold Math_max. induction ps as [|a ps IH]; intros p; simpl.
  - split; [now left|]. intros x [<-|[]]. apply Qle_refl.
  - destruct (IH (Qmax p a)) as [Hin Hle]. split.
    + destruct Hin as [Hin|Hin]; [|tauto].
      rewrite <- Hin. destruct (Qmax_cases p a) as [E|E]; rewrite E; auto.
    + intros x [<-|[<-|Hx]].
      * apply Qle_trans with (Qmax p a); [apply Q.le_max_l | apply Hle; now left].
      * apply Qle_trans with (Qmax p a); [apply Q.le_max_r | apply Hle; now left].
      * apply Hle. now right.
Qed.

(** On a non-empty history of the expected shape the analysis returns,
    and this is what it returns. *)
Lemma analyzeCustomerHistory_well_formed history :
  history <> [] ->
  Signals.well_formed history = true ->
  analyzeCustomerHistory history
  = Return
      {| preferredCategories :=
           top 3 (tally (Signals.category_occurrences history) []);
         preferredIngredients :=
           top 10 (tally (Signals.ingredient_occurrences history) []);
         priceRange :=
           match Signals.observed_prices history with
           | [] => {| Pref.min := 0; Pref.max := 100 |}
           | p :: ps => {| Pref.min := Math_min p ps * 0.8;
                           Pref.max := Math_max p ps * 1.2 |}
           end;
         spicePreference := "medium" |}.
Proof.
  intros Hne Hwf. destruct history as [|order rest]; [congruence|].
  unfold analyzeCustomerHistory. cbv iota.
  set (history := order :: rest) in *.
  rewrite (forEach_item_tally count_category Signals.item_category
             (fun o item _ => count_category_tally o item) history [] Hwf).
  cbn [bind].
  rewrite (forEach_item_tally count_ingredients Signals.item_ingredients
             count_ingredients_tally history [] Hwf).
  cbn [bind].
  rewrite (flatMap_prices_observed history Hwf). cbn [bind].
  reflexivity.
Qed.





(* ------------------------------------------------------------------ *)
(** ** [getRecommendations] as a whole *)

(** [getRecommendations] never throws. *)
Lemma getRecommendations_returns RegExp catalog preferences customerHistory :
  exists result,
    getRecommendations RegExp catalog preferences customerHistory = Return result.
Proof.
  unfold getRecommendations.
  destruct (recommend RegExp catalog preferences customerHistory) as [r|e];
    simpl; eauto.
Qed.

Lemma mapM_new_RegExp_invalid RegExp l s :
  In s l -> RegExp s = None ->
  mapM (new_RegExp RegExp) l = Throw SyntaxError.
Proof.
  induction l as [|a l IH]; simpl; [contradiction|].
  intros Hin Hs. unfold new_RegExp at 1.
  destruct (RegExp a) as [r|] eqn:Ha; simpl; [|reflexivity].
  destruct Hin as [->|Hin]; [congruence|].
  now rewrite (IH Hin Hs).
Qed.

(** When the primary filter yields candidates, no second query is sent. *)
Lemma no_retry_when_candidates RegExp catalog preferences q m rest :
  primary_query RegExp preferences = Return q ->
  find catalog q = m :: rest ->
  getRecommendations RegExp catalog preferences []
  = Return (RecSuccess (m :: rest) (length (m :: rest)) preferences, [q]).
Proof.
  intros Hq Hfound. unfold getRecommendations, recommend.
  rewrite Hq. simpl bind. rewrite Hfound. reflexivity.
Qed.

(** A preferred ingredient that is not a well-formed pattern makes the
    constructor of [RegExp] throw before any query is sent: the caller
    gets the failure result. *)
Lemma getRecommendations_invalid_pattern RegExp catalog preferences customerHistory s :
  In s (Pref.ingredients preferences) ->
  RegExp s = None ->
  getRecommendations RegExp catalog preferences customerHistory
  = Return (RecFailure "Failed to get recommendations" [], []).
Proof.
  intros Hin Hs. unfold getRecommendations, recommend, primary_query.
  destruct (Pref.ingredients preferences) as [|i l] eqn:Hi; [contradiction|].
  rewrite (mapM_new_RegExp_invalid RegExp (i :: l) s Hin Hs). reflexivity.
Qed.

(** The example of the specification: a vegetarian customer with a
    budget of 10 to 25 gets exactly the vegetarian item. *)
Example vegetarian_between_10_and_25 :
  exists recommendations n,
    getRecommendations RegExpFragment.RegExp Sample.catalog
      {| Pref.dietary := {| Pref.vegetarian := true; Pref.vegan := false;
                            Pref.glutenFree := false; Pref.dairyFree := false |};
         Pref.allergies := [];
         Pref.spiceLevel := medium;
         Pref.priceRange := {| Pref.min := 10; Pref.max := 25 |};
         Pref.category := None;
         Pref.ingredients := [] |} []
    = Return (RecSuccess recommendations n
                {| Pref.dietary := {| Pref.vegetarian := true; Pref.vegan := false;
                                      Pref.glutenFree := false; Pref.dairyFree := false |};
                   Pref.allergies := [];
                   Pref.spiceLevel := medium;
                   Pref.priceRange := {| Pref.min := 10; Pref.max := 25 |};
                   Pref.category := None;
                   Pref.ingredients := [] |},
              [ {| q_availability := available;
                   q_vegetarian := Some true; q_vegan := None;
                   q_glutenFree := None; q_dairyFree := None;
                   q_price := Some (10, 25); q_category := None;
                   q_spicy := None; q_allergens_nin := None;
                   q_name_in := None |} ])
    /\ recommendations = [Sample.veggie_bowl] /\ n = 1%nat.
Proof. eexists. eexists. split; [reflexivity|]. split; reflexivity. Qed.

(* ================================================================== *)
(** * More of the code

    The rest of the service, the order model and the routes that use
    them, with the properties their code shows.  Each group gives its
    definitions first and its properties after them. *)

(* ------------------------------------------------------------------ *)
(** ** History analysis: failure and bounds *)

Lemma forEach_throws_TypeError {A S : Type} (f : S -> A -> JS S) :
  (forall s x e, f s x = Throw e -> e = TypeError) ->
  forall l s e, forEach f s l = Throw e -> e = TypeError.
Proof.
  intros Hf. induction l as [|x l IH]; intros s e; simpl; [discriminate|].
  destruct (f s x) as [s'|e'] eqn:E; simpl.
  - apply IH.
  - intros [= <-]. now apply (Hf s x).
Qed.

Lemma count_ingredient_throws o i e :
  count_ingredient o i = Throw e -> e = TypeError.
Proof.
  unfold count_ingredient. destruct (History.name i); simpl;
    [discriminate | congruence].
Qed.

Lemma count_ingredients_throws o item e :
  count_ingredients o item = Throw e -> e = TypeError.
Proof.
  unfold count_ingredients.
  destruct (History.menuItem item) as [m|]; [|discriminate].
  destruct (History.ingredients m) as [ings|]; [|discriminate].
  apply forEach_throws_TypeError. apply count_ingredient_throws.
Qed.

Lemma forEach_item_throws f :
  (forall o item e, f o item = Throw e -> e = TypeError) ->
  forall history o e, forEach_item f o history = Throw e -> e = TypeError.
Proof.
  intros Hf history o e. unfold forEach_item.
  apply forEach_throws_TypeError. clear o e. intros o order e.
  destruct (History.items order) as [its|]; simpl; [|congruence].
  now apply forEach_throws_TypeError.
Qed.

Lemma flatMap_prices_throws history e :
  flatMap_prices history = Throw e -> e = TypeError.
Proof.
  induction history as [|order history IH]; simpl; [discriminate|].
  destruct (History.items order) as [its|]; simpl; [|congruence].
  destruct (flatMap_prices history) as [ps|e']; simpl; [discriminate|].
  intros [= <-]. now apply IH.
Qed.

(** The ingredient loop gets through only on a history of the expected
    shape. *)
Lemma count_ingredients_returns_well_formed o item o' :
  count_ingredients o item = Return o' ->
  Signals.well_formed_item item = true.
Proof.
  unfold count_ingredients, Signals.well_formed_item.
  destruct (History.menuItem item) as [m|]; [|reflexivity].
  destruct (History.ingredients m) as [ings|]; [|reflexivity].
  revert o. induction ings as [|i ings IH]; intros o; simpl; [reflexivity|].
  unfold count_ingredient at 1.
  destruct (History.name i) as [n|]; simpl; [|discriminate].
  apply IH.
Qed.

Lemma forEach_item_returns_well_formed history : forall o o',
  forEach_item count_ingredients o history = Return o' ->
  Signals.well_formed history = true.
Proof.
  unfold forEach_item.
  induction history as [|order history IH]; intros o o'; simpl; [reflexivity|].
  destruct (History.items order) as [its|]; simpl; [|discriminate].
  destruct (forEach count_ingredients o its) as [o1|e] eqn:E; simpl;
    [|discriminate].
  intros H. rewrite (IH _ _ H), andb_true_r.
  clear H. revert o E. induction its as [|it its IHi]; intros o; simpl;
    [reflexivity|].
  destruct (count_ingredients o it) as [o2|e] eqn:Ei; simpl; [|discriminate].
  intros H. rewrite (count_ingredients_returns_well_formed _ _ _ Ei).
  now apply (IHi o2).
Qed.

Lemma analyzeCustomerHistory_returns_well_formed history signals :
  analyzeCustomerHistory history = Return signals ->
  Signals.well_formed history = true.
Proof.
  destruct history as [|order rest]; [reflexivity|].
  unfold analyzeCustomerHistory.
  destruct (forEach_item count_category [] (order :: rest)) as [c|e];
    [|discriminate]. cbn [bind].
  destruct (forEach_item count_ingredients [] (order :: rest)) as [i|e] eqn:E;
    [|discriminate].
  intros _. exact (forEach_item_returns_well_formed _ _ _ E).
Qed.

Lemma analyzeCustomerHistory_throws_TypeError history e :
  analyzeCustomerHistory history = Throw e -> e = TypeError.
Proof.
  destruct history as [|order rest]; [discriminate|].
  unfold analyzeCustomerHistory.
  destruct (forEach_item count_category [] (order :: rest)) as [c|e1] eqn:E1.
  - cbn [bind].
    destruct (forEach_item count_ingredients [] (order :: rest)) as [i|e2] eqn:E2.
    + cbn [bind].
      destruct (flatMap_prices (order :: rest)) as [ps|e3] eqn:E3;
        cbn [bind]; [discriminate|].
      intros [= <-]. exact (flatMap_prices_throws _ _ E3).
    + cbn [bind]. intros [= <-].
      exact (forEach_item_throws _ count_ingredients_throws _ _ _ E2).
  - cbn [bind]. intros [= <-].
    apply (forEach_item_throws count_category) with (2 := E1).
    intros o item e1'. rewrite count_category_tally. discriminate.
Qed.

(** X1.  [analyzeCustomerHistory] returns on every history in which each
    order has its [items] and each ingredient its [name], the empty
    history included; on every other history it throws, and what it
    throws is a [TypeError]. *)
Theorem analyzeCustomerHistory_fails_iff_malformed :
  forall history : list History.Order,
    (Signals.well_formed history = true ->
     exists signals, analyzeCustomerHistory history = Return signals)
    /\ (Signals.well_formed history = false ->
        analyzeCustomerHistory history = Throw TypeError).
Proof.
  intros history. split; intros Hwf.
  - destruct history as [|order rest]; [eexists; reflexivity|].
    rewrite analyzeCustomerHistory_well_formed; [eauto | discriminate | exact Hwf].
  - destruct (analyzeCustomerHistory history) as [signals|e] eqn:E.
    + rewrite (analyzeCustomerHistory_returns_well_formed _ _ E) in Hwf.
      discriminate.
    + now rewrite (analyzeCustomerHistory_throws_TypeError _ _ E).
Qed.





(** X3.  When no price of the history is negative, every price of the
    history lies within the band the analysis derives from it, and the
    band is not empty. *)
Theorem observed_prices_within_band :
  forall (history : list History.Order) (signals : Analysis),
    analyzeCustomerHistory history = Return signals ->
    (forall p, In p (Signals.observed_prices history) -> 0 <= p) ->
    Pref.min (priceRange signals) <= Pref.max (priceRange signals)
    /\ forall p, In p (Signals.observed_prices history) ->
                 Pref.min (priceRange signals) <= p
                 /\ p <= Pref.max (priceRange signals).
Proof.
  intros history signals H Hpos.
  pose proof (analyzeCustomerHistory_returns_well_formed _ _ H) as Hwf.
  destruct history as [|order rest].
  - injection H as <-. simpl. split; [lra | contradiction].
  - rewrite analyzeCustomerHistory_well_formed in H;
      [|discriminate | exact Hwf].
    injection H as <-. cbn [priceRange].
    destruct (Signals.observed_prices (order :: rest)) as [|p ps] eqn:Hp.
    + simpl. split; [lra | contradiction].
    + destruct (Math_min_least ps p) as [Hmin Hle].
      destruct (Math_max_greatest ps p) as [Hmax Hge].
      pose proof (Hpos _ Hmin) as Hmin0. pose proof (Hpos _ Hmax) as Hmax0.
      pose proof (Hle _ Hmax) as Hmm.
      cbn [Pref.min Pref.max]. split; [lra|].
      intros x Hx. pose proof (Hle x Hx). pose proof (Hge x Hx). lra.
Qed.

Lemma observed_prices_within_band_witness :
  Pref.min (priceRange Sample.signals) <= Pref.max (priceRange Sample.signals)
  /\ forall p, In p (Signals.observed_prices Sample.history) ->
               Pref.min (priceRange Sample.signals) <= p
               /\ p <= Pref.max (priceRange Sample.signals).
Proof.
  apply (observed_prices_within_band Sample.history Sample.signals).
  - vm_compute. reflexivity.
  - intros p Hp. vm_compute in Hp.
    destruct Hp as [<-|[<-|[<-|[]]]]; vm_compute; discriminate.
Defined.

(* ------------------------------------------------------------------ *)
(** ** Ranking twice *)

(** Sorting a list that is in order leaves it as it is. *)
Lemma stable_sort_sorted_id {A : Type} (before : A -> A -> bool) (l : list A) :
  StronglySorted (in_order before) l -> stable_sort before l = l.
Proof.
  induction 1 as [|x l Hl IH Hx]; simpl; [reflexivity|].
  fold (stable_sort before l). rewrite IH.
  destruct l as [|y l']; simpl; [reflexivity|].
  apply Forall_inv in Hx. unfold in_order in Hx. now rewrite Hx.
Qed.

Lemma score_before_asym x y :
  score_before x y = true -> score_before y x = false.
Proof.
  intros H. apply score_before_false.
  destruct (Qlt_le_dec (snd x) (snd y)) as [Hlt|Hle]; [|exact Hle].
  exfalso. assert (score_before x y = false) as Hf
      by (apply score_before_false; lra).
  congruence.
Qed.

Lemma score_before_trans x y z :
  score_before y x = false -> score_before z y = false ->
  score_before z x = false.
Proof. rewrite !score_before_false. intros; lra. Qed.

Lemma rank_with_idempotent signals items :
  rank_with signals (rank_with signals items) = rank_with signals items.
Proof.
  unfold rank_with.
  set (scored := stable_sort score_before
                   (map (fun item => (item, score_item signals item)) items)).
  assert (map (fun item => (item, score_item signals item)) (map fst scored)
          = scored) as ->.
  { rewrite map_map. rewrite <- (map_id scored) at 2.
    apply map_ext_in. intros [i s] Hin. simpl.
    pose proof (scored_pairs signals items (i, s) Hin) as E.
    simpl in E. now rewrite E. }
  rewrite stable_sort_sorted_id; [reflexivity|].
  apply stable_sort_sorted; [apply score_before_asym | apply score_before_trans].
Qed.

(** X4.  Ranking is idempotent: the list [rankByAI] returns is returned
    unchanged when it is ranked again against the same history. *)
Theorem rankByAI_idempotent :
  forall (items ranked : list MenuItem) (customerHistory : list History.Order),
    rankByAI items customerHistory = Return ranked ->
    rankByAI ranked customerHistory = Return ranked.
Proof.
  intros items ranked customerHistory H.
  destruct (rankByAI_cases items customerHistory)
    as [(signals & Ha & Hr) | (e & Ha & Hr)];
    rewrite Hr in H; injection H as <-; unfold rankByAI; rewrite Ha; simpl.
  - now rewrite rank_with_idempotent.
  - reflexivity.
Qed.

Lemma rankByAI_idempotent_witness :
  rankByAI [Sample.veggie_bowl; Sample.steak] Sample.history
  = Return [Sample.veggie_bowl; Sample.steak].
Proof.
  apply (rankByAI_idempotent [Sample.steak; Sample.veggie_bowl]).
  vm_compute. reflexivity.
Defined.

(* ------------------------------------------------------------------ *)
(** ** What [getRecommendations] hands out *)

Lemma find_In catalog q m :
  In m (find catalog q) -> In m catalog /\ matches q m = true.
Proof.
  unfold find, find_sorted. intros H. apply In_firstn in H.
  apply stable_sort_In in H. now apply filter_In in H.
Qed.

Lemma mapM_new_RegExp_valid RegExp l :
  (forall s, In s l -> RegExp s <> None) ->
  exists rs, mapM (new_RegExp RegExp) l = Return rs.
Proof.
  induction l as [|a l IH]; simpl; intros H; [eauto|].
  unfold new_RegExp at 1.
  destruct (RegExp a) as [r|] eqn:Ha; [|exfalso; apply (H a); auto].
  destruct IH as [rs Hrs]; [intros s Hs; apply H; auto|].
  simpl. rewrite Hrs. simpl. eauto.
Qed.

Lemma primary_query_valid RegExp preferences :
  (forall s, In s (Pref.ingredients preferences) -> RegExp s <> None) ->
  exists q, primary_query RegExp preferences = Return q.
Proof.
  intros H. unfold primary_query.
  destruct (Pref.ingredients preferences) as [|i l]; [simpl; eauto|].
  destruct (mapM_new_RegExp_valid RegExp (i :: l) H) as [rs ->].
  simpl. eauto.
Qed.

(** The shape of a success: the candidates of the query that was sent
    last, possibly reordered. *)
Lemma getRecommendations_success RegExp catalog preferences customerHistory
      recs n p sent :
  getRecommendations RegExp catalog preferences customerHistory
  = Return (RecSuccess recs n p, sent) ->
  p = preferences /\ n = length recs /\
  exists q,
    primary_query RegExp preferences = Return q /\
    ((find catalog q <> [] /\ sent = [q] /\
      Permutation recs (find catalog q))
     \/ (find catalog q = [] /\ sent = [q; relaxed_query preferences] /\
         Permutation recs (find catalog (relaxed_query preferences)))).
Proof.
  unfold getRecommendations, recommend.
  destruct (primary_query RegExp preferences) as [q|e] eqn:Hq;
    [|simpl; discriminate].
  simpl bind.
  destruct (find catalog q) as [|m rest] eqn:Hf.
  - simpl.
    set (relaxed := find catalog (relaxed_query preferences)).
    destruct (0 <? length customerHistory)%nat.
    + destruct (rankByAI_returns_perm relaxed customerHistory)
        as (ranked & Hr & Hp).
      rewrite Hr. simpl. intros [= <- <- <- <-].
      split; [reflexivity|]. split; [reflexivity|].
      exists q. split; [reflexivity|]. right. auto.
    + simpl. intros [= <- <- <- <-].
      split; [reflexivity|]. split; [reflexivity|].
      exists q. split; [reflexivity|]. right. auto.
  - cbn [length Nat.eqb].
    destruct (0 <? length customerHistory)%nat.
    + destruct (rankByAI_returns_perm (m :: rest) customerHistory)
        as (ranked & Hr & Hp).
      rewrite Hr. simpl. intros [= <- <- <- <-].
      split; [reflexivity|]. split; [reflexivity|].
      exists q. split; [reflexivity|]. left.
      rewrite Hf. split; [discriminate|]. auto.
    + simpl. intros [= <- <- <- <-].
      split; [reflexivity|]. split; [reflexivity|].
      exists q. split; [reflexivity|]. left.
      rewrite Hf. split; [discriminate|]. auto.
Qed.

(** X5.  In a successful result of [getRecommendations] the count is the
    number of recommendations and at most 10; every recommended item is
    in the catalog and available; it is vegetarian when the customer
    asked for vegetarian; and when the result comes from the primary
    query (one query sent) and allergies were given, no recommended item
    has an ingredient with one of these allergens. *)
Theorem getRecommendations_success_sound :
  forall (RegExp : string -> option RegExpObj) (catalog : list MenuItem)
         (preferences : Pref.t) (customerHistory : list History.Order)
         (recs : list MenuItem) (n : nat) (p : Pref.t) (sent : list Query),
    getRecommendations RegExp catalog preferences customerHistory
    = Return (RecSuccess recs n p, sent) ->
    n = length recs /\ (n <= 10)%nat
    /\ (forall m, In m recs ->
          In m catalog /\ availability m = available
          /\ (Pref.vegetarian (Pref.dietary preferences) = true ->
              vegetarian (dietary m) = true))
    /\ (length sent = 1%nat ->
        Pref.allergies preferences <> [] ->
        forall m, In m recs ->
                  ~ has_allergen (Pref.allergies preferences) m).
Proof.
  intros RegExp catalog preferences customerHistory recs n p sent H.
  destruct (getRecommendations_success _ _ _ _ _ _ _ _ H)
    as (_ & Hn & q & Hq & Hcase).
  destruct (primary_query_fields RegExp preferences q Hq)
    as (Hav & Hveg & _ & _ & _ & _ & _ & _ & Hal & _).
  split; [exact Hn|].
  destruct Hcase as [(Hne & Hsent & Hp) | (He & Hsent & Hp)].
  - split; [rewrite Hn, (Permutation_length Hp); apply find_at_most_10|].
    split.
    + intros m Hm. apply (Permutation_in _ Hp), find_In in Hm.
      destruct Hm as [Hc Hm]. split; [exact Hc|].
      unfold matches in Hm. rewrite !andb_true_iff in Hm.
      destruct Hm as [[[[[[[[[Ha Hv] _] _] _] _] _] _] _] _].
      rewrite Hav in Ha. apply Availability_beq_eq in Ha.
      rewrite Hveg in Hv. pose proof (proj1 (clause_when_set _ _) Hv). auto.
    + intros _ Hall m Hm Hhas.
      apply (Permutation_in _ Hp), find_In in Hm. destruct Hm as [_ Hm].
      apply allergens_nin_false in Hhas.
      unfold matches in Hm. rewrite Hal in Hm.
      destruct (Pref.allergies preferences) as [|a l]; [congruence|].
      simpl clause in Hm. rewrite Hhas in Hm.
      rewrite !andb_true_iff in Hm. destruct Hm as [[_ Hf] _]. discriminate.
  - split; [rewrite Hn, (Permutation_length Hp); apply find_at_most_10|].
    split.
    + intros m Hm. apply (Permutation_in _ Hp), find_In in Hm.
      destruct Hm as [Hc Hm]. split; [exact Hc|].
      apply relaxed_query_matches in Hm. destruct Hm as [Ha Hv].
      split; [exact Ha|]. intros Hveg'. apply Hv. now rewrite Hveg'.
    + rewrite Hsent. simpl. discriminate.
Qed.

Lemma getRecommendations_success_sound_witness :
  1%nat = length [Sample.veggie_bowl] /\ (1 <= 10)%nat
  /\ (forall m, In m [Sample.veggie_bowl] ->
        In m Sample.catalog /\ availability m = available
        /\ (Pref.vegetarian (Pref.dietary Sample.cheap_vegetarian) = true ->
            vegetarian (dietary m) = true))
  /\ (length [Sample.cheap_vegetarian_query;
              relaxed_query Sample.cheap_vegetarian] = 1%nat ->
      Pref.allergies Sample.cheap_vegetarian <> [] ->
      forall m, In m [Sample.veggie_bowl] ->
                ~ has_allergen (Pref.allergies Sample.cheap_vegetarian) m).
Proof.
  apply (getRecommendations_success_sound RegExpFragment.RegExp Sample.catalog
           Sample.cheap_vegetarian [] [Sample.veggie_bowl] 1
           Sample.cheap_vegetarian
           [Sample.cheap_vegetarian_query; relaxed_query Sample.cheap_vegetarian]).
  reflexivity.
Defined.

(** X6.  [getRecommendations] returns its failure result, without a
    query sent, when one of the preferred ingredients is not accepted by
    the constructor of [RegExp]; when all of them are accepted it returns
    a success that echoes the preferences. *)
Theorem getRecommendations_fails_iff_invalid_pattern :
  forall (RegExp : string -> option RegExpObj) (catalog : list MenuItem)
         (preferences : Pref.t) (customerHistory : list History.Order),
    ((exists s, In s (Pref.ingredients preferences) /\ RegExp s = None) ->
     getRecommendations RegExp catalog preferences customerHistory
     = Return (RecFailure "Failed to get recommendations" [], []))
    /\ ((forall s, In s (Pref.ingredients preferences) -> RegExp s <> None) ->
        exists recs sent,
          getRecommendations RegExp catalog preferences customerHistory
          = Return (RecSuccess recs (length recs) preferences, sent)).
Proof.
  intros RegExp catalog preferences customerHistory. split.
  - intros (s & Hin & Hs).
    now apply getRecommendations_invalid_pattern with (s := s).
  - intros Hvalid.
    destruct (primary_query_valid RegExp preferences Hvalid) as [q Hq].
    unfold getRecommendations, recommend. rewrite Hq. simpl bind.
    destruct (length (find catalog q) =? 0)%nat;
      destruct (0 <? length customerHistory)%nat;
      try (match goal with
           | |- context [rankByAI ?l ?h] =>
               destruct (rankByAI_returns_perm l h) as (ranked & -> & _)
           end); simpl; eauto.
Qed.

(* ------------------------------------------------------------------ *)
(** ** The menu collection and the rating route

    The collection is a list of documents with their [_id]; ids are
    unique.  [routes/menu.js], [POST /:id/rate], validates the rating,
    looks the item up and calls [updateRating], whose [save()] runs the
    validators of the paths it changed: [rating.average] has [min: 0] and
    [max: 5]. *)

Module Store.

Definition t : Type := list (string * MenuItem).

(** [MenuItem.findById(id)]. *)
Fixpoint findById (id : string) (s : t) : option MenuItem :=
  match s with
  | [] => None
  | (k, m) :: s' => if String.eqb id k then Some m else findById id s'
  end.

(** The document with this id replaced by its new state. *)
Fixpoint save (id : string) (m' : MenuItem) (s : t) : t :=
  match s with
  | [] => []
  | (k, m) :: s' =>
      if String.eqb id k then (k, m') :: s' else (k, m) :: save id m' s'
  end.

End Store.

(** [menuItemSchema.methods.isAvailable]. *)
Definition isAvailable (this : MenuItem) : bool :=
  Availability_beq (availability this) available.

(** [menuItemSchema.methods.incrementPopularity], also the update
    [{ $inc: { popularity: 1 } }]. *)
Definition incrementPopularity (this : MenuItem) : MenuItem :=
  {| name := name this;
     category := category this;
     price := price this;
     ingredients := ingredients this;
     dietary := dietary this;
     availability := availability this;
     rating := rating this;
     popularity := popularity this + 1 |}.







Lemma findById_save id m' s m :
  Store.findById id s = Some m ->
  Store.findById id (Store.save id m' s) = Some m'.
Proof.
  induction s as [|[k x] s IH]; simpl; [discriminate|].
  destruct (String.eqb id k) eqn:E; simpl; rewrite E; [reflexivity | exact IH].
Qed.



(* ------------------------------------------------------------------ *)
(** ** The analytics cache: one clock for three routes *)

(** The key under which the handler of a route stores its result. *)
Definition stored_key (e : Analytics.Endpoint) : string :=
  match e with
  | Analytics.Sales => "salesData"
  | Analytics.PopularItems => "popularItems"
  | Analytics.CustomerInsights => "customerInsights"
  end.

(** X8.  The three cached routes share [lastUpdated]: once any of them
    has computed its result at a time [t1], a request to any of them,
    the same or another, that arrives less than [CACHE_EXPIRY] after
    [t1] is answered by the middleware with the empty object, runs no
    aggregation and leaves the cache as it is. *)
Theorem cache_clock_is_shared :
  forall (Payload : Type) (c : Analytics.Cache Payload)
         (e e' : Analytics.Endpoint) (t0 t1 t2 t3 : Z) (p : Payload)
         (aggregate : JS Payload),
    Analytics.checkCache Payload c (Analytics.route_path e) t0 = None ->
    t1 <> 0%Z ->
    (t2 - t1 < Analytics.CACHE_EXPIRY)%Z ->
    let first := Analytics.request Payload e t0 t1 (Return p) c in
    let second := Analytics.request Payload e' t2 t3 aggregate (snd first) in
    fst second = Analytics.Cached Payload (Analytics.EmptyObject Payload) t1
    /\ snd second = snd first.
Proof.
  intros Payload c e e' t0 t1 t2 t3 p aggregate Hmiss Ht1 Hwin.
  unfold Analytics.request. rewrite Hmiss. simpl.
  unfold Analytics.checkCache.
  assert (Analytics.lastUpdated Payload (Analytics.update Payload e p t1 c)
          = Some t1) as -> by (destruct e; reflexivity).
  rewrite get_route_path.
  apply Z.eqb_neq in Ht1. rewrite Ht1.
  apply Z.ltb_lt in Hwin. rewrite Hwin. simpl. split; reflexivity.
Qed.

Lemma cache_clock_is_shared_witness :
  let first :=
    Analytics.request string Analytics.Sales 1000 1200 (Return "sales")
                      (Analytics.cleared string) in
  let second :=
    Analytics.request string Analytics.PopularItems 5000 5100
                      (Return "popular") (snd first) in
  fst second = Analytics.Cached string (Analytics.EmptyObject string) 1200
  /\ snd second = snd first.
Proof.
  apply (cache_clock_is_shared string (Analytics.cleared string)
           Analytics.Sales Analytics.PopularItems 1000 1200 5000 5100
           "sales" (Return "popular")).
  - reflexivity.
  - discriminate.
  - reflexivity.
Defined.

(** X9.  A request that finds the cache cleared (as [DELETE /cache] and
    the cron job leave it), or last updated [CACHE_EXPIRY] milliseconds
    ago or more, computes its aggregate; the result is stored under the
    key of its route together with the time, and the other two results
    stay as they were. *)
Theorem stale_cache_recomputes :
  forall (Payload : Type) (c : Analytics.Cache Payload)
         (e : Analytics.Endpoint) (arrived finished : Z) (p : Payload),
    (Analytics.lastUpdated Payload c = None
     \/ exists t, Analytics.lastUpdated Payload c = Some t
                  /\ (Analytics.CACHE_EXPIRY <= arrived - t)%Z) ->
    let after := snd (Analytics.request Payload e arrived finished (Return p) c) in
    fst (Analytics.request Payload e arrived finished (Return p) c)
    = Analytics.Computed Payload p
    /\ Analytics.get Payload after (stored_key e) = Analytics.Obj Payload p
    /\ Analytics.lastUpdated Payload after = Some finished
    /\ (forall e', e' <> e ->
          Analytics.get Payload after (stored_key e')
          = Analytics.get Payload c (stored_key e')).
Proof.
  intros Payload c e arrived finished p Hstale. cbv zeta.
  assert (Analytics.checkCache Payload c (Analytics.route_path e) arrived = None)
    as Hmiss.
  { unfold Analytics.checkCache.
    destruct Hstale as [-> | (t & -> & Hexp)]; [reflexivity|].
    apply Z.ltb_ge in Hexp. now rewrite Hexp, andb_false_r. }
  unfold Analytics.request. rewrite Hmiss. simpl.
  split; [reflexivity|].
  split; [destruct e; reflexivity|].
  split; [destruct e; reflexivity|].
  intros e' Hne. destruct e, e'; try reflexivity; congruence.
Qed.

Lemma stale_cache_recomputes_witness :
  let after :=
    snd (Analytics.request string Analytics.Sales 1000 1200 (Return "sales")
                           (Analytics.cleared string)) in
  fst (Analytics.request string Analytics.Sales 1000 1200 (Return "sales")
                         (Analytics.cleared string))
  = Analytics.Computed string "sales"
  /\ Analytics.get string after (stored_key Analytics.Sales)
     = Analytics.Obj string "sales"
  /\ Analytics.lastUpdated string after = Some 1200%Z
  /\ (forall e', e' <> Analytics.Sales ->
        Analytics.get string after (stored_key e')
        = Analytics.get string (Analytics.cleared string) (stored_key e')).
Proof.
  apply (stale_cache_recomputes string (Analytics.cleared string)
           Analytics.Sales 1000 1200 "sales").
  left. reflexivity.
Defined.

(* ------------------------------------------------------------------ *)
(** ** The order model ([models/Order.js])

    Quantities and prices are numbers; a time is a number of
    milliseconds.  [save()] is the identity here: the methods give the
    state of the document they leave. *)

Module Orders.

(** [status: enum ['pending', 'confirmed', 'preparing', 'ready',
    'delivered', 'cancelled']]. *)
Inductive Status : Type :=
| pending | confirmed | preparing | ready | delivered | cancelled.

(** [priority: enum ['low', 'normal', 'high', 'urgent']]. *)
Inductive Priority : Type := low | normal | high | urgent.

Record Customization : Type := {
  c_name : string;
  c_price : Q
}.

Record Item : Type := {
  menuItem : string;                 (* the [_id] of the menu item *)
  quantity : Q;
  specialInstructions : string;
  price : Q;
  customization : list Customization
}.

Record t : Type := {
  orderNumber : string;
  items : list Item;
  status : Status;
  notes : string;
  subtotal : Q;
  tax : Q;
  tip : Q;
  total : Q;
  priority : Priority;
  createdAt : Z;
  estimatedDeliveryTime : option Z;
  actualDeliveryTime : option Z
}.

End Orders.

Scheme Equality for Orders.Status.


Definition priority_name (p : Orders.Priority) : string :=
  match p with
  | Orders.low => "low" | Orders.normal => "normal"
  | Orders.high => "high" | Orders.urgent => "urgent"
  end.


(** [Math.round]: the nearest integer, a half going up. *)
Definition Math_round (x : Q) : Z := Qfloor (x + (1 # 2)).

(** The virtual [duration], in minutes; [None] is [null]. *)
Definition duration (this : Orders.t) : option Z :=
  match Orders.status this, Orders.actualDeliveryTime this with
  | Orders.delivered, Some actual =>
      Some (Math_round (inject_Z (actual - Orders.createdAt this)
                        / inject_Z (1000 * 60)))
  | _, _ => None
  end.

(** [orderSchema.methods.calculateTotals]. *)
Definition calculateTotals (this : Orders.t) : Orders.t :=
  let subtotal :=
    fold_left
      (fun total item =>
         let itemTotal := Orders.price item * Orders.quantity item in
         let customizationTotal :=
           fold_left (fun sum custom => sum + Orders.c_price custom)
                     (Orders.customization item) 0 in
         total + itemTotal + customizationTotal)
      (Orders.items this) 0 in
  let tax := subtotal * 0.08 in
  let total := subtotal + tax + Orders.tip this in
  {| Orders.orderNumber := Orders.orderNumber this;
     Orders.items := Orders.items this;
     Orders.status := Orders.status this;
     Orders.notes := Orders.notes this;
     Orders.subtotal := subtotal;
     Orders.tax := tax;
     Orders.tip := Orders.tip this;
     Orders.total := total;
     Orders.priority := Orders.priority this;
     Orders.createdAt := Orders.createdAt this;
     Orders.estimatedDeliveryTime := Orders.estimatedDeliveryTime this;
     Orders.actualDeliveryTime := Orders.actualDeliveryTime this |}.

(** [orderSchema.methods.updateStatus], called at time [now]. *)
Definition updateStatus (newStatus : Orders.Status) (notes : string) (now : Z)
  (this : Orders.t) : Orders.t :=
  {| Orders.orderNumber := Orders.orderNumber this;
     Orders.items := Orders.items this;
     Orders.status := newStatus;
     Orders.notes := if JSString.truthy notes then notes else Orders.notes this;
     Orders.subtotal := Orders.subtotal this;
     Orders.tax := Orders.tax this;
     Orders.tip := Orders.tip this;
     Orders.total := Orders.total this;
     Orders.priority := Orders.priority this;
     Orders.createdAt := Orders.createdAt this;
     Orders.estimatedDeliveryTime :=
       match newStatus with
       | Orders.preparing => Some (now + 30 * 60 * 1000)%Z
       | _ => Orders.estimatedDeliveryTime this
       end;
     Orders.actualDeliveryTime :=
       match newStatus with
       | Orders.ready => Some now
       | _ => Orders.actualDeliveryTime this
       end |}.

(** The order with another list of items. *)
Definition with_items (its : list Orders.Item) (this : Orders.t) : Orders.t :=
  {| Orders.orderNumber := Orders.orderNumber this;
     Orders.items := its;
     Orders.status := Orders.status this;
     Orders.notes := Orders.notes this;
     Orders.subtotal := Orders.subtotal this;
     Orders.tax := Orders.tax this;
     Orders.tip := Orders.tip this;
     Orders.total := Orders.total this;
     Orders.priority := Orders.priority this;
     Orders.createdAt := Orders.createdAt this;
     Orders.estimatedDeliveryTime := Orders.estimatedDeliveryTime this;
     Orders.actualDeliveryTime := Orders.actualDeliveryTime this |}.

(** [orderSchema.methods.addItem]; [id] is [menuItem._id]. *)
Definition addItem (id : string) (menuItem : MenuItem) (quantity : Q)
  (specialInstructions : string) (customization : list Orders.Customization)
  (this : Orders.t) : Orders.t :=
  let orderItem :=
    {| Orders.menuItem := id;
       Orders.quantity := quantity;
       Orders.specialInstructions := specialInstructions;
       Orders.price := price menuItem;
       Orders.customization := customization |} in
  calculateTotals (with_items (Orders.items this ++ [orderItem]) this).

(** A method that may [throw new Error(message)]. *)
Inductive Outcome (A : Type) : Type :=
| Done (a : A)
| Raised (message : string).

Arguments Done {A} a.
Arguments Raised {A} message.

(** [l.splice(i, 1)]. *)
Definition splice1 {A : Type} (i : nat) (l : list A) : list A :=
  firstn i l ++ skipn (S i) l.

(** [orderSchema.methods.removeItem]. *)
Definition removeItem (itemIndex : Z) (this : Orders.t) : Outcome Orders.t :=
  if (0 <=? itemIndex)%Z && (itemIndex <? Z.of_nat (length (Orders.items this)))%Z
  then Done (calculateTotals
               (with_items (splice1 (Z.to_nat itemIndex) (Orders.items this)) this))
  else Raised "Invalid item index".

(** The amount of one line and of all lines, as sums. *)
Definition line_amount (item : Orders.Item) : Q :=
  Orders.price item * Orders.quantity item
  + Qsum (map Orders.c_price (Orders.customization item)).

Definition lines_amount (its : list Orders.Item) : Q :=
  Qsum (map line_amount its).


Lemma fold_customization l : forall a,
  fold_left (fun sum custom => sum + Orders.c_price custom) l a
  == a + Qsum (map Orders.c_price l).
Proof.
  induction l as [|c l IH]; intros a; simpl.
  - ring.
  - rewrite IH. ring.
Qed.







(** A sample order: two bowls with extra tofu, one steak. *)
Definition sample_order : Orders.t :=
  {| Orders.orderNumber := "ORD260101001";
     Orders.items :=
       [ {| Orders.menuItem := "b1"; Orders.quantity := 2;
            Orders.specialInstructions := EmptyString;
            Orders.price := 1899 # 100;
            Orders.customization :=
              [ {| Orders.c_name := "extra tofu"; Orders.c_price := 2 |} ] |};
         {| Orders.menuItem := "s1"; Orders.quantity := 1;
            Orders.specialInstructions := "rare";
            Orders.price := 15; Orders.customization := [] |} ];
     Orders.status := Orders.pending;
     Orders.notes := EmptyString;
     Orders.subtotal := 0; Orders.tax := 0; Orders.tip := 3; Orders.total := 0;
     Orders.priority := Orders.normal;
     Orders.createdAt := 1000000;
     Orders.estimatedDeliveryTime := None;
     Orders.actualDeliveryTime := None |}.



Example sample_order_totals :
  Orders.subtotal (calculateTotals sample_order) == 5498 # 100
  /\ Orders.total (calculateTotals sample_order) == 623784 # 10000.
Proof. split; reflexivity. Qed.




(** X13.  Adding a line and then removing the line at the last index
    gives the order back, with its totals computed from its items. *)
Theorem addItem_removeItem_round_trip :
  forall (id : string) (menuItem : MenuItem) (quantity : Q)
         (specialInstructions : string)
         (customization : list Orders.Customization) (this : Orders.t),
    removeItem (Z.of_nat (length (Orders.items this)))
      (addItem id menuItem quantity specialInstructions customization this)
    = Done (calculateTotals this).
Proof.
  intros id menuItem quantity specialInstructions customization this.
  unfold removeItem.
  replace (Orders.items (addItem id menuItem quantity specialInstructions
                           customization this))
    with (Orders.items this
          ++ [ {| Orders.menuItem := id;
                  Orders.quantity := quantity;
                  Orders.specialInstructions := specialInstructions;
                  Orders.price := price menuItem;
                  Orders.customization := customization |} ])
    by reflexivity.
  rewrite length_app. simpl length.
  assert ((0 <=? Z.of_nat (length (Orders.items this)))%Z = true) as ->
      by (apply Z.leb_le; lia).
  assert ((Z.of_nat (length (Orders.items this))
           <? Z.of_nat (length (Orders.items this) + 1))%Z = true) as ->
      by (apply Z.ltb_lt; lia).
  simpl andb. cbv iota. rewrite Nat2Z.id.
  unfold splice1.
  rewrite firstn_app, Nat.sub_diag, firstn_all, firstn_O, app_nil_r.
  rewrite skipn_all2 by (rewrite length_app; simpl; lia).
  rewrite app_nil_r. destruct this. reflexivity.
Qed.

(** Rounding a number of milliseconds to minutes. *)
Lemma round_minutes d :
  Math_round (inject_Z d / inject_Z (1000 * 60)) = ((d + 30000) / 60000)%Z.
Proof.
  unfold Math_round.
  assert (inject_Z d / inject_Z (1000 * 60) + (1 # 2) == (d + 30000) # 60000)
    as H.
  { change (1000 * 60)%Z with (Zpos 60000). rewrite <- Qmake_Qdiv.
    unfold Qeq, Qplus. simpl. lia. }
  rewrite (Qfloor_comp _ _ H). reflexivity.
Qed.

(** X14.  [actualDeliveryTime] is set when an order becomes ready, not
    when it is delivered: for an order marked ready at [t1] and
    delivered at [t2], [duration] is the time from creation to [t1],
    rounded to minutes, whatever [t2] is.  An order that is not
    delivered, or was delivered without having been ready, has no
    duration. *)
Theorem duration_runs_until_ready :
  forall (this : Orders.t) (notes1 notes2 : string) (t1 t2 : Z),
    duration (updateStatus Orders.delivered notes2 t2
                (updateStatus Orders.ready notes1 t1 this))
    = Some ((t1 - Orders.createdAt this + 30000) / 60000)%Z
    /\ (Orders.actualDeliveryTime this = None ->
        duration (updateStatus Orders.delivered notes2 t2 this) = None)
    /\ (forall s, s <> Orders.delivered ->
          duration (updateStatus s notes1 t1 this) = None).
Proof.
  intros this notes1 notes2 t1 t2. split; [|split].
  - unfold duration. simpl. now rewrite round_minutes.
  - intros H. unfold duration. simpl. now rewrite H.
  - intros s Hs. unfold duration. simpl. destruct s; congruence || reflexivity.
Qed.

(* ------------------------------------------------------------------ *)
(** ** Creating an order ([routes/orders.js], [POST /])

    The body has passed [orderSchema]: at least one line, each with a
    menu item id and a quantity.  The order number comes from
    [Order.generateOrderNumber()] and is an input here, like the time and
    like whether [order.save()] went through (it is rejected when the
    order number is taken). *)

Module NewOrder.

Record Line : Type := {
  menuItemId : string;
  quantity : Q;
  specialInstructions : option string;
  customization : option (list Orders.Customization)
}.

Record Body : Type := {
  lines : list Line;                 (* [items] *)
  tip : option Q;
  notes : option string
}.

End NewOrder.

Inductive CreateReply : Type :=
| Created (order : Orders.t)            (* 201 *)
| ItemNotFound (error : string)         (* 404 *)
| ItemUnavailable (error : string)      (* 400 *)
| CreateFailed (error : string).        (* 500 *)

(** [x || d] on a value that may be undefined. *)
Definition or_default {A : Type} (x : option A) (d : A) : A :=
  match x with
  | Some a => a
  | None => d
  end.

(** The loop [for (const item of value.items)], with the two variables it
    updates. *)
Fixpoint collect_lines (s : Store.t) (lines : list NewOrder.Line)
  (orderItems : list Orders.Item) (subtotal : Q)
  : CreateReply + (list Orders.Item * Q) :=
  match lines with
  | [] => inr (orderItems, subtotal)
  | item :: rest =>
      match Store.findById (NewOrder.menuItemId item) s with
      | None =>
          inl (ItemNotFound
                 ("Menu item with ID " ++ NewOrder.menuItemId item ++ " not found")%string)
      | Some menuItem =>
          if negb (isAvailable menuItem)
          then inl (ItemUnavailable
                      ("Menu item " ++ dquote ++ name menuItem ++ dquote
                       ++ " is not available")%string)
          else
            let itemTotal := price menuItem * NewOrder.quantity item in
            let customizationTotal :=
              fold_left (fun sum custom => sum + Orders.c_price custom)
                        (or_default (NewOrder.customization item) []) 0 in
            collect_lines s rest
              (orderItems ++
               [ {| Orders.menuItem := NewOrder.menuItemId item;
                    Orders.quantity := NewOrder.quantity item;
                    Orders.specialInstructions :=
                      or_default (NewOrder.specialInstructions item) EmptyString;
                    Orders.price := price menuItem;
                    Orders.customization :=
                      or_default (NewOrder.customization item) [] |} ])
              (subtotal + (itemTotal + customizationTotal))
      end
  end.

(** [MenuItem.findByIdAndUpdate(id, { $inc: { popularity: 1 } })]. *)
Definition inc_popularity (id : string) (s : Store.t) : Store.t :=
  match Store.findById id s with
  | Some m => Store.save id (incrementPopularity m) s
  | None => s
  end.

Definition create_order (s : Store.t) (value : NewOrder.Body)
  (orderNumber : string) (now : Z) (saved : bool) : CreateReply * Store.t :=
  match collect_lines s (NewOrder.lines value) [] 0 with
  | inl reply => (reply, s)
  | inr (orderItems, subtotal) =>
      let tax := subtotal * 0.08 in
      let tip := or_default (NewOrder.tip value) 0 in
      let total := subtotal + tax + tip in
      let order :=
        {| Orders.orderNumber := orderNumber;
           Orders.items := orderItems;
           Orders.status := Orders.pending;
           Orders.notes := or_default (NewOrder.notes value) EmptyString;
           Orders.subtotal := subtotal;
           Orders.tax := tax;
           Orders.tip := tip;
           Orders.total := total;
           Orders.priority := Orders.normal;
           Orders.createdAt := now;
           Orders.estimatedDeliveryTime := None;
           Orders.actualDeliveryTime := None |} in
      if saved
      then (Created order,
            fold_left (fun s item => inc_popularity (Orders.menuItem item) s)
                      orderItems s)
      else (CreateFailed "Failed to create order", s)
  end.

(** What a line of the request becomes in the order. *)
Definition line_of (s : Store.t) (line : NewOrder.Line) (item : Orders.Item)
  : Prop :=
  Orders.menuItem item = NewOrder.menuItemId line
  /\ Orders.quantity item = NewOrder.quantity line
  /\ exists m, Store.findById (NewOrder.menuItemId line) s = Some m
               /\ availability m = available
               /\ Orders.price item = price m.

(** The item with [n] added to its popularity. *)
Definition more_popular (n : nat) (m : MenuItem) : MenuItem :=
  {| name := name m;
     category := category m;
     price := price m;
     ingredients := ingredients m;
     dietary := dietary m;
     availability := availability m;
     rating := rating m;
     popularity := popularity m + n |}.

Lemma isAvailable_true m : isAvailable m = true <-> availability m = available.
Proof. unfold isAvailable. apply Availability_beq_eq. Qed.

Lemma Qsum_app l1 l2 : Qsum (l1 ++ l2) == Qsum l1 + Qsum l2.
Proof.
  induction l1 as [|x l1 IH]; simpl; [ring | rewrite IH; ring].
Qed.

Lemma lines_amount_app l1 l2 :
  lines_amount (l1 ++ l2) == lines_amount l1 + lines_amount l2.
Proof. unfold lines_amount. rewrite map_app. apply Qsum_app. Qed.

(** The loop, when it gets through: one order line per line of the
    request, and the amount of these lines added to the subtotal. *)
Lemma collect_lines_done s lines : forall acc sub items sub',
  collect_lines s lines acc sub = inr (items, sub') ->
  exists new,
    items = acc ++ new
    /\ Forall2 (line_of s) lines new
    /\ sub' == sub + lines_amount new.
Proof.
  induction lines as [|line lines IH]; intros acc sub items sub'; simpl.
  - intros [= <- <-]. exists []. rewrite app_nil_r.
    split; [reflexivity|]. split; [constructor|].
    unfold lines_amount. simpl. ring.
  - destruct (Store.findById (NewOrder.menuItemId line) s) as [m|] eqn:Hf;
      [|discriminate].
    destruct (isAvailable m) eqn:Ha; simpl; [|discriminate].
    intros H. destruct (IH _ _ _ _ H) as (new & -> & Hall & Hsub).
    eexists (_ :: new). rewrite <- app_assoc. simpl.
    split; [reflexivity|]. split.
    + constructor; [|exact Hall]. unfold line_of. simpl.
      split; [reflexivity|]. split; [reflexivity|].
      exists m. split; [exact Hf|]. split; [|reflexivity].
      now apply isAvailable_true.
    + rewrite Hsub. unfold lines_amount at 2. simpl. fold (lines_amount new).
      unfold line_amount. simpl. rewrite fold_customization. ring.
Qed.

(** The loop, when it stops: at a line whose item is missing or not
    available. *)
Lemma collect_lines_stopped s lines : forall acc sub reply,
  collect_lines s lines acc sub = inl reply ->
  exists line,
    In line lines
    /\ ((Store.findById (NewOrder.menuItemId line) s = None
         /\ exists e, reply = ItemNotFound e)
        \/ (exists m, Store.findById (NewOrder.menuItemId line) s = Some m
                      /\ availability m <> available
                      /\ exists e, reply = ItemUnavailable e)).
Proof.
  induction lines as [|line lines IH]; intros acc sub reply; simpl;
    [discriminate|].
  destruct (Store.findById (NewOrder.menuItemId line) s) as [m|] eqn:Hf.
  - destruct (isAvailable m) eqn:Ha; simpl.
    + intros H. destruct (IH _ _ _ H) as (l & Hin & Hl). exists l. auto.
    + intros [= <-]. exists line. split; [now left|]. right.
      exists m. split; [exact Hf|]. split; [|eauto].
      intros Hav. apply isAvailable_true in Hav. congruence.
  - intros [= <-]. exists line. split; [now left|]. left. eauto.
Qed.


Definition sample_store : Store.t :=
  [ ("b1", Sample.veggie_bowl); ("s1", Sample.steak) ].

Definition sample_body : NewOrder.Body :=
  {| NewOrder.lines :=
       [ {| NewOrder.menuItemId := "b1"; NewOrder.quantity := 2;
            NewOrder.specialInstructions := None;
            NewOrder.customization :=
              Some [ {| Orders.c_name := "extra tofu"; Orders.c_price := 2 |} ] |};
         {| NewOrder.menuItemId := "s1"; NewOrder.quantity := 1;
            NewOrder.specialInstructions := Some "rare";
            NewOrder.customization := None |};
         {| NewOrder.menuItemId := "b1"; NewOrder.quantity := 1;
            NewOrder.specialInstructions := None;
            NewOrder.customization := None |} ];
     NewOrder.tip := Some 3;
     NewOrder.notes := None |}.

Definition sample_created : Orders.t :=
  Eval vm_compute in
    match fst (create_order sample_store sample_body "ORD260101001" 1000000 true) with
    | Created order => order
    | _ => sample_order
    end.

Definition sample_store_after : Store.t :=
  Eval vm_compute in
    snd (create_order sample_store sample_body "ORD260101001" 1000000 true).



Lemma findById_save_other id id' m' s :
  id <> id' -> Store.findById id (Store.save id' m' s) = Store.findById id s.
Proof.
  intros Hne. induction s as [|[k x] s IH]; simpl; [reflexivity|].
  destruct (String.eqb id' k) eqn:E'; simpl.
  - apply String.eqb_eq in E'. subst k.
    apply String.eqb_neq in Hne. now rewrite Hne.
  - destruct (String.eqb id k); [reflexivity | exact IH].
Qed.

Lemma findById_inc_popularity id id' s :
  Store.findById id (inc_popularity id' s)
  = if String.eqb id id'
    then option_map incrementPopularity (Store.findById id s)
    else Store.findById id s.
Proof.
  unfold inc_popularity.
  destruct (String.eqb id id') eqn:E.
  - apply String.eqb_eq in E. subst id'.
    destruct (Store.findById id s) as [m|] eqn:Hf; simpl; [|exact Hf].
    now apply findById_save with (m := m).
  - apply String.eqb_neq in E.
    destruct (Store.findById id' s) as [m|]; [|reflexivity].
    now apply findById_save_other.
Qed.

Lemma more_popular_0 m : more_popular 0 m = m.
Proof. destruct m. unfold more_popular. simpl. now rewrite Nat.add_0_r. Qed.

Lemma more_popular_increment n m :
  more_popular n (incrementPopularity m) = more_popular (S n) m.
Proof. unfold more_popular, incrementPopularity. simpl. f_equal. lia. Qed.

(** The second loop of [POST /]: one increment per order line. *)
Lemma findById_after_increments id items : forall s,
  Store.findById id
    (fold_left (fun s item => inc_popularity (Orders.menuItem item) s) items s)
  = option_map
      (more_popular (count_occ string_dec (map Orders.menuItem items) id))
      (Store.findById id s).
Proof.
  induction items as [|it items IH]; intros s; simpl.
  - destruct (Store.findById id s) as [m|]; simpl; [|reflexivity].
    now rewrite more_popular_0.
  - rewrite IH, findById_inc_popularity.
    destruct (string_dec (Orders.menuItem it) id) as [->|Hne].
    + rewrite String.eqb_refl.
      destruct (Store.findById id s) as [m|]; simpl; [|reflexivity].
      now rewrite more_popular_increment.
    + assert (String.eqb id (Orders.menuItem it) = false) as ->
          by (apply String.eqb_neq; congruence).
      reflexivity.
Qed.

(** X17.  When [POST /] creates an order, every stored menu item has its
    popularity raised by the number of lines of the request that name it,
    whatever their quantities, and by nothing else; an item no line
    names, and every other field of every item, is as before. *)
Theorem create_order_popularity :
  forall (s s' : Store.t) (value : NewOrder.Body) (orderNumber : string)
         (now : Z) (saved : bool) (order : Orders.t),
    create_order s value orderNumber now saved = (Created order, s') ->
    forall id,
      Store.findById id s'
      = option_map
          (more_popular
             (count_occ string_dec
                (map NewOrder.menuItemId (NewOrder.lines value)) id))
          (Store.findById id s).
Proof.
  intros s s' value orderNumber now saved order. unfold create_order.
  destruct (collect_lines s (NewOrder.lines value) [] 0)
    as [reply|[orderItems subtotal]] eqn:Hc.
  { intros [= -> _].
    destruct (collect_lines_stopped _ _ _ _ _ Hc)
      as (l & _ & [[_ [e He]] | (m & _ & _ & e & He)]); discriminate He. }
  destruct saved; [|discriminate].
  intros [= _ <-] id.
  destruct (collect_lines_done _ _ _ _ _ _ Hc) as (new & Hnew & Hall & _).
  simpl in Hnew. subst new.
  rewrite findById_after_increments. f_equal. f_equal. f_equal.
  clear -Hall. induction Hall as [|l i ls its Hl _ IH]; simpl; [reflexivity|].
  destruct Hl as (-> & _). now rewrite IH.
Qed.

Lemma create_order_popularity_witness :
  Store.findById "b1" sample_store_after
  = option_map
      (more_popular
         (count_occ string_dec
            (map NewOrder.menuItemId (NewOrder.lines sample_body)) "b1"))
      (Store.findById "b1" sample_store).
Proof.
  refine (create_order_popularity sample_store sample_store_after sample_body
            "ORD260101001" 1000000 true sample_created _ "b1").
  vm_compute. reflexivity.
Defined.

Example sample_popularity_after :
  option_map popularity (Store.findById "b1" sample_store_after) = Some 12%nat
  /\ option_map popularity (Store.findById "s1" sample_store_after) = Some 2%nat.
Proof. split; reflexivity. Qed.

(* ------------------------------------------------------------------ *)
(** ** Order statistics ([routes/orders.js], [GET /stats/summary])

    [$match] keeps the orders created in the requested range, [$group]
    with [_id: null] yields one group with the number of orders, the sum
    and the average of their totals and the list of their statuses, or no
    group at all when no order matches.  The route then counts the
    statuses with a plain object. *)












(* ------------------------------------------------------------------ *)
(** ** The kitchen display ([routes/orders.js], [GET /kitchen/display])

    [Order.find({ status: { $in: ['confirmed', 'preparing'] } })
    .sort({ priority: -1, createdAt: 1 })].  [priority] is stored as a
    string, and the store compares strings code unit by code unit. *)

Definition on_display (o : Orders.t) : bool :=
  match Orders.status o with
  | Orders.confirmed | Orders.preparing => true
  | _ => false
  end.

(** [a] goes in front of [b]: greater priority string, or the same and
    created earlier. *)
Definition kitchen_before (a b : Orders.t) : bool :=
  match String.compare (priority_name (Orders.priority a))
                       (priority_name (Orders.priority b)) with
  | Gt => true
  | Lt => false
  | Eq => (Orders.createdAt a <? Orders.createdAt b)%Z
  end.

Definition kitchen_display (orders : list Orders.t) : list Orders.t :=
  stable_sort kitchen_before (filter on_display orders).

(** The place of a priority on the display. *)
Definition display_rank (p : Orders.Priority) : nat :=
  match p with
  | Orders.urgent => 0
  | Orders.normal => 1
  | Orders.low => 2
  | Orders.high => 3
  end.

Definition display_order (a b : Orders.t) : Prop :=
  (display_rank (Orders.priority a) < display_rank (Orders.priority b))%nat
  \/ (Orders.priority a = Orders.priority b
      /\ (Orders.createdAt a <= Orders.createdAt b)%Z).

Lemma kitchen_before_false a b :
  kitchen_before b a = false <-> display_order a b.
Proof.
  unfold kitchen_before, display_order.
  destruct (Orders.priority a), (Orders.priority b); simpl;
    rewrite ?Z.ltb_ge; split; intros H;
    try discriminate; try lia; try (right; split; [reflexivity | lia]);
    try (left; lia);
    try (destruct H as [H|[H H']]; (lia || discriminate H || exact H')).
Qed.

(** X19.  The kitchen display lists exactly the confirmed and the
    preparing orders, and lists them by priority in the order urgent,
    normal, low, high, because the priorities are compared as strings:
    an order of high priority comes after every order of low priority.
    Orders of the same priority are listed oldest first. *)
Theorem kitchen_display_order :
  forall orders : list Orders.t,
    (forall o, In o (kitchen_display orders) <->
               In o orders
               /\ (Orders.status o = Orders.confirmed
                   \/ Orders.status o = Orders.preparing))
    /\ StronglySorted display_order (kitchen_display orders).
Proof.
  intros orders. unfold kitchen_display. split.
  - intros o. rewrite stable_sort_In, filter_In. unfold on_display.
    destruct (Orders.status o); split; intros [H1 H2]; split; auto;
      try discriminate; destruct H2; discriminate.
  - apply StronglySorted_weaken with (R := in_order kitchen_before).
    + intros x y _ _ H. now apply kitchen_before_false.
    + apply stable_sort_sorted.
      * intros x y H. apply kitchen_before_false.
        destruct (kitchen_before y x) eqn:E; [|now apply kitchen_before_false].
        exfalso. unfold kitchen_before in *.
        destruct (Orders.priority x), (Orders.priority y); simpl in *;
          try discriminate; apply Z.ltb_lt in H, E; lia.
      * intros x y z. rewrite !kitchen_before_false.
        unfold display_order.
        intros [H1|[H1 H1']] [H2|[H2 H2']].
        -- left. lia.
        -- left. rewrite <- H2. exact H1.
        -- left. rewrite H1. exact H2.
        -- right. split; [congruence | lia].
Qed.

(* ------------------------------------------------------------------ *)
(** ** Pagination ([GET /] of [routes/menu.js] and of [routes/orders.js])

    [find(query).sort(sort).skip((page - 1) * limit).limit(limit)] next to
    [pages: Math.ceil(total / limit)], where [total] is
    [countDocuments(query)].  [sorted] is the list of the matching
    documents in the requested order; [page] and [limit] are what
    [parseInt] gave, both at least 1. *)

Definition page_of {A : Type} (sorted : list A) (page limit : nat) : list A :=
  firstn limit (skipn ((page - 1) * limit) sorted).

Definition page_count (total limit : nat) : Z :=
  Qceiling (nat_to_Q total / nat_to_Q limit).

Lemma firstn_plus {A : Type} (a b : nat) : forall l : list A,
  firstn (a + b) l = firstn a l ++ firstn b (skipn a l).
Proof.
  induction a as [|a IH]; intros [|x l]; simpl; try reflexivity.
  - now rewrite firstn_nil.
  - now rewrite IH.
Qed.

Lemma chunks {A : Type} (l : list A) n k :
  concat (map (fun i => firstn n (skipn (i * n) l)) (seq 0 k))
  = firstn (k * n) l.
Proof.
  induction k as [|k IH]; [reflexivity|].
  rewrite seq_S, map_app, concat_app, IH. simpl.
  rewrite app_nil_r, <- firstn_plus. f_equal. lia.
Qed.

(** [Math.ceil(total / limit)] is the least number of pages of [limit]
    items that hold [total] items. *)
Lemma page_count_bounds total limit :
  (1 <= limit)%nat ->
  let pages := Z.to_nat (page_count total limit) in
  (total <= pages * limit)%nat
  /\ (total = 0%nat /\ pages = 0%nat
      \/ ((pages - 1) * limit < total)%nat /\ (1 <= pages)%nat).
Proof.
  intros Hl pages. subst pages. unfold page_count.
  set (x := nat_to_Q total / nat_to_Q limit).
  assert (0 < nat_to_Q limit) as HL.
  { unfold nat_to_Q. change 0 with (inject_Z 0). rewrite <- Zlt_Qlt. lia. }
  assert (x * nat_to_Q limit == nat_to_Q total) as Hx.
  { subst x. field. lra. }
  pose proof (Qle_ceiling x) as Hc. pose proof (Qceiling_lt x) as Hf.
  set (c := Qceiling x) in *.
  assert (0 <= x) as Hx0.
  { subst x. apply Qle_shift_div_l; [exact HL|].
    rewrite Qmult_0_l. apply nat_to_Q_nonneg. }
  assert (0 <= c)%Z as Hc0.
  { rewrite Zle_Qle. change (inject_Z 0) with 0. lra. }
  assert (Z.of_nat total <= c * Z.of_nat limit)%Z as H1.
  { rewrite Zle_Qle, inject_Z_mult. fold (nat_to_Q total) (nat_to_Q limit).
    rewrite <- Hx. apply Qmult_le_compat_r; lra. }
  assert ((c - 1) * Z.of_nat limit < Z.of_nat total \/ total = 0%nat)%Z as H2.
  { destruct total as [|t]; [now right|]. left.
    rewrite Zlt_Qlt, inject_Z_mult. fold (nat_to_Q (S t)) (nat_to_Q limit).
    rewrite <- Hx. apply Qmult_lt_compat_r; assumption. }
  split.
  - apply Nat2Z.inj_le. rewrite Nat2Z.inj_mul, Z2Nat.id; assumption.
  - destruct (Nat.eq_dec total 0) as [E|E].
    { left. split; [exact E|]. assert (c <= 0)%Z; [|lia].
      assert (c - 1 < 0)%Z; [|lia]. rewrite Zlt_Qlt.
      apply Qlt_le_trans with x; [exact Hf|]. subst x total.
      unfold nat_to_Q. simpl. unfold Qdiv. rewrite Qmult_0_l. apply Qle_refl. }
    destruct H2 as [H2|H2]; [|contradiction]. right.
    assert (1 <= c)%Z as Hc1.
    { assert (0 < c)%Z; [|lia]. rewrite Zlt_Qlt. change (inject_Z 0) with 0.
      apply Qlt_le_trans with x; [|exact Hc]. subst x.
      apply Qlt_shift_div_l; [exact HL|]. rewrite Qmult_0_l.
      unfold nat_to_Q. change 0 with (inject_Z 0). rewrite <- Zlt_Qlt. lia. }
    split.
    + apply Nat2Z.inj_lt.
      rewrite Nat2Z.inj_mul, Nat2Z.inj_sub, Z2Nat.id by lia. exact H2.
    + lia.
Qed.

(** X20.  With a limit of at least 1, the pages 1 to
    [Math.ceil(total / limit)] hold the matching documents exactly once
    and in order; every page before the last is full, the last one is not
    empty, no page has more than [limit] documents, and every page after
    the last is empty. *)
Theorem pages_partition_the_result :
  forall (A : Type) (sorted : list A) (limit : nat),
    (1 <= limit)%nat ->
    let pages := Z.to_nat (page_count (length sorted) limit) in
    concat (map (fun page => page_of sorted page limit) (seq 1 pages)) = sorted
    /\ (forall page, (1 <= page < pages)%nat ->
                     length (page_of sorted page limit) = limit)
    /\ (sorted <> [] -> page_of sorted pages limit <> [])
    /\ (forall page, (1 <= page)%nat ->
                     (length (page_of sorted page limit) <= limit)%nat)
    /\ (forall page, (pages < page)%nat -> page_of sorted page limit = []).
Proof.
  intros A sorted limit Hl pages.
  destruct (page_count_bounds (length sorted) limit Hl) as [Hup Hlow].
  fold pages in Hup, Hlow.
  split; [|split; [|split; [|split]]].
  - rewrite <- seq_shift, map_map.
    rewrite (map_ext _ (fun i => firstn limit (skipn (i * limit) sorted))).
    + rewrite chunks. now apply firstn_all2.
    + intros i. unfold page_of. simpl. now rewrite Nat.sub_0_r.
  - intros page [H1 H2]. unfold page_of.
    rewrite length_firstn, length_skipn.
    destruct Hlow as [[_ H0]|[Hlow _]]; [lia|].
    assert ((page - 1) * limit + limit <= (pages - 1) * limit)%nat.
    { replace ((page - 1) * limit + limit)%nat with (page * limit)%nat by nia.
      apply Nat.mul_le_mono_r. lia. }
    lia.
  - intros Hne. unfold page_of.
    destruct Hlow as [[H0 _]|[Hlow Hp]];
      [destruct sorted; [congruence | discriminate]|].
    intros E. apply (f_equal (@length A)) in E.
    rewrite length_firstn, length_skipn in E. simpl in E. lia.
  - intros page _. unfold page_of. rewrite length_firstn. lia.
  - intros page Hp. unfold page_of.
    rewrite skipn_all2; [now rewrite firstn_nil | nia].
Qed.

Lemma pages_partition_the_result_witness :
  let sorted := [1; 2; 3; 4; 5; 6; 7]%nat in
  let pages := Z.to_nat (page_count (length sorted) 3) in
  concat (map (fun page => page_of sorted page 3) (seq 1 pages)) = sorted
  /\ (forall page, (1 <= page < pages)%nat ->
                   length (page_of sorted page 3) = 3%nat)
  /\ (sorted <> [] -> page_of sorted pages 3 <> [])
  /\ (forall page, (1 <= page)%nat ->
                   (length (page_of sorted page 3) <= 3)%nat)
  /\ (forall page, (pages < page)%nat -> page_of sorted page 3 = []).
Proof.
  apply (pages_partition_the_result nat [1; 2; 3; 4; 5; 6; 7]%nat 3). lia.
Defined.

Example three_pages_of_seven :
  page_count 7 3 = 3%Z
  /\ page_of [1; 2; 3; 4; 5; 6; 7]%nat 3 3 = [7]%nat.
Proof. split; reflexivity. Qed.

(* ------------------------------------------------------------------ *)
(** ** Queries with [$nin] on names and [$in] on categories
    ([AIService.getPersonalizedSuggestions], [POST /combination] and
    [POST /ingredients] of the AI routes) *)

(** The value under the key ['ingredients.name'].  The key holds one
    value: an assignment replaces what was there. *)
Inductive NameClause : Type :=
| NameIn (rs : list RegExpObj)        (* { $in: rs } *)
| NameNin (rs : list RegExpObj).      (* { $nin: rs } *)

(** The value under the key [category]. *)
Inductive CategoryClause : Type :=
| CategoryIs (c : string)             (* a string *)
| CategoryIn (cs : list string).      (* { $in: cs } *)

Record Criteria : Type := {
  k_availability : Availability;
  k_vegetarian : option bool;
  k_vegan : option bool;
  k_glutenFree : option bool;
  k_dairyFree : option bool;
  k_spicy : option bool;
  k_price : option (Q * Q);
  k_category : option CategoryClause;
  k_name : option NameClause
}.

(** The clauses that [Query] has. *)
Definition plain_part (k : Criteria) : Query :=
  {| q_availability := k_availability k;
     q_vegetarian := k_vegetarian k;
     q_vegan := k_vegan k;
     q_glutenFree := k_glutenFree k;
     q_dairyFree := k_dairyFree k;
     q_price := k_price k;
     q_category :=
       match k_category k with
       | Some (CategoryIs c) => Some c
       | _ => None
       end;
     q_spicy := k_spicy k;
     q_allergens_nin := None;
     q_name_in :=
       match k_name k with
       | Some (NameIn rs) => Some rs
       | _ => None
       end |}.

(** [category: { $in: cs }]: the category is one of [cs]. *)
Definition category_in (cs : list string) (m : MenuItem) : bool :=
  existsb (String.eqb (category_name (category m))) cs.

(** ['ingredients.name': { $nin: rs }]: no ingredient name is matched by
    any of the expressions. *)
Definition name_nin (rs : list RegExpObj) (m : MenuItem) : bool :=
  negb (name_in rs m).

Definition selects (k : Criteria) (m : MenuItem) : bool :=
  matches (plain_part k) m
  && match k_category k with
     | Some (CategoryIn cs) => category_in cs m
     | _ => true
     end
  && match k_name k with
     | Some (NameNin rs) => name_nin rs m
     | _ => true
     end.

(** [sort({ 'rating.average': -1, popularity: -1 })]. *)
Definition average_compare (a b : MenuItem) : comparison :=
  match Qcompare (average (rating a)) (average (rating b)) with
  | Eq => Nat.compare (popularity a) (popularity b)
  | c => c
  end.

Definition average_before (a b : MenuItem) : bool :=
  match average_compare a b with
  | Gt => true
  | _ => false
  end.

(** [cursor.limit(n)]: a limit of 0 is no limit. *)
Definition cursor_limit {A : Type} (n : nat) (l : list A) : list A :=
  match n with
  | O => l
  | _ => firstn n l
  end.

(** *** [AIService.getPersonalizedSuggestions] *)

Module Profile.

(** [customerProfile]; a property that is [undefined] is [None]. *)
Record t : Type := {
  dietaryRestrictions : option (list string);
  favoriteIngredients : option (list string);
  dislikedIngredients : option (list string);
  preferredCategories : option (list string);
  budget : option Pref.PriceRange
}.

End Profile.

Inductive Suggestions : Type :=
| Suggested (suggestions : list MenuItem) (count : nat) (customerProfile : Profile.t)
| SuggestFailed (error : string) (suggestions : list MenuItem).

(** [item.ingredients.filter(ing => favoriteIngredients.some(fav =>
    ing.name.toLowerCase().includes(fav.toLowerCase()))).length]. *)
Definition favoriteMatches (favoriteIngredients : list string) (item : MenuItem)
  : nat :=
  length
    (filter
       (fun ing =>
          existsb
            (fun fav =>
               JSString.includes (JSString.toLowerCase fav)
                                 (JSString.toLowerCase (ing_name ing)))
            favoriteIngredients)
       (ingredients item)).

(** [item.rating.average + (favoriteMatches * 0.5)]. *)
Definition boost_score (favoriteIngredients : list string) (item : MenuItem) : Q :=
  average (rating item) + nat_to_Q (favoriteMatches favoriteIngredients item) * 0.5.

(** [map] to [{ item, score }], [sort((a, b) => b.score - a.score)],
    [map(s => s.item)]. *)
Definition boost (favoriteIngredients : list string) (suggestions : list MenuItem)
  : list MenuItem :=
  map fst
      (stable_sort score_before
         (map (fun item => (item, boost_score favoriteIngredients item))
              suggestions)).

Section Suggest.

Variable RegExp : string -> option RegExpObj.

Definition default_budget : Pref.PriceRange := {| Pref.min := 0; Pref.max := 100 |}.

(** The query built from the profile. *)
Definition suggestion_query (customerProfile : Profile.t) : JS Criteria :=
  let dietaryRestrictions :=
    or_default (Profile.dietaryRestrictions customerProfile) [] in
  let dislikedIngredients :=
    or_default (Profile.dislikedIngredients customerProfile) [] in
  let preferredCategories :=
    or_default (Profile.preferredCategories customerProfile) [] in
  let budget := or_default (Profile.budget customerProfile) default_budget in
  names <-
    match dislikedIngredients with
    | [] => Return None
    | _ => rs <- mapM (new_RegExp RegExp) dislikedIngredients ;;
           Return (Some (NameNin rs))
    end ;;
  Return
    {| k_availability := available;
       k_vegetarian :=
         when_set (JSString.array_includes dietaryRestrictions "vegetarian");
       k_vegan := when_set (JSString.array_includes dietaryRestrictions "vegan");
       k_glutenFree :=
         when_set (JSString.array_includes dietaryRestrictions "gluten-free");
       k_dairyFree :=
         when_set (JSString.array_includes dietaryRestrictions "dairy-free");
       k_spicy := None;
       k_price := Some (Pref.min budget, Pref.max budget);
       k_category :=
         match preferredCategories with
         | [] => None
         | _ => Some (CategoryIn preferredCategories)
         end;
       k_name := names |}.

(** [MenuItem.find(query).sort({ rating: -1, popularity: -1 }).limit(15)]. *)
Definition find_suggestions (catalog : list MenuItem) (query : Criteria)
  : list MenuItem :=
  firstn 15 (stable_sort store_before (filter (selects query) catalog)).

(** The body of the [try] block. *)
Definition suggest (catalog : list MenuItem) (customerProfile : Profile.t)
  : JS Suggestions :=
  let favoriteIngredients :=
    or_default (Profile.favoriteIngredients customerProfile) [] in
  query <- suggestion_query customerProfile ;;
  let suggestions := find_suggestions catalog query in
  let suggestions :=
    match favoriteIngredients with
    | [] => suggestions
    | _ => boost favoriteIngredients suggestions
    end in
  Return (Suggested (firstn 10 suggestions) (length suggestions) customerProfile).

Definition getPersonalizedSuggestions (catalog : list MenuItem)
  (customerProfile : Profile.t) : JS Suggestions :=
  try_catch
    (suggest catalog customerProfile)
    (fun error =>
       Return (SuggestFailed "Failed to get personalized suggestions" [])).

End Suggest.

(** *** What [getPersonalizedSuggestions] hands out *)

Lemma StronglySorted_firstn {A : Type} (R : A -> A -> Prop) (l : list A) :
  StronglySorted R l -> forall n, StronglySorted R (firstn n l).
Proof.
  induction 1 as [|a l Hl IH Ha]; intros [|n]; simpl; try constructor.
  - apply IH.
  - rewrite Forall_forall in *. intros b Hb. apply Ha.
    exact (In_firstn _ _ _ Hb).
Qed.


Lemma boost_perm favs l : Permutation (boost favs l) l.
Proof.
  unfold boost. rewrite (stable_sort_perm score_before), map_map. simpl.
  now rewrite map_id.
Qed.


Section SuggestFacts.

Variable RegExp : string -> option RegExpObj.

(** The fields of the query built from the profile. *)
Lemma suggestion_query_fields customerProfile query :
  suggestion_query RegExp customerProfile = Return query ->
  let restrictions := or_default (Profile.dietaryRestrictions customerProfile) [] in
  let disliked := or_default (Profile.dislikedIngredients customerProfile) [] in
  let categories := or_default (Profile.preferredCategories customerProfile) [] in
  let budget := or_default (Profile.budget customerProfile) default_budget in
  k_availability query = available
  /\ k_vegetarian query
     = when_set (JSString.array_includes restrictions "vegetarian")
  /\ k_vegan query = when_set (JSString.array_includes restrictions "vegan")
  /\ k_glutenFree query
     = when_set (JSString.array_includes restrictions "gluten-free")
  /\ k_dairyFree query
     = when_set (JSString.array_includes restrictions "dairy-free")
  /\ k_spicy query = None
  /\ k_price query = Some (Pref.min budget, Pref.max budget)
  /\ k_category query
     = match categories with [] => None | _ => Some (CategoryIn categories) end
  /\ match disliked with
     | [] => k_name query = None
     | _ => exists rs, k_name query = Some (NameNin rs)
                       /\ Forall2 (fun s r => RegExp s = Some r) disliked rs
     end.
Proof.
  unfold suggestion_query. intros H. cbv zeta.
  destruct (or_default (Profile.dislikedIngredients customerProfile) [])
    as [|d ds] eqn:Hd.
  - simpl in H. injection H as <-. simpl. tauto.
  - destruct (mapM (new_RegExp RegExp) (d :: ds)) as [rs|e] eqn:Hm;
      [|simpl in H; discriminate].
    cbn [bind] in H. injection H as <-. cbn -[when_set JSString.array_includes].
    repeat (split; [reflexivity|]).
    exists rs. split; [reflexivity|]. now apply mapM_new_RegExp.
Qed.

(** The shape of a success. *)
Lemma getPersonalizedSuggestions_success catalog customerProfile l n p :
  getPersonalizedSuggestions RegExp catalog customerProfile
  = Return (Suggested l n p) ->
  exists query,
    suggestion_query RegExp customerProfile = Return query
    /\ p = customerProfile
    /\ let found := find_suggestions catalog query in
       let favs := or_default (Profile.favoriteIngredients customerProfile) [] in
       let ordered := match favs with [] => found | _ => boost favs found end in
       l = firstn 10 ordered /\ n = length ordered.
Proof.
  unfold getPersonalizedSuggestions, suggest. intros H.
  destruct (suggestion_query RegExp customerProfile) as [query|e] eqn:Hq;
    [|simpl in H; discriminate].
  exists query. split; [reflexivity|].
  cbn [bind try_catch] in H. injection H as <- <- <-.
  repeat split; reflexivity.
Qed.

Lemma getPersonalizedSuggestions_returns catalog customerProfile :
  exists reply,
    getPersonalizedSuggestions RegExp catalog customerProfile = Return reply.
Proof.
  unfold getPersonalizedSuggestions, suggest.
  destruct (suggestion_query RegExp customerProfile) as [query|e];
    simpl; eauto.
Qed.

End SuggestFacts.

(** X21.  The [count] of a successful reply is the number of matching
    documents up to 15, taken before [slice(0, 10)]: the list handed out
    has that number up to 10, so with more than ten matches [count] is
    larger than the number of suggestions. *)
Theorem getPersonalizedSuggestions_count_before_slice :
  forall RegExp catalog customerProfile l n p,
    getPersonalizedSuggestions RegExp catalog customerProfile
    = Return (Suggested l n p) ->
    exists query,
      suggestion_query RegExp customerProfile = Return query
      /\ n = Nat.min 15 (length (filter (selects query) catalog))
      /\ length l = Nat.min 10 (length (filter (selects query) catalog))
      /\ p = customerProfile.
Proof.
  intros RegExp catalog customerProfile l n p H.
  destruct (getPersonalizedSuggestions_success _ _ _ _ _ _ H)
    as (query & Hq & -> & -> & ->).
  exists query. split; [exact Hq|].
  assert (length (find_suggestions catalog query)
          = Nat.min 15 (length (filter (selects query) catalog))) as Hf.
  { unfold find_suggestions. now rewrite length_firstn, stable_sort_length. }
  assert (forall favs, length (boost favs (find_suggestions catalog query))
                       = length (find_suggestions catalog query)) as Hb.
  { intros favs. apply Permutation_length, boost_perm. }
  destruct (or_default (Profile.favoriteIngredients customerProfile) []);
    rewrite length_firstn, ?Hb, Hf; repeat split; lia.
Qed.

(** X22.  Every suggestion is an available document of the catalog whose
    price is within the budget (0 to 100 when none is given), whose
    category is one of the preferred ones when there are any, which has
    the dietary flags the restrictions name, and none of whose ingredient
    names is matched by a disliked string read as a regular expression. *)
Theorem getPersonalizedSuggestions_sound :
  forall RegExp catalog customerProfile l n p m,
    getPersonalizedSuggestions RegExp catalog customerProfile
    = Return (Suggested l n p) ->
    In m l ->
    let restrictions := or_default (Profile.dietaryRestrictions customerProfile) [] in
    let disliked := or_default (Profile.dislikedIngredients customerProfile) [] in
    let categories := or_default (Profile.preferredCategories customerProfile) [] in
    let budget := or_default (Profile.budget customerProfile) default_budget in
    In m catalog
    /\ availability m = available
    /\ Pref.min budget <= price m <= Pref.max budget
    /\ (categories <> [] -> In (category_name (category m)) categories)
    /\ (In "vegetarian" restrictions -> vegetarian (dietary m) = true)
    /\ (In "vegan" restrictions -> vegan (dietary m) = true)
    /\ (In "gluten-free" restrictions -> glutenFree (dietary m) = true)
    /\ (In "dairy-free" restrictions -> dairyFree (dietary m) = true)
    /\ (forall s, In s disliked ->
          exists r, RegExp s = Some r
                    /\ forall ing, In ing (ingredients m) ->
                                   test r (ing_name ing) = false).
Proof.
  intros RegExp catalog customerProfile l n p m H Hin.
  destruct (getPersonalizedSuggestions_success _ _ _ _ _ _ H)
    as (query & Hq & _ & Hl & _).
  cbv zeta in Hl. subst l. apply In_firstn in Hin.
  assert (In m (find_suggestions catalog query)) as Hfound.
  { destruct (or_default (Profile.favoriteIngredients customerProfile) []);
      [exact Hin|].
    exact (Permutation_in _ (boost_perm _ _) Hin). }
  clear Hin. unfold find_suggestions in Hfound.
  apply In_firstn, stable_sort_In, filter_In in Hfound.
  destruct Hfound as [Hcat Hsel].
  destruct (suggestion_query_fields _ _ _ Hq)
    as (Ha & Hv & Hvg & Hg & Hd & _ & Hp & Hc & Hn).
  unfold selects, matches in Hsel. simpl in Hsel.
  rewrite Ha, Hv, Hvg, Hg, Hd, Hp, Hc in Hsel.
  rewrite !andb_true_iff in Hsel.
  destruct Hsel as [[(((((((((Hav & Hve) & Hvn) & Hgf) & Hdf) & Hpr) & _) & _) & _)
                       & _) Hci] Hnn].
  assert (forall k flag,
             clause (when_set (JSString.array_includes
                                 (or_default (Profile.dietaryRestrictions
                                                customerProfile) []) k))
                    (Bool.eqb flag) = true ->
             In k (or_default (Profile.dietaryRestrictions customerProfile) []) ->
             flag = true) as Hflag.
  { intros k flag Hk Hink.
    assert (JSString.array_includes
              (or_default (Profile.dietaryRestrictions customerProfile) []) k
            = true) as Hinc.
    { unfold JSString.array_includes. apply existsb_exists.
      exists k. split; [exact Hink | apply String.eqb_refl]. }
    rewrite Hinc in Hk. simpl in Hk. now apply Bool.eqb_prop in Hk. }
  split; [exact Hcat|].
  split; [now apply Availability_beq_eq|].
  split.
  { simpl in Hpr. apply andb_true_iff in Hpr.
    now rewrite <- !Qle_bool_iff. }
  split.
  { intros Hne.
    destruct (or_default (Profile.preferredCategories customerProfile) [])
      as [|c cs] eqn:E; [congruence|].
    unfold category_in in Hci. apply existsb_exists in Hci.
    destruct Hci as (k & Hk & Hek). apply String.eqb_eq in Hek.
    now rewrite Hek. }
  split; [now apply Hflag|].
  split; [now apply Hflag|].
  split; [now apply Hflag|].
  split; [now apply Hflag|].
  intros s Hs.
  destruct (or_default (Profile.dislikedIngredients customerProfile) [])
    as [|d ds] eqn:E; [contradiction|].
  destruct Hn as (rs & Hrs & Hall). rewrite Hrs in Hnn.
  destruct (Forall2_In_l _ _ _ _ Hall Hs) as (r & Hr & Hsr).
  exists r. split; [exact Hsr|]. intros ing Hing.
  unfold name_nin, name_in in Hnn. apply negb_true_iff in Hnn.
  destruct (test r (ing_name ing)) eqn:Ht; [|reflexivity].
  assert (existsb (fun ing => existsb (fun r => test r (ing_name ing)) rs)
                  (ingredients m) = true) as Hex; [|congruence].
  apply existsb_exists. exists ing. split; [exact Hing|].
  apply existsb_exists. exists r. now split.
Qed.


(** X24.  [getPersonalizedSuggestions] never throws.  It returns its
    failure result exactly when one of the disliked ingredients is not
    accepted by the constructor of [RegExp]; the favourite ingredients are
    compared as plain text and cannot make it fail. *)
Theorem getPersonalizedSuggestions_fails_iff_invalid_pattern :
  forall RegExp catalog customerProfile,
    let disliked := or_default (Profile.dislikedIngredients customerProfile) [] in
    ((exists s, In s disliked /\ RegExp s = None) ->
     getPersonalizedSuggestions RegExp catalog customerProfile
     = Return (SuggestFailed "Failed to get personalized suggestions" []))
    /\ ((forall s, In s disliked -> RegExp s <> None) ->
        exists l n,
          getPersonalizedSuggestions RegExp catalog customerProfile
          = Return (Suggested l n customerProfile)).
Proof.
  intros RegExp catalog customerProfile disliked. subst disliked.
  unfold getPersonalizedSuggestions, suggest, suggestion_query.
  destruct (or_default (Profile.dislikedIngredients customerProfile) [])
    as [|d ds] eqn:Hd.
  - split.
    + intros (s & [] & _).
    + intros _. simpl. eauto.
  - split.
    + intros (s & Hs & Hnone).
      now rewrite (mapM_new_RegExp_invalid RegExp (d :: ds) s Hs Hnone).
    + intros Hvalid.
      destruct (mapM_new_RegExp_valid RegExp (d :: ds) Hvalid) as [rs ->].
      cbn [bind try_catch]. eauto.
Qed.

(** A profile and a catalog with twelve matching documents. *)
Definition sample_profile : Profile.t :=
  {| Profile.dietaryRestrictions := Some ["vegetarian"];
     Profile.favoriteIngredients := Some ["TOFU"];
     Profile.dislikedIngredients := Some ["beef"];
     Profile.preferredCategories := Some ["main"];
     Profile.budget := None |}.

Definition twelve_bowls_and_a_steak : list MenuItem :=
  Sample.steak :: repeat Sample.veggie_bowl 12.

Lemma getPersonalizedSuggestions_count_before_slice_witness :
  exists query,
    suggestion_query RegExpFragment.RegExp sample_profile = Return query
    /\ 12%nat = Nat.min 15 (length (filter (selects query) twelve_bowls_and_a_steak))
    /\ length (repeat Sample.veggie_bowl 10)
       = Nat.min 10 (length (filter (selects query) twelve_bowls_and_a_steak))
    /\ sample_profile = sample_profile.
Proof.
  apply (getPersonalizedSuggestions_count_before_slice RegExpFragment.RegExp
           twelve_bowls_and_a_steak sample_profile
           (repeat Sample.veggie_bowl 10) 12 sample_profile).
  vm_compute. reflexivity.
Defined.

Lemma getPersonalizedSuggestions_sound_witness :
  In Sample.veggie_bowl twelve_bowls_and_a_steak
  /\ availability Sample.veggie_bowl = available
  /\ Pref.min default_budget <= price Sample.veggie_bowl <= Pref.max default_budget
  /\ (["main"] <> [] -> In (category_name (category Sample.veggie_bowl)) ["main"])
  /\ (In "vegetarian" ["vegetarian"] ->
      vegetarian (dietary Sample.veggie_bowl) = true)
  /\ (In "vegan" ["vegetarian"] -> vegan (dietary Sample.veggie_bowl) = true)
  /\ (In "gluten-free" ["vegetarian"] ->
      glutenFree (dietary Sample.veggie_bowl) = true)
  /\ (In "dairy-free" ["vegetarian"] ->
      dairyFree (dietary Sample.veggie_bowl) = true)
  /\ (forall s, In s ["beef"] ->
        exists r, RegExpFragment.RegExp s = Some r
                  /\ forall ing, In ing (ingredients Sample.veggie_bowl) ->
                                 test r (ing_name ing) = false).
Proof.
  apply (getPersonalizedSuggestions_sound RegExpFragment.RegExp
           twelve_bowls_and_a_steak sample_profile
           (repeat Sample.veggie_bowl 10) 12 sample_profile Sample.veggie_bowl).
  - vm_compute. reflexivity.
  - simpl. now left.
Defined.


Example sample_boost_score :
  boost_score ["TOFU"] Sample.veggie_bowl == 4.5
  /\ boost_score ["TOFU"] Sample.steak == 4.
Proof. split; vm_compute; reflexivity. Qed.

(* ------------------------------------------------------------------ *)
(** ** [POST /combination] and [POST /ingredients] of the AI routes *)

Module Combination.

Record Dietary : Type := {
  vegetarian : bool;
  vegan : bool;
  glutenFree : bool;
  dairyFree : bool;
  spicy : option bool
}.

Record PriceRange : Type := { min : option Q; max : option Q }.

(** [req.body]; a property that is [undefined] is [None]. *)
Record Body : Type := {
  category : option string;
  dietary : option Dietary;
  priceRange : option PriceRange;
  ingredients : option (list string);
  excludeIngredients : option (list string);
  limit : option nat
}.

End Combination.

Module ByIngredients.

(** [ingredients] is [None] when the body has none or has one that is
    not an array. *)
Record Body : Type := {
  ingredients : option (list string);
  exclude : bool
}.

End ByIngredients.

Inductive ItemsReply : Type :=
| Items (items : list MenuItem) (count : nat)
| ItemsBadRequest (error : string)       (* 400 *)
| ItemsFailed (error : string).          (* 500 *)

(** [try { ... } catch (error) { res.status(500).json(...) }]. *)
Definition respond (body : JS ItemsReply) (error : string) : ItemsReply :=
  match body with
  | Return reply => reply
  | Throw _ => ItemsFailed error
  end.

(** [x || d] on a number: 0 is falsy. *)
Definition number_or (x : option Q) (d : Q) : Q :=
  match x with
  | Some v => if Qeq_bool v 0 then d else v
  | None => d
  end.

(** [find(query).sort({ 'rating.average': -1, popularity: -1 }).limit(n)]. *)
Definition find_by_average (catalog : list MenuItem) (query : Criteria) (n : nat)
  : list MenuItem :=
  cursor_limit n (stable_sort average_before (filter (selects query) catalog)).

Section Combine.

Variable RegExp : string -> option RegExpObj.

(** [if (l && l.length > 0) query['ingredients.name'] =
    { op: l.map(i => new RegExp(i, 'i')) }]; [current] is what the key
    holds before. *)
Definition set_names (op : list RegExpObj -> NameClause)
  (l : option (list string)) (current : option NameClause)
  : JS (option NameClause) :=
  match l with
  | Some (i :: rest) =>
      rs <- mapM (new_RegExp RegExp) (i :: rest) ;; Return (Some (op rs))
  | _ => Return current
  end.

Definition combination_query (body : Combination.Body) : JS Criteria :=
  let dietary := Combination.dietary body in
  let flag (f : Combination.Dietary -> bool) :=
    match dietary with
    | Some d => when_set (f d)
    | None => None
    end in
  names <- set_names NameIn (Combination.ingredients body) None ;;
  names <- set_names NameNin (Combination.excludeIngredients body) names ;;
  Return
    {| k_availability := available;
       k_vegetarian := flag Combination.vegetarian;
       k_vegan := flag Combination.vegan;
       k_glutenFree := flag Combination.glutenFree;
       k_dairyFree := flag Combination.dairyFree;
       k_spicy :=
         match dietary with
         | Some d => Combination.spicy d
         | None => None
         end;
       k_price :=
         match Combination.priceRange body with
         | Some priceRange =>
             Some (number_or (Combination.min priceRange) 0,
                   number_or (Combination.max priceRange) 1000)
         | None => None
         end;
       k_category :=
         match Combination.category body with
         | Some category =>
             if JSString.truthy category then Some (CategoryIs category) else None
         | None => None
         end;
       k_name := names |}.

Definition combination (catalog : list MenuItem) (body : Combination.Body)
  : ItemsReply :=
  respond
    (query <- combination_query body ;;
     let results :=
       find_by_average catalog query (or_default (Combination.limit body) 15%nat) in
     Return (Items results (length results)))
    "Failed to get combination recommendations".

Definition by_ingredients (catalog : list MenuItem) (body : ByIngredients.Body)
  : ItemsReply :=
  respond
    (match ByIngredients.ingredients body with
     | None | Some [] => Return (ItemsBadRequest "Ingredients array is required")
     | Some ingredients =>
         rs <- mapM (new_RegExp RegExp) ingredients ;;
         let query :=
           {| k_availability := available;
              k_vegetarian := None; k_vegan := None; k_glutenFree := None;
              k_dairyFree := None; k_spicy := None; k_price := None;
              k_category := None;
              k_name :=
                Some (if ByIngredients.exclude body then NameNin rs else NameIn rs) |} in
         let results := find_by_average catalog query 15%nat in
         Return (Items results (length results))
     end)
    "Failed to get ingredient-based recommendations".

End Combine.


(** *** The order by rating average and popularity *)

Lemma average_before_false x y :
  average_before y x = false <-> by_average_then_popularity x y.
Proof.
  unfold average_before, average_compare, by_average_then_popularity.
  destruct (Qcompare_spec (average (rating y)) (average (rating x))) as [H|H|H].
  - destruct (Nat.compare_spec (popularity y) (popularity x)) as [Hp|Hp|Hp].
    + split; [|reflexivity]. intros _. right. split; [now symmetry | lia].
    + split; [|reflexivity]. intros _. right. split; [now symmetry | lia].
    + split; [discriminate|]. intros [H0|[_ H0]]; [rewrite H in H0; lra | lia].
  - split; [|reflexivity]. intros _. now left.
  - split; [discriminate|]. intros [H0|[H0 _]]; [lra | rewrite H0 in H; lra].
Qed.

Lemma by_average_then_popularity_trans x y z :
  by_average_then_popularity x y -> by_average_then_popularity y z ->
  by_average_then_popularity x z.
Proof.
  unfold by_average_then_popularity.
  intros [H1|[H1 H1']] [H2|[H2 H2']].
  - left. lra.
  - left. rewrite <- H2. exact H1.
  - left. rewrite H1. exact H2.
  - right. split; [now rewrite H1 | lia].
Qed.

Lemma stable_sort_by_average (l : list MenuItem) :
  StronglySorted by_average_then_popularity (stable_sort average_before l).
Proof.
  apply StronglySorted_weaken with (R := in_order average_before).
  - intros x y _ _ H. now apply average_before_false.
  - apply stable_sort_sorted.
    + intros x y Hxy. apply average_before_false.
      destruct (average_before y x) eqn:E; [|now apply average_before_false].
      exfalso. unfold average_before, average_compare in *.
      destruct (Qcompare_spec (average (rating x)) (average (rating y)));
        destruct (Qcompare_spec (average (rating y)) (average (rating x)));
        try discriminate; try lra;
        destruct (Nat.compare_spec (popularity x) (popularity y));
        destruct (Nat.compare_spec (popularity y) (popularity x));
        try discriminate; try lia.
    + intros x y z. rewrite !average_before_false.
      intros Hxy Hyz. exact (by_average_then_popularity_trans _ _ _ Hxy Hyz).
Qed.

Lemma In_cursor_limit {A : Type} (x : A) n l :
  In x (cursor_limit n l) -> In x l.
Proof. destruct n; simpl; [tauto|]. apply (In_firstn x (S n)). Qed.

Lemma find_by_average_sorted catalog query n :
  StronglySorted by_average_then_popularity (find_by_average catalog query n).
Proof.
  unfold find_by_average, cursor_limit.
  destruct n; [apply stable_sort_by_average|].
  apply StronglySorted_firstn, stable_sort_by_average.
Qed.

Lemma find_by_average_In catalog query n m :
  In m (find_by_average catalog query n) ->
  In m catalog /\ selects query m = true.
Proof.
  unfold find_by_average. intros H. apply In_cursor_limit in H.
  apply stable_sort_In in H. now apply filter_In in H.
Qed.

Lemma find_by_average_length catalog query n :
  n <> 0%nat -> (length (find_by_average catalog query n) <= n)%nat.
Proof.
  unfold find_by_average, cursor_limit. destruct n; [congruence|].
  intros _. rewrite length_firstn. lia.
Qed.

Section CombineFacts.

Variable RegExp : string -> option RegExpObj.




(** The shape of a success of [POST /combination]. *)
Lemma combination_success catalog body items n :
  combination RegExp catalog body = Items items n ->
  exists query,
    combination_query RegExp body = Return query
    /\ items = find_by_average catalog query
                 (or_default (Combination.limit body) 15%nat)
    /\ n = length items.
Proof.
  unfold combination. intros H.
  destruct (combination_query RegExp body) as [query|e] eqn:Hq;
    [|simpl in H; discriminate].
  cbn [bind respond] in H. injection H as <- <-. eauto.
Qed.

Lemma combination_query_fields body query :
  combination_query RegExp body = Return query ->
  k_availability query = available
  /\ k_price query
     = match Combination.priceRange body with
       | Some priceRange =>
           Some (number_or (Combination.min priceRange) 0,
                 number_or (Combination.max priceRange) 1000)
       | None => None
       end
  /\ k_category query
     = match Combination.category body with
       | Some category =>
           if JSString.truthy category then Some (CategoryIs category) else None
       | None => None
       end.
Proof.
  unfold combination_query. intros H.
  destruct (set_names RegExp NameIn (Combination.ingredients body) None)
    as [names|e]; [|simpl in H; discriminate].
  cbn [bind] in H.
  destruct (set_names RegExp NameNin (Combination.excludeIngredients body) names)
    as [names'|e]; [|simpl in H; discriminate].
  cbn [bind] in H. injection H as <-. simpl. repeat split.
Qed.

End CombineFacts.


(** X26.  A successful reply of [POST /combination] counts the items it
    lists; they are in descending order of rating average and then of
    popularity, are available documents of the catalog, number at most
    [limit] (15 when absent) unless [limit] is 0, have the requested
    category, and have a price between [priceRange.min || 0] and
    [priceRange.max || 1000]: a bound of 0 counts as absent, so an upper
    bound of 0 admits prices up to 1000. *)
Theorem combination_results :
  forall RegExp catalog body items n,
    combination RegExp catalog body = Items items n ->
    n = length items
    /\ StronglySorted by_average_then_popularity items
    /\ (or_default (Combination.limit body) 15%nat <> 0%nat ->
        (length items <= or_default (Combination.limit body) 15%nat)%nat)
    /\ forall m, In m items ->
         In m catalog
         /\ availability m = available
         /\ (forall c, Combination.category body = Some c -> c <> EmptyString ->
                       category_name (category m) = c)
         /\ (forall r, Combination.priceRange body = Some r ->
               number_or (Combination.min r) 0 <= price m
               /\ price m <= number_or (Combination.max r) 1000).
Proof.
  intros RegExp catalog body items n H.
  destruct (combination_success _ _ _ _ _ H) as (query & Hq & -> & ->).
  split; [reflexivity|].
  split; [apply find_by_average_sorted|].
  split; [apply find_by_average_length|].
  intros m Hm. apply find_by_average_In in Hm. destruct Hm as [Hcat Hsel].
  destruct (combination_query_fields _ _ _ Hq) as (Ha & Hp & Hc).
  unfold selects, matches in Hsel. simpl in Hsel.
  rewrite Ha, Hp, Hc in Hsel. rewrite !andb_true_iff in Hsel.
  destruct Hsel as [[(((((((((Hav & _) & _) & _) & _) & Hpr) & Hct) & _) & _)
                       & _) _] _].
  split; [exact Hcat|].
  split; [now apply Availability_beq_eq|].
  split.
  - intros c Hbc Hne. rewrite Hbc in Hct.
    destruct c as [|a c']; [congruence|]. simpl in Hct.
    apply String.eqb_eq in Hct. exact Hct.
  - intros r Hr. rewrite Hr in Hpr. simpl in Hpr.
    apply andb_true_iff in Hpr. now rewrite <- !Qle_bool_iff.
Qed.

(** *** [POST /ingredients] *)

Lemma filter_split_perm {A : Type} (a p : A -> bool) (l : list A) :
  Permutation (filter (fun x => a x && p x) l
               ++ filter (fun x => a x && negb (p x)) l)
              (filter a l).
Proof.
  induction l as [|x l IH]; simpl; [constructor|].
  destruct (a x), (p x); simpl; try exact IH.
  - now constructor.
  - symmetry. apply Permutation_cons_app. now symmetry.
Qed.

Section ByIngredientsFacts.

Variable RegExp : string -> option RegExpObj.

(** The shape of a success of [POST /ingredients]. *)
Lemma by_ingredients_success catalog l exclude items n :
  by_ingredients RegExp catalog
    {| ByIngredients.ingredients := Some l; ByIngredients.exclude := exclude |}
  = Items items n ->
  exists rs,
    mapM (new_RegExp RegExp) l = Return rs
    /\ items
       = cursor_limit 15
           (stable_sort average_before
              (filter (fun m => isAvailable m
                                && (if exclude then negb (name_in rs m)
                                    else name_in rs m))
                      catalog))
    /\ n = length items.
Proof.
  unfold by_ingredients. simpl. intros H.
  destruct l as [|i rest]; [simpl in H; discriminate|].
  destruct (mapM (new_RegExp RegExp) (i :: rest)) as [rs|e] eqn:Hm;
    [|simpl in H; discriminate].
  cbn [bind respond] in H. injection H as <- <-.
  exists rs. split; [reflexivity|]. split; [|reflexivity].
  unfold find_by_average.
  apply (f_equal (cursor_limit 15)), (f_equal (stable_sort average_before)).
  apply filter_ext. intros m.
  unfold selects, matches, isAvailable, name_nin.
  destruct exclude; simpl; now rewrite ?andb_true_r.
Qed.

End ByIngredientsFacts.

(** X27.  For one list of ingredients, [POST /ingredients] with
    [exclude] false and with [exclude] true never list the same item,
    and when the catalog has at most fifteen available items the two
    replies together list each available item once. *)
Theorem by_ingredients_with_and_without :
  forall RegExp catalog l items n items' n',
    by_ingredients RegExp catalog
      {| ByIngredients.ingredients := Some l; ByIngredients.exclude := false |}
    = Items items n ->
    by_ingredients RegExp catalog
      {| ByIngredients.ingredients := Some l; ByIngredients.exclude := true |}
    = Items items' n' ->
    (forall m, In m items -> ~ In m items')
    /\ ((length (filter isAvailable catalog) <= 15)%nat ->
        Permutation (items ++ items') (filter isAvailable catalog)).
Proof.
  intros RegExp catalog l items n items' n' H H'.
  destruct (by_ingredients_success _ _ _ _ _ _ H) as (rs & Hrs & -> & _).
  destruct (by_ingredients_success _ _ _ _ _ _ H') as (rs' & Hrs' & -> & _).
  rewrite Hrs in Hrs'. injection Hrs' as <-.
  pose proof (filter_split_perm isAvailable (name_in rs) catalog) as Hperm.
  split.
  - intros m Hm Hm'.
    apply In_cursor_limit, stable_sort_In, filter_In in Hm.
    apply In_cursor_limit, stable_sort_In, filter_In in Hm'.
    destruct Hm as [_ Hm], Hm' as [_ Hm'].
    apply andb_true_iff in Hm, Hm'.
    destruct Hm as [_ Hm], Hm' as [_ Hm'].
    rewrite Hm in Hm'. discriminate.
  - intros Hle.
    pose proof (Permutation_length Hperm) as Hlen.
    rewrite length_app in Hlen.
    unfold cursor_limit.
    rewrite !firstn_all2 by (rewrite stable_sort_length; lia).
    now rewrite !(stable_sort_perm average_before).
Qed.

(** Beef required and beef excluded. *)
Definition beef_in_and_out : Combination.Body :=
  {| Combination.category := None;
     Combination.dietary := None;
     Combination.priceRange := None;
     Combination.ingredients := Some ["beef"];
     Combination.excludeIngredients := Some ["beef"];
     Combination.limit := None |}.

(** Main dishes that cost nothing. *)
Definition free_mains : Combination.Body :=
  {| Combination.category := Some "main";
     Combination.dietary := None;
     Combination.priceRange :=
       Some {| Combination.min := Some 0; Combination.max := Some 0 |};
     Combination.ingredients := None;
     Combination.excludeIngredients := None;
     Combination.limit := None |}.

Example beef_in_and_out_reply :
  combination RegExpFragment.RegExp Sample.catalog beef_in_and_out
  = Items [Sample.veggie_bowl] 1.
Proof. vm_compute. reflexivity. Qed.


Lemma combination_results_witness :
  2%nat = length [Sample.veggie_bowl; Sample.steak]
  /\ StronglySorted by_average_then_popularity [Sample.veggie_bowl; Sample.steak]
  /\ (or_default (Combination.limit free_mains) 15%nat <> 0%nat ->
      (length [Sample.veggie_bowl; Sample.steak]
       <= or_default (Combination.limit free_mains) 15%nat)%nat)
  /\ forall m, In m [Sample.veggie_bowl; Sample.steak] ->
       In m Sample.catalog
       /\ availability m = available
       /\ (forall c, Combination.category free_mains = Some c ->
                     c <> EmptyString -> category_name (category m) = c)
       /\ (forall r, Combination.priceRange free_mains = Some r ->
             number_or (Combination.min r) 0 <= price m
             /\ price m <= number_or (Combination.max r) 1000).
Proof.
  apply (combination_results RegExpFragment.RegExp Sample.catalog free_mains
           [Sample.veggie_bowl; Sample.steak] 2).
  vm_compute. reflexivity.
Defined.

Lemma by_ingredients_with_and_without_witness :
  (forall m, In m [Sample.steak] -> ~ In m [Sample.veggie_bowl])
  /\ ((length (filter isAvailable Sample.catalog) <= 15)%nat ->
      Permutation ([Sample.steak] ++ [Sample.veggie_bowl])
                  (filter isAvailable Sample.catalog)).
Proof.
  apply (by_ingredients_with_and_without RegExpFragment.RegExp Sample.catalog
           ["beef"] [Sample.steak] 1 [Sample.veggie_bowl] 1).
  - vm_compute. reflexivity.
  - vm_compute. reflexivity.
Defined.

(* ------------------------------------------------------------------ *)
(** ** Daily specials ([MenuItem.findSpecials], [AIService.getDailySpecials]) *)

Module Dish.

(** A menu document with the two fields the specials read beside those
    of [MenuItem]. *)
Record t : Type := {
  item : MenuItem;
  description : string;
  isSpecial : bool
}.

End Dish.

(** [find({ isSpecial: true, availability: 'available' })]. *)
Definition findSpecials (menu : list Dish.t) : list Dish.t :=
  filter (fun d => Bool.eqb (Dish.isSpecial d) true && isAvailable (Dish.item d))
         menu.

(** An entry of [enhancedSpecials]: the special with the added property,
    or the special alone ([None]) when the inner [catch] returned it. *)
Record EnhancedSpecial : Type := {
  special : Dish.t;
  enhancedDescription : option string
}.

Inductive Specials : Type :=
| SpecialsNone (message : string)
| SpecialsFound (specials : list EnhancedSpecial) (count : nat)
| SpecialsFailed (error : string).

Section DailySpecials.

Variable post : AI.Request -> JS AI.Response.

(** The callback of [specials.map]. *)
Definition enhance_special (this : AI.Service) (special : Dish.t)
  : JS EnhancedSpecial :=
  try_catch
    (enhancedDescription <-
       enhanceDescription post this (Dish.description special)
         (map ing_name (ingredients (Dish.item special))) ;;
     Return {| special := special;
               enhancedDescription :=
                 Some (or_else enhancedDescription (Dish.description special)) |})
    (fun error => Return {| special := special; enhancedDescription := None |}).

Definition getDailySpecials (this : AI.Service) (menu : list Dish.t) : JS Specials :=
  try_catch
    (let specials := findSpecials menu in
     if (length specials =? 0)%nat
     then Return (SpecialsNone "No specials available today")
     else
       enhancedSpecials <- mapM (enhance_special this) specials ;;
       Return (SpecialsFound enhancedSpecials (length enhancedSpecials)))
    (fun error => Return (SpecialsFailed "Failed to get daily specials")).

(** What the callback returns: never the bare special. *)
Lemma enhance_special_returns this s :
  exists text,
    enhance_special this s
    = Return {| special := s; enhancedDescription := Some text |}
    /\ (Dish.description s <> EmptyString -> text <> EmptyString).
Proof.
  unfold enhance_special.
  destruct (enhanceDescription_result post this (Dish.description s)
              (map ing_name (ingredients (Dish.item s))))
    as [H | (req & resp & m & c & _ & _ & _ & Ht & H)]; rewrite H; simpl.
  - eexists. split; [reflexivity|].
    unfold or_else. now destruct (JSString.truthy (Dish.description s)).
  - eexists. split; [reflexivity|].
    unfold or_else. rewrite Ht. intros _ E. rewrite E in Ht. discriminate.
Qed.

Lemma mapM_enhance_special this l :
  exists enhanced,
    mapM (enhance_special this) l = Return enhanced
    /\ map special enhanced = l
    /\ forall e, In e enhanced ->
         exists text, enhancedDescription e = Some text
                      /\ (Dish.description (special e) <> EmptyString ->
                          text <> EmptyString).
Proof.
  induction l as [|s l (enhanced & Hm & Hs & Ht)]; simpl.
  - exists []. repeat split. intros e [].
  - destruct (enhance_special_returns this s) as (text & -> & Htext).
    rewrite Hm. simpl. eexists. split; [reflexivity|]. split.
    + simpl. now rewrite Hs.
    + intros e [<-|He]; [exists text; now split | now apply Ht].
Qed.

End DailySpecials.

(** X28.  [getDailySpecials] never fails because of the completion
    service.  With no available special it says so; otherwise it lists
    the available specials in stored order, counts them, and gives each
    an enhanced description, which is empty only when the description of
    the special is. *)
Theorem getDailySpecials_absorbs_failures :
  forall post this menu,
    (findSpecials menu = [] /\
     getDailySpecials post this menu
     = Return (SpecialsNone "No specials available today"))
    \/ (findSpecials menu <> [] /\
        exists enhanced,
          getDailySpecials post this menu
          = Return (SpecialsFound enhanced (length (findSpecials menu)))
          /\ map special enhanced = findSpecials menu
          /\ forall e, In e enhanced ->
               exists text, enhancedDescription e = Some text
                            /\ (Dish.description (special e) <> EmptyString ->
                                text <> EmptyString)).
Proof.
  intros post this menu. unfold getDailySpecials.
  destruct (findSpecials menu) as [|s l] eqn:Hf.
  - left. split; reflexivity.
  - right. split; [discriminate|].
    destruct (mapM_enhance_special post this (s :: l))
      as (enhanced & Hm & Hs & Ht).
    exists enhanced. cbv zeta.
    change ((length (s :: l) =? 0)%nat) with false. cbv iota.
    rewrite Hm. cbn [bind try_catch].
    split; [|split; assumption].
    now rewrite <- Hs, length_map.
Qed.
